(** * obsnerds.trajectory_engine: Track and Trajectory

    A shallow embedding of [src/obsnerds/trajectory_engine.py] and the
    properties of its specification.

    Conventions of the embedding.
    - A Python [float] / numpy [float64] is idealised as an exact rational,
      extended with the IEEE special values that numpy's arithmetic can
      produce ([float64]).  Rounding is not modelled.
    - An [int] (nanosecond timestamps, numpy [int64]) is a [Z]; overflow is
      not modelled.
    - An astropy [Time] instant is the rational number of TAI seconds since
      the Unix epoch (what [Time.unix_tai] returns).
    - A [Track] instance is its attribute dictionary; attributes are created,
      read and rebound by name as the source does.
    - Exceptions and console output are explicit: a computation is a value of
      [py A], a result together with the lines it printed.
    - numpy, scipy and astropy are not part of the program: their functions
      are given by their documented behaviour, and astropy's frame
      transforms are parameters of the generators. *)

From Stdlib Require Import QArith Qround Lqa.
From stdpp Require Import base option list strings gmap sorting.

Local Open Scope Z_scope.

(** ** Numbers *)

Inductive float64 :=
| Finite (q : Q)
| Inf (neg : bool)
| NaN.

Definition Qltb (a b : Q) : bool := negb (Qle_bool b a).


Definition is_zero (x : float64) : bool :=
  match x with Finite q => Qeq_bool q 0 | _ => false end.

Definition fneg (x : float64) : float64 :=
  match x with
  | Finite q => Finite (- q)
  | Inf s => Inf (negb s)
  | NaN => NaN
  end.

Definition fadd (x y : float64) : float64 :=
  match x, y with
  | NaN, _ | _, NaN => NaN
  | Finite a, Finite b => Finite (a + b)
  | Inf s, Finite _ | Finite _, Inf s => Inf s
  | Inf s, Inf s' => if Bool.eqb s s' then Inf s else NaN
  end.

Definition fsub (x y : float64) : float64 := fadd x (fneg y).

Definition fmul (x y : float64) : float64 :=
  match x, y with
  | NaN, _ | _, NaN => NaN
  | Finite a, Finite b => Finite (a * b)
  | Inf s, Finite a | Finite a, Inf s =>
      if Qeq_bool a 0 then NaN else Inf (xorb s (Qltb a 0))
  | Inf s, Inf s' => Inf (xorb s s')
  end.

(** numpy's [true_divide]: a zero divisor gives a non-finite value (and a
    warning), never an exception. *)
Definition fdiv (x y : float64) : float64 :=
  match x, y with
  | NaN, _ | _, NaN => NaN
  | Finite a, Finite b =>
      if Qeq_bool b 0
      then (if Qeq_bool a 0 then NaN else Inf (Qltb a 0))
      else Finite (a / b)
  | Finite _, Inf _ => Finite 0
  | Inf s, Finite b => Inf (xorb s (Qltb b 0))
  | Inf _, Inf _ => NaN
  end.

(** [x > y]; every comparison with NaN is false. *)
Definition fgt (x y : float64) : bool :=
  match x, y with
  | NaN, _ | _, NaN => false
  | Finite a, Finite b => Qltb b a
  | Finite _, Inf s => s
  | Inf s, Finite _ => negb s
  | Inf s, Inf s' => negb s && s'
  end.

Definition of_int (z : Z) : float64 := Finite (inject_Z z).

(** Python's [int(x)] on a float: truncation towards zero. *)
Definition int (q : Q) : Z := Z.quot (Qnum q) (Zpos (Qden q)).

(** ** Exceptions and console output *)

Inductive exn :=
| IndexError
| AttributeError
| ValueError
| TypeError
| ZeroDivisionError.

Inductive result (A : Type) :=
| Ok (a : A)
| Raise (e : exn).
Arguments Ok {A} a.
Arguments Raise {A} e.

Definition py (A : Type) : Type := result A * list string.

Definition py_ret {A} (a : A) : py A := (Ok a, []).
Definition py_bind {A B} (f : A → py B) (m : py A) : py B :=
  match m with
  | (Ok a, out) => let '(r, out') := f a in (r, out ++ out')
  | (Raise e, out) => (Raise e, out)
  end.

#[export] Instance py_mret : MRet py := @py_ret.
#[export] Instance py_mbind : MBind py := @py_bind.

Definition raise {A} (e : exn) : py A := (Raise e, []).
Definition print (s : string) : py unit := (Ok tt, [s]).
Definition lift {A} (r : result A) : py A := (r, []).

Definition value {A} (m : py A) : result A := fst m.
Definition console {A} (m : py A) : list string := snd m.

(** ** Python objects held in attributes *)

Inductive scalar :=
| PyInt (z : Z)
| PyFloat (x : float64)
| PyTime (t : Q)
| PyStr (s : string)
| PyNone.

Inductive ndarray :=
| IntArr (zs : list Z)
| FloatArr (xs : list float64).

Inductive pyobj :=
| Scalar (v : scalar)
| PyList (vs : list scalar)
| NdArray (a : ndarray)
| TimeArr (ts : list Q).

Abbreviation Track := (gmap string pyobj).

(** ** numpy helpers *)

Definition to_float (v : scalar) : option float64 :=
  match v with
  | PyInt z => Some (of_int z)
  | PyFloat x => Some x
  | _ => None
  end.

Definition to_int (v : scalar) : option Z :=
  match v with
  | PyInt z => Some z
  | PyFloat (Finite q) => Some (int q)
  | _ => None
  end.

Definition as_int (v : scalar) : option Z :=
  match v with PyInt z => Some z | _ => None end.

Definition floats_of (a : ndarray) : list float64 :=
  match a with
  | IntArr zs => of_int <$> zs
  | FloatArr xs => xs
  end.

Definition len_array (a : ndarray) : nat :=
  match a with
  | IntArr zs => length zs
  | FloatArr xs => length xs
  end.

(** [np.asarray(obj)] for an object about to be used numerically: a list of
    ints gives an integer array, a list with a float gives a float array. *)
Definition asarray (o : pyobj) : result ndarray :=
  match o with
  | NdArray a => Ok a
  | PyList [] => Ok (FloatArr [])
  | PyList vs =>
      match mapM as_int vs with
      | Some zs => Ok (IntArr zs)
      | None =>
          match mapM to_float vs with
          | Some xs => Ok (FloatArr xs)
          | None => Raise TypeError
          end
      end
  | Scalar _ | TimeArr _ => Raise ValueError
  end.

(** [np.array(obj, dtype=int)] and [np.array(obj, dtype=float)].  A list
    is converted element by element: a float is truncated, a NaN or an
    infinity is refused, [None] becomes NaN in a float array; strings are
    taken as non-numeric.  A float array cast to int maps its non-finite
    entries to the least 64-bit integer. *)
Definition INT64_MIN : Z := - 2 ^ 63.

Definition cast_int (x : float64) : Z :=
  match x with Finite q => int q | _ => INT64_MIN end.

Definition to_float_or_nan (v : scalar) : option float64 :=
  match v with
  | PyNone => Some NaN
  | _ => to_float v
  end.

Definition array_int (o : pyobj) : result (list Z) :=
  match o with
  | NdArray (IntArr zs) => Ok zs
  | NdArray (FloatArr xs) => Ok (cast_int <$> xs)
  | PyList vs =>
      match mapM to_int vs with
      | Some zs => Ok zs
      | None => Raise ValueError
      end
  | Scalar _ | TimeArr _ => Raise TypeError
  end.

Definition array_float (o : pyobj) : result (list float64) :=
  match o with
  | NdArray a => Ok (floats_of a)
  | PyList vs =>
      match mapM to_float_or_nan vs with
      | Some xs => Ok xs
      | None => Raise ValueError
      end
  | Scalar _ | TimeArr _ => Raise TypeError
  end.

(** [np.diff]: [out[i] = a[i+1] - a[i]], one element shorter. *)
Fixpoint diffZ (zs : list Z) : list Z :=
  match zs with
  | z :: (z' :: _) as rest => (z' - z) :: diffZ rest
  | _ => []
  end.

Fixpoint diffF (xs : list float64) : list float64 :=
  match xs with
  | x :: (x' :: _) as rest => fsub x' x :: diffF rest
  | _ => []
  end.

Definition np_diff (a : ndarray) : ndarray :=
  match a with
  | IntArr zs => IntArr (diffZ zs)
  | FloatArr xs => FloatArr (diffF xs)
  end.

(** Element-wise division of two one-dimensional arrays, with numpy's
    broadcasting: equal lengths, or one operand of length one. *)
Definition np_divide (xs ys : list float64) : result (list float64) :=
  if decide (length xs = length ys) then Ok (zip_with fdiv xs ys)
  else match xs, ys with
       | _, [y] => Ok ((λ x, fdiv x y) <$> xs)
       | [x], _ => Ok (fdiv x <$> ys)
       | _, _ => Raise ValueError
       end.

(** The elements of a sequence object, and [obj[i]] for [i = 0]
    ([from_end = false]) and [i = -1] ([from_end = true]). *)
Definition items (o : pyobj) : result (list scalar) :=
  match o with
  | PyList vs => Ok vs
  | NdArray (IntArr zs) => Ok (PyInt <$> zs)
  | NdArray (FloatArr xs) => Ok (PyFloat <$> xs)
  | TimeArr ts => Ok (PyTime <$> ts)
  | Scalar _ => Raise TypeError
  end.

Definition getitem (o : pyobj) (from_end : bool) : result scalar :=
  match items o with
  | Ok vs =>
      match (if from_end then last vs else head vs) with
      | Some v => Ok v
      | None => Raise IndexError
      end
  | Raise e => Raise e
  end.

(** ** Track *)

Definition EPHEM_FILENAME : string := "track.ephem".
Definition TRAJECTORY_FILENAME : string := "track".
Definition TRACK_LOG_FILENAME : string := "track.log".
Definition EL_TRACK_LIMIT : Q := 15 # 10.
Definition AZ_TRACK_LIMIT : Q := 2.

Definition parameters : list string :=
  ["timestamp"; "obstime"; "az"; "el"; "ra"; "dec"; "l"; "b"; "ir"].

Definition getattr (self : Track) (key : string) : py pyobj :=
  match self !! key with
  | Some o => mret o
  | None => raise AttributeError
  end.

Fixpoint init_kwargs (self : Track) (kwargs : list (string * pyobj)) : py Track :=
  match kwargs with
  | [] => mret self
  | (key, val) :: rest =>
      if bool_decide (key ∈ parameters)
      then init_kwargs (<[key := val]> self) rest
      else _ ← print (key +:+ " not allowed parameter"); init_kwargs self rest
  end.

Definition Track_init (name : string) (kwargs : list (string * pyobj)) : py Track :=
  let self : Track := {["parameters" := PyList (PyStr <$> parameters)]} in
  let self := <["name" := Scalar (PyStr name)]> self in
  let self := foldl (λ s param, <[param := PyList []]> s) self parameters in
  init_kwargs self kwargs.

Fixpoint add (self : Track) (kwargs : list (string * scalar)) : py Track :=
  match kwargs with
  | [] => mret self
  | (key, value) :: rest =>
      o ← getattr self key;
      match o with
      | PyList vs => add (<[key := PyList (vs ++ [value])]> self) rest
      | _ => raise AttributeError
      end
  end.

Definition rates (self : Track) : py Track :=
  timestamp ← getattr self "timestamp";
  ts ← lift (asarray timestamp);
  let dt := (λ x, fdiv x (Finite 1e9)) <$> floats_of (np_diff ts) in
  az ← getattr self "az";
  az ← lift (asarray az);
  dazdt ← lift (np_divide (floats_of (np_diff az)) dt);
  let self := <["dazdt" := NdArray (FloatArr dazdt)]> self in
  el ← getattr self "el";
  el ← lift (asarray el);
  deldt ← lift (np_divide (floats_of (np_diff el)) dt);
  mret (<["deldt" := NdArray (FloatArr deldt)]> self).

(** One line of the ephemeris, before formatting with
    ['%i  %.5f  %.5f  %.10E']. *)
Definition ephem_row : Type := Z * float64 * float64 * float64.

Definition zip4 (tai : list Z) (az el ir : list float64) : list ephem_row :=
  zip (zip (zip tai az) el) ir.

(** [np.savetxt(filename, np.array([tai, az, el, ir], dtype=object).T, fmt)]:
    four sequences of one length give a two-dimensional array and one line
    per sample; otherwise the object array is one-dimensional and the
    four-field format is refused. *)
Definition savetxt (tai : list Z) (az el ir : list float64) : result (list ephem_row) :=
  if decide (length az = length tai ∧ length el = length tai ∧ length ir = length tai)
  then Ok (zip4 tai az el ir)
  else Raise ValueError.

Definition ephem_file (self : Track) (filename : string) : py (Track * list ephem_row) :=
  _ ← print ("Writing ephemerides:  " +:+ filename);
  timestamp ← getattr self "timestamp";
  tai ← lift (array_int timestamp);
  az ← getattr self "az";
  az ← lift (array_float az);
  el ← getattr self "el";
  el ← lift (array_float el);
  _ ← print "NEED TO GET DISTANCES FROM SOPP";
  let ir := (λ z, fadd z (Finite 1e-20)) <$> replicate (length tai) (Finite 0) in
  let self := <["ir" := NdArray (FloatArr ir)]> self in
  rows ← lift (savetxt tai az el ir);
  mret (<["ephemtxt" := Scalar PyNone]> self, rows).

(** The two-point summary rendered by [__repr__]. *)
Record point := {
  p_label : string;
  p_obstime : scalar;
  p_lb : option (scalar * scalar);
  p_radec : option (scalar * scalar);
  p_azel : option (scalar * scalar)
}.

(** [try: s += f"...{self.x[i]:.3f}, ...{self.y[i]:.3f}" except IndexError: pass] *)
Definition try_pair (self : Track) (x y : string) (from_end : bool)
  : py (option (scalar * scalar)) :=
  ox ← getattr self x;
  match getitem ox from_end with
  | Raise IndexError => mret None
  | Raise e => raise e
  | Ok vx =>
      oy ← getattr self y;
      match getitem oy from_end with
      | Raise IndexError => mret None
      | Raise e => raise e
      | Ok vy => mret (Some (vx, vy))
      end
  end.

Definition repr_point (self : Track) (from_end : bool) (lbl : string) : py point :=
  obstime ← getattr self "obstime";
  t ← lift (getitem obstime from_end);
  lb ← try_pair self "l" "b" from_end;
  radec ← try_pair self "ra" "dec" from_end;
  azel ← try_pair self "az" "el" from_end;
  mret {| p_label := lbl; p_obstime := t; p_lb := lb; p_radec := radec; p_azel := azel |}.

Definition repr (self : Track) : py (pyobj * list point) :=
  name ← getattr self "name";
  p0 ← repr_point self false "Start at:";
  p1 ← repr_point self true "End at:";
  mret (name, [p0; p1]).

Inductive file :=
| LogFile (label : pyobj) (summary : list point)
| EphemFile (rows : list ephem_row)
| Archive (arrays : list (string * pyobj)).

(** [print(self)] and [print(self, file=fp)] each render the summary; the
    text of the first is not kept among the console lines. *)
Definition log_track (self : Track) (filename : string) : py file :=
  s ← repr self;
  s' ← repr self;
  _ ← print ("Writing log: " +:+ filename);
  mret (LogFile s'.1 s'.2).

(** [np.savez_compressed] of [self.obstime.datetime] and the seven
    coordinate attributes. *)
Definition full_file (self : Track) (filename : string) : py file :=
  _ ← print ("Writing full trajectory: " +:+ filename);
  obstime ← getattr self "obstime";
  datetime ← match obstime with TimeArr _ => mret obstime | _ => raise AttributeError end;
  az ← getattr self "az";
  el ← getattr self "el";
  ra ← getattr self "ra";
  dec ← getattr self "dec";
  l ← getattr self "l";
  b ← getattr self "b";
  ir ← getattr self "ir";
  mret (Archive [("obstime", datetime); ("az", az); ("el", el); ("ra", ra);
                 ("dec", dec); ("l", l); ("b", b); ("ir", ir)]).

(** ** Time grids *)

(** [np.arange(0, stop, step)]: [ceil(stop / step)] values [i * step]
    (none when that is not positive); a zero step is refused. *)
Definition arange_int (stop step : Z) : result (list Z) :=
  if decide (step = 0) then Raise ZeroDivisionError
  else Ok ((λ i : nat, Z.of_nat i * step) <$> seq 0 (Z.to_nat (- ((- stop) `div` step)))).

Definition arange_float (stop step : Q) : result (list Q) :=
  if Qeq_bool step 0 then Raise ValueError
  else Ok ((λ i : nat, (0 + inject_Z (Z.of_nat i) * step)%Q)
             <$> seq 0 (Z.to_nat (Qceiling (stop / step)))).

(** ** scipy.interpolate.interp1d, linear, as delegated to [numpy.interp] *)

Definition is_nan (x : float64) : bool :=
  match x with NaN => true | _ => false end.

Definition feqb (x y : float64) : bool :=
  match x, y with
  | Finite a, Finite b => Qeq_bool a b
  | Inf s, Inf s' => Bool.eqb s s'
  | _, _ => false
  end.

(** The line through two neighbouring knots; when the value is NaN the other
    knot is tried, as [numpy.interp] does. *)
Definition lerp (x0 : Z) (y0 : float64) (x1 : Z) (y1 : float64) (x : Z) : float64 :=
  let slope := fdiv (fsub y1 y0) (fsub (of_int x1) (of_int x0)) in
  let r := fadd (fmul slope (fsub (of_int x) (of_int x0))) y0 in
  if is_nan r then
    let r' := fadd (fmul slope (fsub (of_int x) (of_int x1))) y1 in
    if is_nan r' && feqb y0 y1 then y0 else r'
  else r.

(** The knot [j] used for [x] is the last one with [xp[j] <= x]; a value
    at a knot is the knot's ordinate itself. *)
Fixpoint interp_at (knots : list (Z * float64)) (x : Z) : float64 :=
  match knots with
  | [] => NaN
  | (x0, y0) :: rest =>
      match rest with
      | [] => y0
      | (x1, y1) :: _ =>
          if x1 <=? x then interp_at rest x
          else if x0 =? x then y0
          else lerp x0 y0 x1 y1 x
      end
  end.

Definition np_interp (knots : list (Z * float64)) (x : Z) : float64 :=
  match knots with
  | [] => NaN
  | (x0, y0) :: _ => if x <? x0 then y0 else interp_at knots x
  end.

(** Stable sort of the knots by abscissa ([np.argsort(x, kind="mergesort")]). *)
Fixpoint insert_knot (a : Z * float64) (l : list (Z * float64)) : list (Z * float64) :=
  match l with
  | [] => [a]
  | k :: l' => if a.1 <=? k.1 then a :: k :: l' else k :: insert_knot a l'
  end.

Definition sort_knots (l : list (Z * float64)) : list (Z * float64) :=
  foldr insert_knot [] l.

(** [interp1d(x, y, fill_value=fill, bounds_error=False)] *)
Definition interp1d (x : list Z) (y : list float64) : result (list (Z * float64)) :=
  if decide (length x = length y) then
    match x with
    | [] => Raise ValueError
    | _ => Ok (sort_knots (zip x y))
    end
  else Raise ValueError.

Definition out_of_bounds (knots : list (Z * float64)) (x : Z) : bool :=
  match knots with
  | [] => true
  | (x0, _) :: _ => (x <? x0) || (List.last (fst <$> knots) x0 <? x)
  end.

Definition interp1d_call (knots : list (Z * float64)) (fill : float64) (x_new : list Z)
  : list float64 :=
  (λ x, if out_of_bounds knots x then fill else np_interp knots x) <$> x_new.

(** [np.where(mask)[0]] and indexing with the index array it returns. *)
Fixpoint where_from (i : nat) (mask : list bool) : list nat :=
  match mask with
  | [] => []
  | m :: mask' => if m then i :: where_from (S i) mask' else where_from (S i) mask'
  end.

Definition np_where (mask : list bool) : list nat := where_from 0 mask.

Definition take {A} (a : list A) (idx : list nat) : result (list A) :=
  match mapM (λ i, a !! i) idx with
  | Some r => Ok r
  | None => Raise IndexError
  end.

(** ** Trajectory *)

Record Namespace := {
  T0_gal_l : list Q;
  T0_radec : list (Q * Q);
  T0_azel : list (Q * Q);
  T0_above_horizon : list nat
}.

(** The attributes of a [Trajectory]; an attribute that is only created
    by a generator is an [option].  [self_b] and [self_rate] are the
    source's [self.b] and [self.rate]. *)
Record Trajectory := {
  valid : bool;
  tz : Q;
  start_time : Q;
  el_horizon : Q;
  time_to_track : Q;
  tstep : Q;
  track_Time : list Q;
  track_tsns : list Z;
  trajectory_type : option string;
  self_b : option Q;
  self_rate : option Q;
  T0 : option Namespace;
  track : option Track;
  input_track : option Track
}.

(** [local] is the instant [Time(start_time)] denotes; [tz] is in hours,
    [time_to_track] in minutes and [tstep] in seconds. *)
Definition Trajectory_init (local time_to_track tstep el_horizon tz : Q) : py Trajectory :=
  let start_time := (local - tz * 3600)%Q in
  let time_to_track := (time_to_track * 60.0)%Q in
  offs ← lift (arange_float time_to_track tstep);
  let track_Time := (λ d, (start_time + d)%Q) <$> offs in
  ns ← lift (arange_int (int (time_to_track * 1e9)) (int (tstep * 1e9)));
  let track_tsns := (λ n, int (start_time * 1e9) + n) <$> ns in
  mret {| valid := true; tz := tz; start_time := start_time;
          el_horizon := el_horizon; time_to_track := time_to_track;
          tstep := tstep; track_Time := track_Time; track_tsns := track_tsns;
          trajectory_type := None; self_b := None; self_rate := None;
          T0 := None; track := None; input_track := None |}.

Definition set_valid (v : bool) (self : Trajectory) : Trajectory :=
  {| valid := v; tz := self.(tz); start_time := self.(start_time);
     el_horizon := self.(el_horizon); time_to_track := self.(time_to_track);
     tstep := self.(tstep); track_Time := self.(track_Time);
     track_tsns := self.(track_tsns); trajectory_type := self.(trajectory_type);
     self_b := self.(self_b); self_rate := self.(self_rate); T0 := self.(T0);
     track := self.(track); input_track := self.(input_track) |}.

Definition set_track (t : Track) (self : Trajectory) : Trajectory :=
  {| valid := self.(valid); tz := self.(tz); start_time := self.(start_time);
     el_horizon := self.(el_horizon); time_to_track := self.(time_to_track);
     tstep := self.(tstep); track_Time := self.(track_Time);
     track_tsns := self.(track_tsns); trajectory_type := self.(trajectory_type);
     self_b := self.(self_b); self_rate := self.(self_rate); T0 := self.(T0);
     track := Some t; input_track := self.(input_track) |}.

Definition set_input_track (t : Track) (self : Trajectory) : Trajectory :=
  {| valid := self.(valid); tz := self.(tz); start_time := self.(start_time);
     el_horizon := self.(el_horizon); time_to_track := self.(time_to_track);
     tstep := self.(tstep); track_Time := self.(track_Time);
     track_tsns := self.(track_tsns); trajectory_type := self.(trajectory_type);
     self_b := self.(self_b); self_rate := self.(self_rate); T0 := self.(T0);
     track := self.(track); input_track := Some t |}.

Definition set_trajectory_type (s : string) (self : Trajectory) : Trajectory :=
  {| valid := self.(valid); tz := self.(tz); start_time := self.(start_time);
     el_horizon := self.(el_horizon); time_to_track := self.(time_to_track);
     tstep := self.(tstep); track_Time := self.(track_Time);
     track_tsns := self.(track_tsns); trajectory_type := Some s;
     self_b := self.(self_b); self_rate := self.(self_rate); T0 := self.(T0);
     track := self.(track); input_track := self.(input_track) |}.

Definition set_galactic (b rate : Q) (ns : option Namespace) (self : Trajectory) : Trajectory :=
  {| valid := self.(valid); tz := self.(tz); start_time := self.(start_time);
     el_horizon := self.(el_horizon); time_to_track := self.(time_to_track);
     tstep := self.(tstep); track_Time := self.(track_Time);
     track_tsns := self.(track_tsns); trajectory_type := self.(trajectory_type);
     self_b := Some b; self_rate := Some rate; T0 := ns;
     track := self.(track); input_track := self.(input_track) |}.

Definition float (q : Q) : scalar := PyFloat (Finite q).

Section Generators.

(** astropy's frame transforms at the site [HCRO]:
    galactic [(l, b)] to ICRS [(ra, dec)], and ICRS at an instant to
    horizontal [(az, alt)]; all angles in degrees.  [str_deg] renders a
    latitude quantity in a track name. *)
Variable to_icrs : Q → Q → Q * Q.
Variable to_altaz : Q * Q → Q → Q * Q.
Variable str_deg : Q → string.

(** The longitudes sampled at the start instant. *)
Definition gp_l : list Q :=
  match arange_float 359.9 0.1 with Ok l => l | Raise _ => [] end.

(** One pass of the loop body of [galactic] at grid index [i]. *)
Definition sweep_l (starting_l R : Q) (i : nat) : Q :=
  let this_l := (starting_l + inject_Z (Z.of_nat i) * R)%Q in
  if Qltb 360.0 this_l then (this_l - 360.0)%Q else this_l.

Fixpoint sweep (trk : Track) (starting_l R b : Q) (i : nat) (times : list Q) : py Track :=
  match times with
  | [] => mret trk
  | t :: times' =>
      let this_l := sweep_l starting_l R i in
      let radec := to_icrs this_l b in
      let azel := to_altaz radec t in
      trk ← add trk [("az", float azel.1); ("el", float azel.2);
                     ("ra", float radec.1); ("dec", float radec.2);
                     ("l", float this_l); ("b", float b)];
      sweep trk starting_l R b (S i) times'
  end.

Definition galactic (self : Trajectory) (b rate : Q) : py Trajectory :=
  let self := set_trajectory_type "galactic" self in
  let self := set_galactic b rate None self in
  (* SkyCoord refuses a latitude outside [-90, 90] *)
  _ ← (if Qltb b (-90) || Qltb 90 b then raise ValueError else mret tt);
  let radec := (λ l, to_icrs l b) <$> gp_l in
  let azel := (λ rd, to_altaz rd self.(start_time)) <$> radec in
  let above_horizon := np_where ((λ ae : Q * Q, Qltb self.(el_horizon) ae.2) <$> azel) in
  let self := set_galactic b rate
                (Some {| T0_gal_l := gp_l; T0_radec := radec; T0_azel := azel;
                         T0_above_horizon := above_horizon |}) self in
  match above_horizon with
  | [] =>
      _ ← print "Nothing above the supplied horizon";
      mret (set_valid false self)
  | i0 :: _ =>
      starting_l ← lift (match gp_l !! i0 with Some l => Ok l | None => Raise IndexError end);
      trk ← Track_init ("Galactic b=" +:+ str_deg b)
              [("timestamp", NdArray (IntArr self.(track_tsns)));
               ("obstime", TimeArr self.(track_Time))];
      let self := set_track trk self in
      let R := (rate * self.(tstep))%Q in
      trk ← sweep trk starting_l R b 0 self.(track_Time);
      let self := set_track trk self in
      trk ← rates trk;
      mret (set_track trk self)
  end.

End Generators.

(** One line of the input file after [line.split(',')] and the conversions
    [Time(data[0], format='isot')], [float(data[1])], [float(data[2])],
    [float(data[3])]. *)
Record record := {
  r_obstime : Q;
  r_az : float64;
  r_el : float64;
  r_range : float64
}.

(** Python's [1.0 / x] on floats: a zero divisor raises. *)
Definition inverse (x : float64) : result float64 :=
  if is_zero x then Raise ZeroDivisionError else Ok (fdiv (Finite 1.0) x).

Definition first_time (grid : list Q) : result Q :=
  match head grid with Some t => Ok t | None => Raise IndexError end.

Definition last_time (grid : list Q) : result Q :=
  match last grid with Some t => Ok t | None => Raise IndexError end.

(** [obstime >= track_Time[0] and obstime <= track_Time[-1]] *)
Definition in_span (grid : list Q) (obstime : Q) : result bool :=
  match first_time grid with
  | Raise e => Raise e
  | Ok t0 =>
      if Qle_bool t0 obstime then
        match last_time grid with
        | Raise e => Raise e
        | Ok t1 => Ok (Qle_bool obstime t1)
        end
      else Ok false
  end.

Fixpoint read_lines (grid : list Q) (inp : Track) (overlap : bool) (lines : list record)
  : py (Track * bool) :=
  match lines with
  | [] => mret (inp, overlap)
  | r :: lines' =>
      overlap ← (if overlap then mret true else lift (in_span grid r.(r_obstime)));
      let ts := int (r.(r_obstime) * 1e9) in
      ir ← lift (inverse r.(r_range));
      inp ← add inp [("timestamp", PyInt ts); ("obstime", PyTime r.(r_obstime));
                     ("az", PyFloat r.(r_az)); ("el", PyFloat r.(r_el));
                     ("ir", PyFloat ir)];
      read_lines grid inp overlap lines'
  end.

Definition as_time (v : scalar) : option Q :=
  match v with PyTime t => Some t | _ => None end.

(** [Time(list_of_Time)]; an empty list is refused (no format can be
    guessed from a zero-size array). *)
Definition Time_of_list (o : pyobj) : result pyobj :=
  match o with
  | PyList [] => Raise ValueError
  | PyList vs =>
      match mapM as_time vs with
      | Some ts => Ok (TimeArr ts)
      | None => Raise ValueError
      end
  | TimeArr ts => Ok (TimeArr ts)
  | _ => Raise ValueError
  end.

(** [interpolate.interp1d(inp.timestamp, inp.<field>, fill_value=0.0,
    bounds_error=False)] *)
Definition interpolant (inp : Track) (field : string) : py (list (Z * float64)) :=
  x ← getattr inp "timestamp";
  x ← lift (asarray x);
  y ← getattr inp field;
  y ← lift (asarray y);
  match x with
  | IntArr xs => lift (interp1d xs (floats_of y))
  | FloatArr _ => raise TypeError
  end.

Definition int_array (o : pyobj) : py (list Z) :=
  match o with
  | NdArray (IntArr zs) => mret zs
  | _ => raise TypeError
  end.

Definition time_array (o : pyobj) : py (list Q) :=
  match o with
  | TimeArr ts => mret ts
  | _ => raise TypeError
  end.

(** The block "Read input file" of [from_file]: the input track and the
    overlap flag. *)
Definition read_input (grid : list Q) (filename : string) (lines : list record)
  : py (Track * bool) :=
  inp ← Track_init ("Input: " +:+ filename) [];
  '(inp, overlap) ← read_lines grid inp false lines;
  obstime ← getattr inp "obstime";
  obstime ← lift (Time_of_list obstime);
  mret (<["obstime" := obstime]> inp, overlap).

(** The block "Overlap, so fit az, el, ir" of [from_file], up to the call
    of [rates]: the output track [trk] resampled from the input track. *)
Definition fit (trk inp : Track) : py Track :=
  f ← interpolant inp "el";
  timestamp ← getattr trk "timestamp";
  timestamp ← int_array timestamp;
  let _el := interp1d_call f (Finite 0.0) timestamp in
  let valid := np_where ((λ e, fgt e (Finite 0.0)) <$> _el) in
  timestamp ← lift (take timestamp valid);
  let trk := <["timestamp" := NdArray (IntArr timestamp)]> trk in
  obstime ← getattr trk "obstime";
  obstime ← time_array obstime;
  obstime ← lift (take obstime valid);
  let trk := <["obstime" := TimeArr obstime]> trk in
  el ← lift (take _el valid);
  let trk := <["el" := NdArray (FloatArr el)]> trk in
  f ← interpolant inp "az";
  let trk := <["az" := NdArray (FloatArr (interp1d_call f (Finite 0.0) timestamp))]> trk in
  f ← interpolant inp "ir";
  mret (<["ir" := NdArray (FloatArr (interp1d_call f (Finite 0.0) timestamp))]> trk).

Definition from_file (self : Trajectory) (filename : string) (lines : list record)
  : py Trajectory :=
  let self := set_trajectory_type "from_file" self in
  trk ← Track_init ("Output: " +:+ filename)
          [("timestamp", NdArray (IntArr self.(track_tsns)));
           ("obstime", TimeArr self.(track_Time))];
  let self := set_track trk self in
  '(inp, overlap) ← read_input self.(track_Time) filename lines;
  let self := set_input_track inp self in
  if negb overlap then
    _ ← print "This supplied file and desired track don't overlap";
    mret (set_valid false self)
  else
    trk ← fit trk inp;
    let self := set_track trk self in
    trk ← rates trk;
    mret (set_track trk self).

Definition write (self : Trajectory) : py (Trajectory * list (string * file)) :=
  if negb self.(valid) then
    _ ← print "Trajectory not valid.";
    mret (self, [])
  else
    trk ← match self.(track) with Some t => mret t | None => raise AttributeError end;
    log ← log_track trk TRACK_LOG_FILENAME;
    '(trk, rows) ← ephem_file trk EPHEM_FILENAME;
    let self := set_track trk self in
    archive ← full_file trk TRAJECTORY_FILENAME;
    mret (self, [(TRACK_LOG_FILENAME, log); (EPHEM_FILENAME, EphemFile rows);
                 (TRAJECTORY_FILENAME, archive)]).

(** ** Vocabulary of the statements *)

(** The notices printed by [Track.__init__] for the refused keywords. *)
Definition notices (kwargs : list (string * pyobj)) : list string :=
  (λ kv, kv.1 +:+ " not allowed parameter") <$> filter (λ kv, kv.1 ∉ parameters) kwargs.

(** The value bound to [key] by the keywords, [d] when there is none. *)
Fixpoint supplied (key : string) (kwargs : list (string * pyobj)) (d : option pyobj)
  : option pyobj :=
  match kwargs with
  | [] => d
  | (k, v) :: rest => supplied key rest (if decide (k = key) then Some v else d)
  end.

(** The attributes other than the nine parameters: the label and the
    parameter list itself. *)
Definition bookkeeping (name key : string) : option pyobj :=
  if decide (key = "name") then Some (Scalar (PyStr name))
  else if decide (key = "parameters") then Some (PyList (PyStr <$> parameters))
  else None.

(** The values given for [key] in one call of [add], in order. *)
Definition appended (key : string) (kwargs : list (string * scalar)) : list scalar :=
  (filter (λ kv, kv.1 = key) kwargs).*2.

Definition is_list (self : Track) (key : string) : Prop :=
  ∃ vs, self !! key = Some (PyList vs).

Definition length_of (self : Track) (key : string) : option nat :=
  match self !! key with
  | Some o => match items o with Ok vs => Some (length vs) | Raise _ => None end
  | None => None
  end.

(** The az/el/timestamp/obstime group has one common length. *)
Definition synchronized (self : Track) : Prop :=
  length_of self "az" = length_of self "el" ∧
  length_of self "el" = length_of self "timestamp" ∧
  length_of self "timestamp" = length_of self "obstime".


(** The inverse range written by [ephem_file]: [np.zeros(n) + 1E-20]. *)
Definition sentinel : float64 := fadd (Finite 0) (Finite 1e-20).

(** A three-second grid starting at instant 100 and an input file of three
    lines around it, used in the examples. *)
Definition grid3 : py Trajectory := Trajectory_init 100 (1 # 20) 1 30 0.

Definition lines3 : list record :=
  [ {| r_obstime := 100; r_az := Finite 10; r_el := Finite 5; r_range := Finite 2 |};
    {| r_obstime := 101.5; r_az := Finite 20; r_el := Finite (-5); r_range := Finite 4 |};
    {| r_obstime := 103; r_az := Finite 30; r_el := Finite 5; r_range := Finite 4 |} ].

(** The attribute [key] of the trajectory's track, and the ephemeris lines
    among the files written. *)
Definition attr (self : Trajectory) (key : string) : option pyobj :=
  match self.(track) with Some trk => trk !! key | None => None end.

Definition written_rows (files : list (string * file)) : list ephem_row :=
  flat_map (λ nf, match nf.2 with EphemFile rows => rows | _ => [] end) files.

(** The keywords [from_file] passes to [add] for one line, and what a
    whole file appends to the attribute [key]. *)
Definition timestamp_of (r : record) : Z := int (r.(r_obstime) * 1e9).

Definition inverse_range (r : record) : float64 := fdiv (Finite 1.0) r.(r_range).

Definition line_kwargs (r : record) : list (string * scalar) :=
  [("timestamp", PyInt (timestamp_of r)); ("obstime", PyTime r.(r_obstime));
   ("az", PyFloat r.(r_az)); ("el", PyFloat r.(r_el));
   ("ir", PyFloat (inverse_range r))].

Definition column (key : string) (lines : list record) : list scalar :=
  flat_map (λ r, appended key (line_kwargs r)) lines.

(** [t] lies between the first and the last instant of the grid. *)
Definition within (grid : list Q) (t : Q) : bool :=
  match head grid, last grid with
  | Some t0, Some t1 => Qle_bool t0 t && Qle_bool t t1
  | _, _ => false
  end.

(** The elements of [l] at the positions where [mask] holds. *)
Fixpoint select {A} (mask : list bool) (l : list A) : list A :=
  match mask, l with
  | m :: mask', x :: l' => if m then x :: select mask' l' else select mask' l'
  | _, _ => []
  end.

(** The interpolant of one input column, the interpolated elevation on the
    grid and the mask [_el > 0.0] derived from it. *)
Definition knots_of (field : record → float64) (lines : list record) : list (Z * float64) :=
  sort_knots (zip (timestamp_of <$> lines) (field <$> lines)).

Definition on_grid (field : record → float64) (lines : list record) (grid : list Z)
  : list float64 :=
  interp1d_call (knots_of field lines) (Finite 0.0) grid.

Definition el_mask (lines : list record) (grid : list Z) : list bool :=
  (λ e, fgt e (Finite 0.0)) <$> on_grid r_el lines grid.

Definition line_keys : list string := ["timestamp"; "obstime"; "az"; "el"; "ir"].

(** The order in which [interp1d] sorts its knots. *)
Definition knot_le (a b : Z * float64) : Prop := a.1 ≤ b.1.

(** A configured three-second grid and a file whose lines fall exactly on
    its instants, used in the examples. *)
Definition unconfigured : Trajectory :=
  {| valid := false; tz := 0; start_time := 0; el_horizon := 0; time_to_track := 0;
     tstep := 0; track_Time := []; track_tsns := []; trajectory_type := None;
     self_b := None; self_rate := None; T0 := None; track := None; input_track := None |}.

Definition cfg3 : Trajectory :=
  Eval vm_compute in match value grid3 with Ok c => c | Raise _ => unconfigured end.

Definition knots3 : list record :=
  [ {| r_obstime := 100; r_az := Finite 10; r_el := Finite 5; r_range := Finite 2 |};
    {| r_obstime := 101; r_az := Finite 20; r_el := Finite 7; r_range := Finite 4 |};
    {| r_obstime := 102; r_az := Finite 30; r_el := Finite 9; r_range := Finite 8 |} ].

(** The frame transforms are functions of the angles and the instant, not
    of the fractions that represent them. *)
Definition icrs_respects (to_icrs : Q → Q → Q * Q) : Prop :=
  ∀ l l' b, (l == l')%Q →
    ((to_icrs l b).1 == (to_icrs l' b).1)%Q ∧ ((to_icrs l b).2 == (to_icrs l' b).2)%Q.

Definition altaz_respects (to_altaz : Q * Q → Q → Q * Q) : Prop :=
  ∀ rd rd' t t', (rd.1 == rd'.1)%Q → (rd.2 == rd'.2)%Q → (t == t')%Q →
    ((to_altaz rd t).2 == (to_altaz rd' t').2)%Q.

(** The keywords [galactic] passes to [add] at grid index [i], instant [t],
    and what the whole loop appends to the attribute [key]. *)
Definition sweep_kwargs (to_icrs : Q → Q → Q * Q) (to_altaz : Q * Q → Q → Q * Q)
    (starting_l R b : Q) (i : nat) (t : Q) : list (string * scalar) :=
  let this_l := sweep_l starting_l R i in
  let radec := to_icrs this_l b in
  let azel := to_altaz radec t in
  [("az", float azel.1); ("el", float azel.2); ("ra", float radec.1);
   ("dec", float radec.2); ("l", float this_l); ("b", float b)].

Fixpoint sweep_column (to_icrs : Q → Q → Q * Q) (to_altaz : Q * Q → Q → Q * Q)
    (key : string) (starting_l R b : Q) (i : nat) (times : list Q) : list scalar :=
  match times with
  | [] => []
  | t :: times' =>
      appended key (sweep_kwargs to_icrs to_altaz starting_l R b i t)
      ++ sweep_column to_icrs to_altaz key starting_l R b (S i) times'
  end.

Definition sweep_keys : list string := ["az"; "el"; "ra"; "dec"; "l"; "b"].

(** The elevation of the sweep at grid index [i], instant [t]. *)
Definition sweep_el (to_icrs : Q → Q → Q * Q) (to_altaz : Q * Q → Q → Q * Q)
    (starting_l R b : Q) (i : nat) (t : Q) : Q :=
  (to_altaz (to_icrs (sweep_l starting_l R i) b) t).2.

Definition sweep_az (to_icrs : Q → Q → Q * Q) (to_altaz : Q * Q → Q → Q * Q)
    (starting_l R b : Q) (i : nat) (t : Q) : Q :=
  (to_altaz (to_icrs (sweep_l starting_l R i) b) t).1.

(** The elevation of longitude [l] at the start instant, as sampled by
    [galactic] to choose the starting longitude. *)
Definition start_el (to_icrs : Q → Q → Q * Q) (to_altaz : Q * Q → Q → Q * Q)
    (self : Trajectory) (b l : Q) : Q :=
  (to_altaz (to_icrs l b) self.(start_time)).2.

(** Stand-ins for the transforms in the examples: the sky does not turn,
    azimuth is the longitude, and the elevation is 45 degrees everywhere
    ([level_altaz]), 10 degrees everywhere ([low_altaz]), or falls by twenty degrees per degree of longitude from
    50 degrees at longitude 0 ([falling_altaz]). *)
Definition plain_icrs (l b : Q) : Q * Q := (l, b).
Definition level_altaz (rd : Q * Q) (t : Q) : Q * Q := (rd.1, 45%Q).
Definition falling_altaz (rd : Q * Q) (t : Q) : Q * Q := (rd.1, (50 - 20 * rd.1)%Q).
Definition plain_str (b : Q) : string := "b".

(** The galactic longitudes stored in the trajectory's track. *)
Definition longitudes (self : Trajectory) : list Q :=
  match attr self "l" with
  | Some (PyList vs) =>
      omap (λ v, match v with PyFloat (Finite q) => Some q | _ => None end) vs
  | _ => []
  end.


(** A file covering only the middle of the three-second grid. *)
Definition middle2 : list record :=
  [ {| r_obstime := 101; r_az := Finite 10; r_el := Finite 5; r_range := Finite 2 |};
    {| r_obstime := 101.5; r_az := Finite 20; r_el := Finite 7; r_range := Finite 4 |} ].

(** ** Vocabulary of the further properties *)

(** [obj[0]] or [obj[-1]] of a sequence of items. *)
Definition pick (from_end : bool) (vs : list scalar) : option scalar :=
  if from_end then last vs else head vs.

(** The entry of the summary for a pair of coordinate sequences: omitted as
    soon as one of them has no sample. *)
Definition pair_entry (from_end : bool) (xs ys : list scalar) : option (scalar * scalar) :=
  match pick from_end xs, pick from_end ys with
  | Some x, Some y => Some (x, y)
  | _, _ => None
  end.

(** The attribute [key] exists and is a list or an array with items [vs]. *)
Definition sequence (self : Track) (key : string) (vs : list scalar) : Prop :=
  ∃ o, self !! key = Some o ∧ items o = Ok vs.

(** The array stored under [key] in an archive. *)
Fixpoint assoc (key : string) (kvs : list (string * pyobj)) : option pyobj :=
  match kvs with
  | [] => None
  | (k, v) :: rest => if decide (k = key) then Some v else assoc key rest
  end.

Definition archive_entry (f : file) (key : string) : option pyobj :=
  match f with
  | Archive arrays => assoc key arrays
  | _ => None
  end.

(** The rates [rates] derives from a coordinate array and the timestamps:
    [np.diff(xs) / (np.diff(ts) / 1E9)] for arrays of one length. *)
Definition rate_list (xs : list float64) (ts : list Z) : list float64 :=
  zip_with fdiv (diffF xs) ((λ x, fdiv x (Finite 1e9)) <$> (of_int <$> diffZ ts)).

(** * Properties *)

(** ** The monad *)

Lemma bind_ok {A B} (a : A) (out : list string) (f : A → py B) :
  ((Ok a, out) : py A) ≫= f = ((f a).1, out ++ (f a).2).
Proof. unfold mbind, py_mbind, py_bind. by destruct (f a). Qed.

Lemma bind_ret {A B} (a : A) (f : A → py B) : mret a ≫= f = f a.
Proof. unfold mret, py_mret, py_ret. rewrite bind_ok. by destruct (f a). Qed.

Lemma bind_lift {A B} (a : A) (f : A → py B) : lift (Ok a) ≫= f = f a.
Proof. apply bind_ret. Qed.

Lemma bind_ok_nil {A B} (a : A) (f : A → py B) : ((Ok a, []) : py A) ≫= f = f a.
Proof. apply bind_ret. Qed.

Lemma getattr_Some (self : Track) key o :
  self !! key = Some o → getattr self key = mret o.
Proof. unfold getattr. by intros ->. Qed.

(** ** Track.__init__ *)

Lemma init_kwargs_spec kwargs : ∀ self : Track,
  ∃ self' : Track, init_kwargs self kwargs = (Ok self', notices kwargs) ∧
    ∀ key, self' !! key =
      if decide (key ∈ parameters) then supplied key kwargs (self !! key) else self !! key.
Proof.
  induction kwargs as [|[k v] rest IH]; intros self; cbn [init_kwargs].
  - exists self. split; [done|]. intros key. by case_decide.
  - case_bool_decide as Hk.
    + destruct (IH (<[k:=v]> self)) as (self' & Heq & Hl).
      exists self'. split.
      * rewrite Heq. unfold notices. rewrite filter_cons_False; [done|]. simpl. tauto.
      * intros key. rewrite Hl, lookup_insert. cbn [supplied].
        repeat case_decide; subst; done.
    + destruct (IH self) as (self' & Heq & Hl).
      exists self'. split.
      * unfold print. rewrite bind_ok, Heq. unfold notices. simpl.
        rewrite filter_cons_True; done.
      * intros key. rewrite Hl. cbn [supplied]. case_decide; [|done].
        case_decide; [subst; done|done].
Qed.

Lemma lookup_foldl_init (ps : list string) : ∀ (m : Track) (key : string),
  foldl (λ (s : Track) param, <[param := PyList []]> s) m ps !! key =
  if decide (key ∈ ps) then Some (PyList []) else m !! key.
Proof.
  induction ps as [|p ps IH]; intros m key; cbn [foldl].
  - case_decide as H; [by apply elem_of_nil in H|done].
  - rewrite IH, lookup_insert.
    destruct (decide (key ∈ ps)) as [Hin|Hin].
    + rewrite decide_True; [done|]. by apply elem_of_cons; right.
    + destruct (decide (p = key)) as [->|Hne].
      * rewrite decide_True; [done|]. by apply elem_of_cons; left.
      * rewrite decide_False; [done|].
        intros [->|?]%elem_of_cons; done.
Qed.

Lemma Track_init_spec name kwargs :
  ∃ self : Track, Track_init name kwargs = (Ok self, notices kwargs) ∧
    ∀ key, self !! key =
      if decide (key ∈ parameters) then supplied key kwargs (Some (PyList []))
      else bookkeeping name key.
Proof.
  unfold Track_init.
  match goal with |- context [init_kwargs ?m _] => set (m0 := m) end.
  assert (Hm0 : ∀ key, m0 !! key =
            if decide (key ∈ parameters) then Some (PyList []) else bookkeeping name key).
  { intros key. subst m0. rewrite lookup_foldl_init. unfold bookkeeping.
    case_decide; [done|].
    rewrite lookup_insert, lookup_singleton.
    repeat case_decide; subst; done. }
  destruct (init_kwargs_spec kwargs m0) as (self & Heq & Hl).
  exists self. split; [done|]. intros key. rewrite Hl, Hm0.
  by case_decide.
Qed.

(** C10. [Track.__init__] never fails; it prints one notice for each
    keyword that is not a declared parameter and ignores that keyword;
    afterwards each of the nine parameters holds the value supplied for it,
    or an empty list when none was supplied, and the only other attributes
    are the label [name] and the list [parameters]. *)
Theorem Track_init_attributes (name : string) (kwargs : list (string * pyobj)) :
  ∃ self : Track,
    Track_init name kwargs = (Ok self, notices kwargs) ∧
    (∀ key, self !! key =
       if decide (key ∈ parameters) then supplied key kwargs (Some (PyList []))
       else bookkeeping name key) ∧
    (∀ key, key ∈ parameters → key ∉ kwargs.*1 → self !! key = Some (PyList [])) ∧
    (∀ key, key ∉ parameters → self !! key = bookkeeping name key) ∧
    dom self = list_to_set parameters ∪ {["name"; "parameters"]}.
Proof.
  destruct (Track_init_spec name kwargs) as (self & Heq & Hl).
  exists self. split; [done|]. split; [done|].
  split.
  { intros key Hin Hnot. rewrite Hl, decide_True by done.
    clear Heq Hl. generalize (Some (PyList [])). revert Hnot.
    induction kwargs as [|[k v] kw IH]; intros Hnot d; cbn [supplied]; [done|].
    rewrite fmap_cons in Hnot. apply not_elem_of_cons in Hnot as [Hne Hnot].
    simpl in Hne. rewrite decide_False by (intros ->; by apply Hne). by apply IH. }
  split.
  { intros key Hnot. by rewrite Hl, decide_False. }
  apply set_eq. intros key. rewrite elem_of_dom, Hl.
  rewrite elem_of_union, elem_of_list_to_set, elem_of_union, !elem_of_singleton.
  assert (Hs : ∀ kw d, is_Some d → is_Some (supplied key kw d)).
  { induction kw as [|[k v] kw IH]; intros d Hd; cbn [supplied]; [done|].
    apply IH. by case_decide. }
  case_decide as Hin.
  - split; [by left|]. intros _. by apply Hs.
  - unfold bookkeeping. repeat case_decide; subst.
    + split; [by right; left|done].
    + split; [by right; right|done].
    + split; [by intros [? ?]|]. intros [?|[?|?]]; done.
Qed.

(** ** Track.add *)

Lemma appended_cons key k v (kwargs : list (string * scalar)) :
  appended key ((k, v) :: kwargs) =
  if decide (k = key) then v :: appended key kwargs else appended key kwargs.
Proof.
  unfold appended. case_decide.
  - by rewrite filter_cons_True.
  - by rewrite filter_cons_False.
Qed.

Lemma add_lists kwargs : ∀ self : Track,
  Forall (λ kv, is_list self kv.1) kwargs →
  ∃ self' : Track, add self kwargs = (Ok self', []) ∧
    ∀ key, self' !! key =
      match self !! key with
      | Some (PyList vs) => Some (PyList (vs ++ appended key kwargs))
      | o => o
      end.
Proof.
  induction kwargs as [|[k v] rest IH]; intros self Hall; cbn [add].
  - exists self. split; [done|]. intros key.
    destruct (self !! key) as [[]|]; try done. by rewrite app_nil_r.
  - apply Forall_cons in Hall as [[vs Hk] Hrest]. simpl in Hk.
    rewrite (getattr_Some _ _ _ Hk), bind_ret.
    destruct (IH (<[k:=PyList (vs ++ [v])]> self)) as (self' & Heq & Hl).
    { eapply Forall_impl; [exact Hrest|]. intros [k' v'] [vs' Hk']. simpl in *.
      unfold is_list. rewrite lookup_insert. case_decide; eauto. }
    exists self'. split; [done|]. intros key.
    rewrite Hl, lookup_insert, appended_cons.
    case_decide as Hkey.
    + subst key. rewrite Hk. by rewrite <- app_assoc.
    + done.
Qed.

Lemma add_not_list (self : Track) k v rest :
  ¬ is_list self k → add self ((k, v) :: rest) = (Raise AttributeError, []).
Proof.
  intros Hk. cbn [add]. unfold getattr.
  destruct (self !! k) as [o|] eqn:Ho; [|done].
  rewrite bind_ret. destruct o; try done.
  destruct Hk. by eexists.
Qed.

(** C2 (as amended). [add] performs no length check: when every named
    attribute is a Python list the call succeeds, prints nothing, appends
    the given values to the named sequences and leaves every other
    attribute as it was. *)
Theorem add_appends (self : Track) (kwargs : list (string * scalar)) :
  Forall (λ kv, is_list self kv.1) kwargs →
  ∃ self' : Track, add self kwargs = (Ok self', []) ∧
    (∀ key, self' !! key =
       match self !! key with
       | Some (PyList vs) => Some (PyList (vs ++ appended key kwargs))
       | o => o
       end) ∧
    (∀ key vs, self !! key = Some (PyList vs) →
       length_of self' key = Some (length vs + length (appended key kwargs))%nat).
Proof.
  intros Hall. destruct (add_lists kwargs self Hall) as (self' & Heq & Hl).
  exists self'. split; [done|]. split; [done|].
  intros key vs Hkey. unfold length_of. rewrite Hl, Hkey. simpl.
  by rewrite length_app.
Qed.

Lemma add_appends_witness :
  ∃ self' : Track,
    add {["az" := PyList []; "el" := PyList [PyFloat (Finite 1)]]}
        [("az", PyFloat (Finite 2))] = (Ok self', []) ∧
    length_of self' "az" = Some 1%nat ∧ length_of self' "el" = Some 1%nat.
Proof.
  destruct (add_appends {["az" := PyList []; "el" := PyList [PyFloat (Finite 1)]]}
              [("az", PyFloat (Finite 2))]) as (self' & Heq & _ & Hlen).
  { repeat constructor. by exists []. }
  exists self'. split; [exact Heq|].
  split; [exact (Hlen "az" [] eq_refl)|exact (Hlen "el" [PyFloat (Finite 1)] eq_refl)].
Defined.

(** C2, counterexample.  On a fresh track, [add(az=1.0)] completes although
    it leaves az with one element and el, timestamp and obstime with none. *)
Lemma add_unequal_lengths_completes :
  ∃ self self' : Track,
    value (Track_init "t" []) = Ok self ∧
    value (add self [("az", PyFloat (Finite 1))]) = Ok self' ∧
    length_of self' "az" = Some 1%nat ∧
    length_of self' "el" = Some 0%nat ∧
    ¬ synchronized self'.
Proof.
  eexists _, _. split; [reflexivity|]. split; [reflexivity|].
  split; [by vm_compute|]. split; [by vm_compute|].
  intros [H _]. by vm_compute in H.
Qed.

(** ** Track.rates *)

Lemma length_diffZ zs : length (diffZ zs) = pred (length zs).
Proof.
  induction zs as [|z [|z' zs] IH]; [done..|].
  change (diffZ (z :: z' :: zs)) with ((z' - z) :: diffZ (z' :: zs)).
  simpl in *. by rewrite IH.
Qed.

Lemma length_diffF xs : length (diffF xs) = pred (length xs).
Proof.
  induction xs as [|x [|x' xs] IH]; [done..|].
  change (diffF (x :: x' :: xs)) with (fsub x' x :: diffF (x' :: xs)).
  simpl in *. by rewrite IH.
Qed.



Lemma length_floats_of_diff a : length (floats_of (np_diff a)) = pred (len_array a).
Proof.
  destruct a; simpl.
  - by rewrite length_fmap, length_diffZ.
  - by rewrite length_diffF.
Qed.

Lemma np_divide_same xs ys :
  length xs = length ys → np_divide xs ys = Ok (zip_with fdiv xs ys).
Proof. intros H. unfold np_divide. by rewrite decide_True. Qed.

Lemma rates_arrays (self : Track) ots ts oaz az oel el :
  self !! "timestamp" = Some ots → asarray ots = Ok ts →
  self !! "az" = Some oaz → asarray oaz = Ok az →
  self !! "el" = Some oel → asarray oel = Ok el →
  len_array az = len_array ts → len_array el = len_array ts →
  rates self =
    (Ok (<["deldt" := NdArray (FloatArr
            (zip_with fdiv (floats_of (np_diff el))
               ((λ x, fdiv x (Finite 1e9)) <$> floats_of (np_diff ts))))]>
         (<["dazdt" := NdArray (FloatArr
            (zip_with fdiv (floats_of (np_diff az))
               ((λ x, fdiv x (Finite 1e9)) <$> floats_of (np_diff ts))))]> self)), []).
Proof.
  intros Hts Hats Haz Haaz Hel Hael Hlaz Hlel. unfold rates.
  rewrite (getattr_Some _ _ _ Hts), bind_ret, Hats, bind_lift.
  rewrite (getattr_Some _ _ _ Haz), bind_ret, Haaz, bind_lift.
  rewrite np_divide_same, bind_lift.
  2:{ by rewrite length_fmap, !length_floats_of_diff, Hlaz. }
  rewrite (getattr_Some _ "el" oel), bind_ret, Hael, bind_lift.
  2:{ by rewrite lookup_insert_ne. }
  rewrite np_divide_same, bind_lift; [done|].
  by rewrite length_fmap, !length_floats_of_diff, Hlel.
Qed.








(** On a three-sample track whose last two timestamps are equal, the pair gives a
    NaN for the constant azimuth and an infinity for the rising elevation. *)
Example rates_two_equal_timestamps :
  ∃ self' : Track,
    rates {["timestamp" := NdArray (IntArr [0; 1000000000; 1000000000]);
            "az" := NdArray (FloatArr [Finite 7; Finite 7; Finite 7]);
            "el" := PyList [PyFloat (Finite 1); PyFloat (Finite 2); PyFloat (Finite 4)]]}
      = (Ok self', []) ∧
    self' !! "dazdt" = Some (NdArray (FloatArr [Finite ((7 + - 7) / (1000000000 / 1e9)); NaN])) ∧
    self' !! "deldt" = Some (NdArray (FloatArr [Finite ((2 + - 1) / (1000000000 / 1e9)); Inf false])).
Proof. eexists. split; [reflexivity|]. split; reflexivity. Qed.

(** ** Track.ephem_file *)

Lemma savetxt_same tai az el ir :
  length az = length tai → length el = length tai → length ir = length tai →
  savetxt tai az el ir = Ok (zip4 tai az el ir).
Proof. intros. unfold savetxt. by rewrite decide_True. Qed.

Lemma zip4_ir tai az el ir :
  Forall (λ row : ephem_row, row.2 ∈ ir) (zip4 tai az el ir).
Proof.
  unfold zip4. apply Forall_forall. intros [[[t a] e] x] Hin. simpl.
  by apply elem_of_zip_r in Hin.
Qed.

(** C1 (as amended). Whatever inverse range the track carries,
    [ephem_file] replaces it by the sentinel sequence and writes the
    sentinel [1E-20] in every line: one line per sample, holding the
    sample's timestamp, az and el. *)
Theorem ephem_file_writes_sentinel (self : Track) (filename : string)
    (ots oaz oel : pyobj) (tai : list Z) (az el : list float64) :
  self !! "timestamp" = Some ots → array_int ots = Ok tai →
  self !! "az" = Some oaz → array_float oaz = Ok az →
  self !! "el" = Some oel → array_float oel = Ok el →
  length az = length tai → length el = length tai →
  ∃ (self' : Track) (rows : list ephem_row),
    ephem_file self filename =
      (Ok (self', rows),
       ["Writing ephemerides:  " +:+ filename; "NEED TO GET DISTANCES FROM SOPP"]) ∧
    rows = zip4 tai az el (replicate (length tai) sentinel) ∧
    length rows = length tai ∧
    Forall (λ row : ephem_row, row.2 = sentinel) rows ∧
    self' !! "ir" = Some (NdArray (FloatArr (replicate (length tai) sentinel))) ∧
    feqb sentinel (Finite 1e-20) = true.
Proof.
  intros Hts Htai Haz Haaz Hel Hael Hlaz Hlel.
  eexists _, _. split.
  - unfold ephem_file, print. rewrite bind_ok.
    rewrite (getattr_Some _ _ _ Hts), bind_ret, Htai, bind_lift.
    rewrite (getattr_Some _ _ _ Haz), bind_ret, Haaz, bind_lift.
    rewrite (getattr_Some _ _ _ Hel), bind_ret, Hael, bind_lift.
    rewrite bind_ok, fmap_replicate, savetxt_same, bind_lift;
      [reflexivity|done|done|by rewrite length_replicate].
  - fold sentinel. split; [done|]. split.
    { unfold zip4. rewrite !length_zip_with, length_replicate. lia. }
    split.
    { eapply Forall_impl; [apply zip4_ir|].
      intros row Hrow. by apply elem_of_replicate in Hrow as [-> _]. }
    split; [|done].
    by rewrite lookup_insert_ne, lookup_insert_eq.
Qed.

Lemma ephem_file_writes_sentinel_witness :
  ∃ (self' : Track) (rows : list ephem_row),
    ephem_file {["timestamp" := PyList [PyInt 5; PyInt 6];
                 "az" := PyList [PyFloat (Finite 1); PyFloat (Finite 2)];
                 "el" := PyList [PyFloat (Finite 3); PyFloat (Finite 4)];
                 "ir" := PyList [PyFloat (Finite 0.5); PyFloat (Finite 0.25)]]}
      "track.ephem" =
      (Ok (self', rows),
       ["Writing ephemerides:  track.ephem"; "NEED TO GET DISTANCES FROM SOPP"]) ∧
    rows = [(5, Finite 1, Finite 3, sentinel); (6, Finite 2, Finite 4, sentinel)].
Proof.
  destruct (ephem_file_writes_sentinel
              {["timestamp" := PyList [PyInt 5; PyInt 6];
                "az" := PyList [PyFloat (Finite 1); PyFloat (Finite 2)];
                "el" := PyList [PyFloat (Finite 3); PyFloat (Finite 4)];
                "ir" := PyList [PyFloat (Finite 0.5); PyFloat (Finite 0.25)]]}
              "track.ephem"
              (PyList [PyInt 5; PyInt 6])
              (PyList [PyFloat (Finite 1); PyFloat (Finite 2)])
              (PyList [PyFloat (Finite 3); PyFloat (Finite 4)])
              [5; 6] [Finite 1; Finite 2] [Finite 3; Finite 4])
    as (self' & rows & Heq & Hrows & _);
    [reflexivity|reflexivity|reflexivity|reflexivity|reflexivity|reflexivity
    |reflexivity|reflexivity|].
  exists self', rows. split; [exact Heq|exact Hrows].
Defined.

(** C1, counterexample.  On the three-second grid, resampling [lines3]
    keeps one sample whose interpolated inverse range is [1/2]; the line
    [write] emits for it carries the sentinel instead. *)
Lemma ephem_file_discards_inverse_range :
  match value (cfg ← grid3; self ← from_file cfg "f" lines3;
               out ← write self; mret (self, out.2)) with
  | Ok (self, files) =>
      self.(valid) = true ∧
      attr self "ir" = Some (NdArray (FloatArr [Finite (10 # 20)])) ∧
      written_rows files = [(100000000000, Finite 10, Finite 5, sentinel)] ∧
      feqb sentinel (Finite (10 # 20)) = false
  | Raise _ => False
  end.
Proof. vm_compute. repeat split. Qed.

(** ** Trajectory.__init__ *)





Lemma lookup_arange {A} (f : nat → A) (m i : nat) (x : A) :
  (f <$> seq 0 m) !! i = Some x → x = f i ∧ (i < m)%nat.
Proof.
  rewrite list_lookup_fmap. intros H.
  destruct (seq 0 m !! i) as [j|] eqn:Hj; [|done].
  apply lookup_seq in Hj as [-> ?]. simpl in H. by injection H as <-.
Qed.




(** A step below one nanosecond: 60 ns in steps of 1.5 ns gives 40 instants
    in [track_Time] but 60 in [track_tsns], whose step [int(1.5)] is 1 ns;
    a step below half that makes the integer grid fail. *)
Example Trajectory_init_subnanosecond_step :
  match value (Trajectory_init 0 1e-9 1.5e-9 30 0) with
  | Ok self => length self.(track_Time) = 40%nat ∧ length self.(track_tsns) = 60%nat
  | Raise _ => False
  end ∧
  value (Trajectory_init 0 1e-9 1e-10 30 0) = Raise ZeroDivisionError.
Proof. vm_compute. repeat split. Qed.

(** ** Trajectory.from_file *)

Lemma mapM_as_int_ints (zs : list Z) : mapM as_int (PyInt <$> zs) = Some zs.
Proof.
  apply mapM_Some, Forall2_fmap_l, Forall_Forall2_diag, Forall_true. done.
Qed.

Lemma mapM_to_float_floats (xs : list float64) : mapM to_float (PyFloat <$> xs) = Some xs.
Proof.
  apply mapM_Some, Forall2_fmap_l, Forall_Forall2_diag, Forall_true. done.
Qed.

Lemma asarray_ints (zs : list Z) : zs ≠ [] → asarray (PyList (PyInt <$> zs)) = Ok (IntArr zs).
Proof.
  destruct zs as [|z zs]; [done|]. intros _.
  change (PyInt <$> z :: zs) with (PyInt z :: (PyInt <$> zs)). cbn [asarray].
  change (PyInt z :: (PyInt <$> zs)) with (PyInt <$> z :: zs).
  by rewrite mapM_as_int_ints.
Qed.

Lemma asarray_floats (xs : list float64) : asarray (PyList (PyFloat <$> xs)) = Ok (FloatArr xs).
Proof.
  destruct xs as [|x xs]; [done|].
  change (PyFloat <$> x :: xs) with (PyFloat x :: (PyFloat <$> xs)). cbn [asarray].
  replace (mapM as_int (PyFloat x :: (PyFloat <$> xs))) with (@None (list Z))
    by (symmetry; apply mapM_None; by left).
  change (PyFloat x :: (PyFloat <$> xs)) with (PyFloat <$> x :: xs).
  by rewrite mapM_to_float_floats.
Qed.

Lemma mapM_as_time_times (ts : list Q) : mapM as_time (PyTime <$> ts) = Some ts.
Proof.
  apply mapM_Some, Forall2_fmap_l, Forall_Forall2_diag, Forall_true. done.
Qed.

Lemma Time_of_list_times (ts : list Q) :
  ts ≠ [] → Time_of_list (PyList (PyTime <$> ts)) = Ok (TimeArr ts).
Proof.
  destruct ts as [|t ts]; [done|]. intros _.
  change (PyTime <$> t :: ts) with (PyTime t :: (PyTime <$> ts)). cbn [Time_of_list].
  change (PyTime t :: (PyTime <$> ts)) with (PyTime <$> t :: ts).
  by rewrite mapM_as_time_times.
Qed.

(** Selection by a mask *)

Lemma mapM_where {A} (mask : list bool) : ∀ (l pre : list A),
  (length mask ≤ length l)%nat →
  mapM (λ i, (pre ++ l) !! i) (where_from (length pre) mask) = Some (select mask l).
Proof.
  induction mask as [|m mask IH]; intros l pre Hlen; [done|].
  destruct l as [|x l]; [simpl in Hlen; lia|].
  assert (Hrec : mapM (λ i, (pre ++ x :: l) !! i) (where_from (S (length pre)) mask)
                 = Some (select mask l)).
  { specialize (IH l (pre ++ [x])). rewrite <- app_assoc, length_app in IH. simpl in IH.
    rewrite Nat.add_1_r in IH. apply IH. simpl in Hlen. lia. }
  cbn [where_from select]. destruct m; [|done].
  cbn [mapM]. rewrite Hrec.
  rewrite lookup_app_r, Nat.sub_diag by lia. done.
Qed.

Lemma take_where {A} (mask : list bool) (l : list A) :
  (length mask ≤ length l)%nat → take l (np_where mask) = Ok (select mask l).
Proof.
  intros Hlen. unfold take, np_where.
  pose proof (mapM_where mask l [] Hlen) as H. simpl in H. by rewrite H.
Qed.

Lemma select_fmap {A B} (f : A → B) (mask : list bool) : ∀ l : list A,
  select mask (f <$> l) = f <$> select mask l.
Proof.
  induction mask as [|m mask IH]; intros [|x l]; simpl; try done.
  destruct m; simpl; by rewrite IH.
Qed.

Lemma length_select {A B} (mask : list bool) : ∀ (l : list A) (l' : list B),
  (length mask ≤ length l)%nat → (length mask ≤ length l')%nat →
  length (select mask l) = length (select mask l').
Proof.
  induction mask as [|m mask IH]; intros [|x l] [|y l'] H H'; simpl in *; try lia.
  destruct m; simpl; rewrite (IH l l'); lia.
Qed.

Lemma in_span_within (grid : list Q) (t : Q) :
  grid ≠ [] → in_span grid t = Ok (within grid t).
Proof.
  intros Hg. unfold in_span, within, first_time, last_time.
  destruct grid as [|t0 grid]; [done|]. cbn [head].
  destruct (last_is_Some (t0 :: grid)) as [_ [t1 Ht1]]; [done|]. rewrite Ht1.
  by destruct (Qle_bool t0 t).
Qed.

Lemma inverse_nonzero (x : float64) :
  is_zero x = false → inverse x = Ok (fdiv (Finite 1.0) x).
Proof. unfold inverse. by intros ->. Qed.

Lemma column_cons key r lines :
  column key (r :: lines) = appended key (line_kwargs r) ++ column key lines.
Proof. done. Qed.

Lemma read_lines_spec (grid : list Q) lines : ∀ (inp : Track) (overlap : bool),
  Forall (is_list inp) line_keys →
  grid ≠ [] →
  Forall (λ r, is_zero r.(r_range) = false) lines →
  ∃ inp' : Track,
    read_lines grid inp overlap lines =
      (Ok (inp', overlap || existsb (λ r, within grid r.(r_obstime)) lines), []) ∧
    ∀ key, inp' !! key =
      match inp !! key with
      | Some (PyList vs) => Some (PyList (vs ++ column key lines))
      | o => o
      end.
Proof.
  induction lines as [|r lines IH]; intros inp overlap Hkeys Hgrid Hnz; cbn [read_lines].
  - exists inp. split; [by rewrite orb_false_r|]. intros key.
    destruct (inp !! key) as [[]|]; try done. by rewrite app_nil_r.
  - apply Forall_cons in Hnz as [Hr Hnz].
    assert (Hov : (if overlap then mret true else lift (in_span grid (r_obstime r)))
                  = (mret (overlap || within grid (r_obstime r)) : py bool)).
    { destruct overlap; [done|]. by rewrite in_span_within. }
    rewrite Hov, bind_ret, (inverse_nonzero _ Hr), bind_lift.
    destruct (add_lists (line_kwargs r) inp) as (inp1 & Hadd & Hl1).
    { unfold line_kwargs, line_keys in *.
      repeat (apply Forall_cons in Hkeys as [? Hkeys]). repeat constructor; done. }
    unfold line_kwargs, timestamp_of, inverse_range in Hadd. rewrite Hadd, bind_ok_nil.
    destruct (IH inp1 (overlap || within grid (r_obstime r))) as (inp' & Hread & Hl);
      [|done|done|].
    { eapply Forall_impl; [exact Hkeys|]. intros key [vs Hvs].
      unfold is_list. rewrite Hl1, Hvs. by eexists. }
    exists inp'. split.
    + rewrite Hread. cbn [existsb]. by rewrite orb_assoc.
    + intros key. rewrite Hl, Hl1, column_cons.
      destruct (inp !! key) as [[]|]; try done. by rewrite <- app_assoc.
Qed.

Lemma column_timestamp lines : column "timestamp" lines = PyInt <$> (timestamp_of <$> lines).
Proof. induction lines as [|r lines IH]; [done|]. rewrite column_cons, IH. done. Qed.

Lemma column_obstime lines : column "obstime" lines = PyTime <$> (r_obstime <$> lines).
Proof. induction lines as [|r lines IH]; [done|]. rewrite column_cons, IH. done. Qed.

Lemma column_az lines : column "az" lines = PyFloat <$> (r_az <$> lines).
Proof. induction lines as [|r lines IH]; [done|]. rewrite column_cons, IH. done. Qed.

Lemma column_el lines : column "el" lines = PyFloat <$> (r_el <$> lines).
Proof. induction lines as [|r lines IH]; [done|]. rewrite column_cons, IH. done. Qed.

Lemma column_ir lines : column "ir" lines = PyFloat <$> (inverse_range <$> lines).
Proof. induction lines as [|r lines IH]; [done|]. rewrite column_cons, IH. done. Qed.

Ltac in_list := apply (bool_decide_unpack _); by vm_compute.

Lemma grid_track name (ts : list Z) (tm : list Q) :
  ∃ trk : Track,
    Track_init name [("timestamp", NdArray (IntArr ts)); ("obstime", TimeArr tm)]
      = (Ok trk, []) ∧
    trk !! "timestamp" = Some (NdArray (IntArr ts)) ∧
    trk !! "obstime" = Some (TimeArr tm) ∧
    Forall (λ key, trk !! key = Some (PyList [])) ["az"; "el"; "ra"; "dec"; "l"; "b"; "ir"].
Proof.
  destruct (Track_init_spec name [("timestamp", NdArray (IntArr ts)); ("obstime", TimeArr tm)])
    as (trk & Heq & Hl).
  exists trk. split; [exact Heq|].
  split; [by rewrite Hl|]. split; [by rewrite Hl|].
  repeat constructor; by rewrite Hl.
Qed.

Lemma empty_track name :
  ∃ trk : Track,
    Track_init name [] = (Ok trk, []) ∧
    Forall (λ key, trk !! key = Some (PyList [])) parameters.
Proof.
  destruct (Track_init_spec name []) as (trk & Heq & Hl).
  exists trk. split; [exact Heq|].
  repeat constructor; by rewrite Hl.
Qed.

Lemma interpolant_spec (inp : Track) (field : string) (xs : list Z) (ys : list float64) :
  inp !! "timestamp" = Some (PyList (PyInt <$> xs)) →
  inp !! field = Some (PyList (PyFloat <$> ys)) →
  xs ≠ [] → length xs = length ys →
  interpolant inp field = mret (sort_knots (zip xs ys)).
Proof.
  intros Hx Hy Hne Hlen. unfold interpolant.
  rewrite (getattr_Some _ _ _ Hx), bind_ret, (asarray_ints _ Hne), bind_lift.
  rewrite (getattr_Some _ _ _ Hy), bind_ret, asarray_floats, bind_lift.
  unfold interp1d. cbn [floats_of]. rewrite decide_True by done.
  by destruct xs.
Qed.

Lemma length_interp1d_call knots fill xs :
  length (interp1d_call knots fill xs) = length xs.
Proof. unfold interp1d_call. by rewrite length_fmap. Qed.

Lemma interp1d_call_select knots fill mask xs :
  interp1d_call knots fill (select mask xs) = select mask (interp1d_call knots fill xs).
Proof. unfold interp1d_call. by rewrite select_fmap. Qed.

Lemma existsb_nonempty {A} (p : A → bool) (l : list A) : existsb p l = true → l ≠ [].
Proof. by destruct l. Qed.

Lemma read_input_spec (grid : list Q) (filename : string) (lines : list record) :
  grid ≠ [] → lines ≠ [] →
  Forall (λ r, is_zero r.(r_range) = false) lines →
  ∃ inp : Track,
    read_input grid filename lines =
      (Ok (inp, existsb (λ r, within grid r.(r_obstime)) lines), []) ∧
    inp !! "timestamp" = Some (PyList (PyInt <$> (timestamp_of <$> lines))) ∧
    inp !! "obstime" = Some (TimeArr (r_obstime <$> lines)) ∧
    inp !! "az" = Some (PyList (PyFloat <$> (r_az <$> lines))) ∧
    inp !! "el" = Some (PyList (PyFloat <$> (r_el <$> lines))) ∧
    inp !! "ir" = Some (PyList (PyFloat <$> (inverse_range <$> lines))).
Proof.
  intros Hgrid Hlines Hnz.
  destruct (empty_track ("Input: " +:+ filename)) as (inp0 & Hinp0 & Hl0).
  destruct (read_lines_spec grid lines inp0 false) as (inp1 & Hread & Hl1);
    [|done|done|].
  { unfold parameters in Hl0. unfold line_keys.
    repeat (apply Forall_cons in Hl0 as [? Hl0]). repeat constructor; by eexists. }
  assert (Hcol : ∀ key, key ∈ parameters → inp1 !! key = Some (PyList (column key lines))).
  { intros key Hkey. rewrite Hl1.
    by rewrite (proj1 (Forall_forall _ _) Hl0 key Hkey). }
  assert (Hin : ∀ key, key ∈ line_keys → key ∈ parameters).
  { intros key. unfold line_keys, parameters. rewrite !elem_of_cons. tauto. }
  exists (<["obstime" := TimeArr (r_obstime <$> lines)]> inp1).
  split.
  { unfold read_input. rewrite Hinp0, bind_ok_nil, Hread, bind_ok_nil.
    cbv beta iota.
    rewrite (getattr_Some _ "obstime" (PyList (PyTime <$> (r_obstime <$> lines)))), bind_ret.
    2:{ rewrite Hcol, column_obstime; [done|]. apply Hin. in_list. }
    rewrite Time_of_list_times, bind_lift; [done|].
    by destruct lines. }
  split. { rewrite lookup_insert_ne by done. rewrite Hcol, column_timestamp; [done|]. apply Hin; in_list. }
  split. { by rewrite lookup_insert_eq. }
  split. { rewrite lookup_insert_ne by done. rewrite Hcol, column_az; [done|]. apply Hin; in_list. }
  split. { rewrite lookup_insert_ne by done. rewrite Hcol, column_el; [done|]. apply Hin; in_list. }
  rewrite lookup_insert_ne by done. rewrite Hcol, column_ir; [done|]. apply Hin; in_list.
Qed.

Lemma length_el_mask lines grid : length (el_mask lines grid) = length grid.
Proof. unfold el_mask, on_grid. by rewrite length_fmap, length_interp1d_call. Qed.

Lemma fit_spec (trk inp : Track) (lines : list record) (ts : list Z) (tm : list Q) :
  lines ≠ [] →
  (length ts ≤ length tm)%nat →
  trk !! "timestamp" = Some (NdArray (IntArr ts)) →
  trk !! "obstime" = Some (TimeArr tm) →
  inp !! "timestamp" = Some (PyList (PyInt <$> (timestamp_of <$> lines))) →
  inp !! "az" = Some (PyList (PyFloat <$> (r_az <$> lines))) →
  inp !! "el" = Some (PyList (PyFloat <$> (r_el <$> lines))) →
  inp !! "ir" = Some (PyList (PyFloat <$> (inverse_range <$> lines))) →
  let mask := el_mask lines ts in
  fit trk inp =
    mret (<["ir" := NdArray (FloatArr (select mask (on_grid inverse_range lines ts)))]>
         (<["az" := NdArray (FloatArr (select mask (on_grid r_az lines ts)))]>
         (<["el" := NdArray (FloatArr (select mask (on_grid r_el lines ts)))]>
         (<["obstime" := TimeArr (select mask tm)]>
         (<["timestamp" := NdArray (IntArr (select mask ts))]> trk))))).
Proof.
  intros Hlines Hlen Hts Htm Hx Haz Hel Hir mask.
  assert (Hne : timestamp_of <$> lines ≠ []) by by destruct lines.
  unfold fit.
  assert (Hlens : ∀ f : record → float64, length (timestamp_of <$> lines) = length (f <$> lines))
    by (intros; by rewrite !length_fmap).
  rewrite (interpolant_spec inp "el" _ _ Hx Hel Hne (Hlens _)), bind_ret.
  rewrite (getattr_Some _ _ _ Hts), bind_ret. cbn [int_array]. rewrite bind_ret.
  cbv zeta. fold (knots_of r_el lines). fold (on_grid r_el lines ts).
  fold (el_mask lines ts). fold mask.
  assert (Hmask : length mask = length ts) by apply length_el_mask.
  rewrite (take_where mask ts), bind_lift by lia.
  rewrite (getattr_Some _ "obstime" (TimeArr tm)), bind_ret by by rewrite lookup_insert_ne.
  cbn [time_array]. rewrite bind_ret.
  rewrite (take_where mask tm), bind_lift by lia.
  rewrite (take_where mask (on_grid r_el lines ts)), bind_lift
    by (unfold on_grid; rewrite length_interp1d_call; lia).
  rewrite (interpolant_spec inp "az" _ _ Hx Haz Hne (Hlens _)), bind_ret.
  rewrite (interpolant_spec inp "ir" _ _ Hx Hir Hne (Hlens _)), bind_ret.
  rewrite !interp1d_call_select. done.
Qed.

Lemma insert_knot_perm a l : insert_knot a l ≡ₚ a :: l.
Proof.
  induction l as [|k l IH]; cbn [insert_knot]; [done|].
  destruct (a.1 <=? k.1); [done|]. rewrite IH. apply Permutation_swap.
Qed.

Lemma sort_knots_perm l : sort_knots l ≡ₚ l.
Proof.
  induction l as [|a l IH]; [done|]. unfold sort_knots in *. cbn [foldr].
  by rewrite insert_knot_perm, IH.
Qed.

Lemma insert_knot_sorted a l :
  StronglySorted knot_le l → StronglySorted knot_le (insert_knot a l).
Proof.
  induction 1 as [|k l Hl IH Hk]; cbn [insert_knot].
  - repeat constructor.
  - destruct (Z.leb_spec a.1 k.1) as [Hle|Hgt].
    + constructor; [by constructor|]. constructor; [done|].
      eapply Forall_impl; [exact Hk|]. unfold knot_le. intros; lia.
    + constructor; [done|]. rewrite insert_knot_perm. constructor; [|done].
      unfold knot_le. lia.
Qed.

Lemma sort_knots_sorted l : StronglySorted knot_le (sort_knots l).
Proof.
  induction l as [|a l IH]; [constructor|].
  unfold sort_knots in *. cbn [foldr]. by apply insert_knot_sorted.
Qed.

Lemma last_elem_of (l : list Z) (d : Z) : l ≠ [] → List.last l d ∈ l.
Proof.
  induction l as [|a [|b l] IH]; intros Hne; [done|by left|].
  right. apply IH. done.
Qed.

Lemma sorted_last_max (l : list Z) (d : Z) :
  StronglySorted Z.le l → Forall (λ x, x ≤ List.last l d) l.
Proof.
  induction 1 as [|a l Hl IH Ha]; [done|].
  destruct l as [|b l]; [by repeat constructor|].
  change (List.last (a :: b :: l) d) with (List.last (b :: l) d).
  constructor; [|done].
  apply (proj1 (Forall_forall _ _) Ha). by apply last_elem_of.
Qed.

(** A grid instant is out of bounds exactly when it lies before every
    input timestamp or after every input timestamp. *)
Lemma out_of_bounds_domain (field : record → float64) (lines : list record) (t : Z) :
  lines ≠ [] →
  out_of_bounds (knots_of field lines) t = true ↔
  Forall (λ r, t < timestamp_of r) lines ∨ Forall (λ r, timestamp_of r < t) lines.
Proof.
  intros Hne. unfold knots_of.
  set (kz := zip (timestamp_of <$> lines) (field <$> lines)).
  assert (Hfst : kz.*1 = timestamp_of <$> lines).
  { subst kz. apply fst_zip. by rewrite !length_fmap. }
  pose proof (sort_knots_perm kz) as Hperm.
  pose proof (sort_knots_sorted kz) as Hsorted.
  assert (Hxs : (sort_knots kz).*1 ≡ₚ timestamp_of <$> lines) by by rewrite Hperm, Hfst.
  assert (Hall : ∀ P : Z → Prop,
            Forall P ((sort_knots kz).*1) ↔ Forall (λ r, P (timestamp_of r)) lines).
  { intros P. rewrite Hxs, Forall_fmap. done. }
  assert (Hs1 : StronglySorted Z.le ((sort_knots kz).*1)).
  { eapply StronglySorted_fmap; [|exact Hsorted]. done. }
  destruct (sort_knots kz) as [|[x0 y0] ks] eqn:Hk.
  { apply Permutation_nil_l in Hxs. by destruct lines. }
  cbn [out_of_bounds]. rewrite orb_true_iff, !Z.ltb_lt.
  rewrite <- (Hall (λ x, t < x)), <- (Hall (λ x, x < t)).
  pose proof (sorted_last_max _ x0 Hs1) as Hmax.
  assert (Hlast : List.last ((x0, y0) :: ks).*1 x0 ∈ ((x0, y0) :: ks).*1)
    by by apply last_elem_of.
  rewrite fmap_cons in Hs1. apply StronglySorted_cons in Hs1 as [Hmin Hs1]. simpl in Hmin.
  split.
  - intros [Hlt|Hgt].
    + left. constructor; [done|]. eapply Forall_impl; [exact Hmin|]. simpl. intros; lia.
    + right. eapply Forall_impl; [exact Hmax|].
      intros x Hx. eapply Z.le_lt_trans; [exact Hx|exact Hgt].
  - intros [Hlt|Hgt].
    + left. by apply Forall_cons in Hlt as [? _].
    + right. by apply (proj1 (Forall_forall _ _) Hgt).
Qed.

Lemma existsb_within_grid (grid : list Q) (lines : list record) :
  existsb (λ r, within grid r.(r_obstime)) lines = true → grid ≠ [] ∧ lines ≠ [].
Proof.
  intros H. split; [|by eapply existsb_nonempty].
  intros ->. induction lines as [|r lines IH]; [done|]. by apply IH.
Qed.

(** The run of [from_file] when the file overlaps the grid. *)
Lemma from_file_overlap (self : Trajectory) (filename : string) (lines : list record) :
  Forall (λ r, is_zero r.(r_range) = false) lines →
  existsb (λ r, within self.(track_Time) r.(r_obstime)) lines = true →
  (length self.(track_tsns) ≤ length self.(track_Time))%nat →
  let ts := self.(track_tsns) in
  let mask := el_mask lines ts in
  ∃ (self' : Trajectory) (trk : Track),
    from_file self filename lines = (Ok self', []) ∧
    self'.(valid) = self.(valid) ∧
    self'.(track) = Some trk ∧
    trk !! "timestamp" = Some (NdArray (IntArr (select mask ts))) ∧
    trk !! "obstime" = Some (TimeArr (select mask self.(track_Time))) ∧
    trk !! "el" = Some (NdArray (FloatArr (select mask (on_grid r_el lines ts)))) ∧
    trk !! "az" = Some (NdArray (FloatArr (select mask (on_grid r_az lines ts)))) ∧
    trk !! "ir" = Some (NdArray (FloatArr (select mask (on_grid inverse_range lines ts)))).
Proof.
  intros Hnz Hov Hlen ts mask.
  destruct (existsb_within_grid _ _ Hov) as [Hgrid Hlines].
  destruct (grid_track ("Output: " +:+ filename) self.(track_tsns) self.(track_Time))
    as (trk0 & Htrk0 & Hts & Hobs & Hrest).
  destruct (read_input_spec self.(track_Time) filename lines Hgrid Hlines Hnz)
    as (inp & Hread & Hx & _ & Haz & Hel & Hir).
  pose proof (fit_spec trk0 inp lines _ _ Hlines Hlen Hts Hobs Hx Haz Hel Hir) as Hfit.
  cbv zeta in Hfit. fold ts in Hfit. fold mask in Hfit.
  set (trk1 := <["ir" := _]> _) in Hfit.
  assert (Hmask : length mask = length ts) by apply length_el_mask.
  assert (Hsel : ∀ f, length (select mask (on_grid f lines ts)) = length (select mask ts)).
  { intros f. apply length_select; unfold on_grid; rewrite ?length_interp1d_call; lia. }
  assert (H1 : trk1 !! "timestamp" = Some (NdArray (IntArr (select mask ts))))
    by (subst trk1; by simplify_map_eq).
  assert (H2 : trk1 !! "az" = Some (NdArray (FloatArr (select mask (on_grid r_az lines ts)))))
    by (subst trk1; by simplify_map_eq).
  assert (H3 : trk1 !! "el" = Some (NdArray (FloatArr (select mask (on_grid r_el lines ts)))))
    by (subst trk1; by simplify_map_eq).
  pose proof (rates_arrays trk1 _ _ _ _ _ _ H1 eq_refl H2 eq_refl H3 eq_refl (Hsel _) (Hsel _))
    as Hrates.
  eexists _, _. split.
  - unfold from_file. cbv zeta. cbn [track_tsns track_Time set_trajectory_type set_track].
    rewrite Htrk0, bind_ok_nil, Hread, bind_ok_nil. cbv beta iota.
    rewrite Hov. cbn [negb]. rewrite Hfit, bind_ret, Hrates, bind_ok_nil. reflexivity.
  - cbn [valid track set_track set_input_track set_trajectory_type].
    split; [done|]. split; [done|].
    subst trk1. by simplify_map_eq.
Qed.

Lemma select_self {A} (p : A → bool) (l : list A) :
  select (p <$> l) l = filter (λ x, p x = true) l.
Proof.
  induction l as [|x l IH]; [done|]. cbn [fmap list_fmap select].
  rewrite filter_cons, IH. destruct (p x); by simplify_option_eq.
Qed.

Lemma select_all {A} (mask : list bool) : ∀ l : list A,
  Forall (λ m, m = true) mask → length mask = length l → select mask l = l.
Proof.
  induction mask as [|m mask IH]; intros [|x l] Hall Hlen; try done.
  apply Forall_cons in Hall as [-> Hall]. cbn [select]. f_equal. apply IH; [done|].
  simpl in Hlen. lia.
Qed.

Lemma length_of_ints (trk : Track) key zs :
  trk !! key = Some (NdArray (IntArr zs)) → length_of trk key = Some (length zs).
Proof. intros H. unfold length_of. rewrite H. simpl. by rewrite length_fmap. Qed.

Lemma length_of_floats (trk : Track) key xs :
  trk !! key = Some (NdArray (FloatArr xs)) → length_of trk key = Some (length xs).
Proof. intros H. unfold length_of. rewrite H. simpl. by rewrite length_fmap. Qed.

Lemma length_of_times (trk : Track) key ts :
  trk !! key = Some (TimeArr ts) → length_of trk key = Some (length ts).
Proof. intros H. unfold length_of. rewrite H. simpl. by rewrite length_fmap. Qed.

Lemma on_grid_lookup field lines (grid : list Z) i t :
  grid !! i = Some t →
  on_grid field lines grid !! i =
    Some (if out_of_bounds (knots_of field lines) t then Finite 0.0
          else np_interp (knots_of field lines) t).
Proof. intros H. unfold on_grid, interp1d_call. by rewrite list_lookup_fmap, H. Qed.

(** C4. When the file overlaps the grid, [from_file] succeeds and: at every
    grid timestamp that lies before all or after all input timestamps the
    interpolated elevation is exactly [0.0] and the sample is masked out;
    the kept elevations are exactly those greater than [0.0]; and the one
    mask derived from the elevation selects the timestamp, obstime, el, az
    and ir of the track, which therefore have one common length. *)
Theorem from_file_resample (self : Trajectory) (filename : string) (lines : list record) :
  Forall (λ r, is_zero r.(r_range) = false) lines →
  existsb (λ r, within self.(track_Time) r.(r_obstime)) lines = true →
  (length self.(track_tsns) ≤ length self.(track_Time))%nat →
  let ts := self.(track_tsns) in
  let _el := on_grid r_el lines ts in
  let mask := (λ e, fgt e (Finite 0.0)) <$> _el in
  ∃ (self' : Trajectory) (trk : Track),
    from_file self filename lines = (Ok self', []) ∧
    self'.(track) = Some trk ∧
    (∀ i t, ts !! i = Some t →
       Forall (λ r, t < timestamp_of r) lines ∨ Forall (λ r, timestamp_of r < t) lines →
       _el !! i = Some (Finite 0.0) ∧ mask !! i = Some false) ∧
    trk !! "el" = Some (NdArray (FloatArr (filter (λ e, fgt e (Finite 0.0) = true) _el))) ∧
    trk !! "el" = Some (NdArray (FloatArr (select mask _el))) ∧
    trk !! "timestamp" = Some (NdArray (IntArr (select mask ts))) ∧
    trk !! "obstime" = Some (TimeArr (select mask self.(track_Time))) ∧
    trk !! "az" = Some (NdArray (FloatArr (select mask (on_grid r_az lines ts)))) ∧
    trk !! "ir" = Some (NdArray (FloatArr (select mask (on_grid inverse_range lines ts)))) ∧
    Forall (λ key, length_of trk key = Some (length (select mask ts)))
      ["timestamp"; "obstime"; "az"; "el"; "ir"].
Proof.
  intros Hnz Hov Hlen ts _el mask.
  destruct (from_file_overlap self filename lines Hnz Hov Hlen)
    as (self' & trk & Hrun & _ & Htrk & Hts & Hobs & Hel & Haz & Hir).
  fold ts in Hts, Hobs, Hel, Haz, Hir. change (el_mask lines ts) with mask in *.
  destruct (existsb_within_grid _ _ Hov) as [_ Hlines].
  assert (Hmask : length mask = length ts).
  { subst mask _el. unfold on_grid. by rewrite length_fmap, length_interp1d_call. }
  assert (Hsel : ∀ f, length (select mask (on_grid f lines ts)) = length (select mask ts)).
  { intros f. apply length_select; unfold on_grid; rewrite ?length_interp1d_call; lia. }
  exists self', trk. split; [done|]. split; [done|]. split.
  { intros i t Hi Hout.
    assert (Hval : _el !! i = Some (Finite 0.0)).
    { subst _el. rewrite (on_grid_lookup _ _ _ _ _ Hi).
      by rewrite (proj2 (out_of_bounds_domain r_el lines t Hlines) Hout). }
    split; [done|]. subst mask. by rewrite list_lookup_fmap, Hval. }
  split. { rewrite Hel. subst mask. by rewrite select_self. }
  do 5 (split; [done|]).
  repeat constructor.
  - by apply length_of_ints.
  - rewrite (length_of_times _ _ _ Hobs). f_equal. apply length_select; unfold ts in *; lia.
  - rewrite (length_of_floats _ _ _ Haz). f_equal. apply Hsel.
  - rewrite (length_of_floats _ _ _ Hel). f_equal. apply Hsel.
  - rewrite (length_of_floats _ _ _ Hir). f_equal. apply Hsel.
Qed.

Lemma write_invalid (self : Trajectory) :
  self.(valid) = false → write self = (Ok (self, []), ["Trajectory not valid."]).
Proof. intros H. unfold write. by rewrite H. Qed.


Lemma from_file_resample_witness :
  ∃ (self' : Trajectory) (trk : Track),
    from_file cfg3 "f" lines3 = (Ok self', []) ∧
    self'.(track) = Some trk ∧
    trk !! "el" =
      Some (NdArray (FloatArr (filter (λ e, fgt e (Finite 0.0) = true)
                                 (on_grid r_el lines3 cfg3.(track_tsns))))) ∧
    Forall (λ key, length_of trk key =
              Some (length (select ((λ e, fgt e (Finite 0.0)) <$>
                                      on_grid r_el lines3 cfg3.(track_tsns))
                              cfg3.(track_tsns))))
      ["timestamp"; "obstime"; "az"; "el"; "ir"].
Proof.
  destruct (from_file_resample cfg3 "f" lines3)
    as (self' & trk & Hrun & Htrk & _ & Hel & _ & _ & _ & _ & _ & Hlen).
  - repeat constructor.
  - reflexivity.
  - simpl. lia.
  - exists self', trk. repeat split; assumption.
Defined.

(** The first and the last instant of the grid lie outside the time domain
    of [middle2]: their interpolated elevation is the fill value and only
    the middle sample is kept, in every field. *)
Example from_file_fill_outside_domain :
  on_grid r_el middle2 cfg3.(track_tsns) = [Finite 0.0; Finite 5; Finite 0.0] ∧
  match value (from_file cfg3 "f" middle2) with
  | Ok self =>
      self.(valid) = true ∧
      attr self "timestamp" = Some (NdArray (IntArr [101000000000])) ∧
      attr self "obstime" = Some (TimeArr [101%Q]) ∧
      attr self "el" = Some (NdArray (FloatArr [Finite 5])) ∧
      attr self "az" = Some (NdArray (FloatArr [Finite 10])) ∧
      attr self "ir" = Some (NdArray (FloatArr [inverse_range
        {| r_obstime := 101; r_az := Finite 10; r_el := Finite 5; r_range := Finite 2 |}]))
  | Raise _ => False
  end.
Proof. vm_compute. repeat split. Qed.

Lemma sort_knots_increasing (l : list (Z * float64)) :
  StronglySorted Z.lt l.*1 → sort_knots l = l.
Proof.
  induction l as [|a l IH]; [done|]. rewrite fmap_cons.
  intros [Ha Hl]%StronglySorted_cons. unfold sort_knots in *. cbn [foldr].
  rewrite (IH Hl). destruct l as [|k l]; [done|]. cbn [insert_knot].
  apply Forall_cons in Ha as [Ha _]. simpl in Ha.
  destruct (Z.leb_spec a.1 k.1); [done|lia].
Qed.

Lemma interp_at_knot (knots : list (Z * float64)) : ∀ i x y,
  StronglySorted Z.lt knots.*1 → knots !! i = Some (x, y) → interp_at knots x = y.
Proof.
  induction knots as [|[x0 y0] rest IH]; intros i x y Hs Hi; [done|].
  rewrite fmap_cons in Hs. apply StronglySorted_cons in Hs as [Hmin Hs].
  cbn [interp_at]. destruct rest as [|[x1 y1] rest'].
  - destruct i; [by injection Hi as _ ->|done].
  - rewrite fmap_cons in Hmin. apply Forall_cons in Hmin as [Hx1 Hmin]. simpl in Hx1.
    destruct i as [|j].
    + injection Hi as -> ->.
      destruct (Z.leb_spec x1 x); [lia|]. by rewrite Z.eqb_refl.
    + simpl in Hi.
      assert (x1 ≤ x).
      { destruct j as [|j]; [injection Hi as -> _; lia|].
        rewrite fmap_cons in Hs. apply StronglySorted_cons in Hs as [Hx Hs].
        simpl in Hi. assert (x ∈ rest'.*1).
        { apply list_elem_of_fmap. exists (x, y). split; [done|].
          by eapply list_elem_of_lookup_2. }
        apply (proj1 (Forall_forall _ _) Hx) in H. simpl in H. lia. }
      destruct (Z.leb_spec x1 x); [|lia]. by eapply IH.
Qed.

Lemma interp1d_call_knots (knots : list (Z * float64)) (fill : float64) :
  StronglySorted Z.lt knots.*1 → interp1d_call knots fill knots.*1 = knots.*2.
Proof.
  intros Hs. unfold interp1d_call. apply list_eq. intros i.
  rewrite !list_lookup_fmap. destruct (knots !! i) as [[x y]|] eqn:Hi; [|done].
  simpl. f_equal.
  assert (Hx : x ∈ knots.*1).
  { apply list_elem_of_fmap. exists (x, y). split; [done|]. by eapply list_elem_of_lookup_2. }
  assert (Hle : StronglySorted Z.le knots.*1).
  { clear -Hs. induction Hs as [|a l Hl IH Ha]; constructor; [done|].
    eapply Forall_impl; [exact Ha|]. intros; simpl in *; lia. }
  destruct knots as [|[x0 y0] rest] eqn:Hk; [done|]. rewrite <- Hk in *.
  assert (Hx0 : x0 ≤ x).
  { rewrite Hk, fmap_cons in Hle, Hx. apply StronglySorted_cons in Hle as [Hmin _].
    apply elem_of_cons in Hx as [->|Hx]; [simpl; lia|].
    by apply (proj1 (Forall_forall _ _) Hmin) in Hx. }
  assert (Hxl : x ≤ List.last knots.*1 x0).
  { by apply (proj1 (Forall_forall _ _) (sorted_last_max _ x0 Hle)). }
  assert (Hoob : out_of_bounds knots x = false).
  { rewrite Hk. cbn [out_of_bounds]. rewrite <- Hk.
    apply orb_false_iff. split; apply Z.ltb_ge; lia. }
  rewrite Hoob. unfold np_interp. rewrite Hk, <- Hk.
  destruct (Z.ltb_spec x x0); [lia|]. by eapply interp_at_knot.
Qed.

(** Interpolation is exact at the knots. *)
Lemma on_grid_knots (field : record → float64) (lines : list record) :
  StronglySorted Z.lt (timestamp_of <$> lines) →
  on_grid field lines (timestamp_of <$> lines) = field <$> lines.
Proof.
  intros Hs. unfold on_grid, knots_of.
  set (kz := zip (timestamp_of <$> lines) (field <$> lines)).
  assert (Hfst : kz.*1 = timestamp_of <$> lines).
  { subst kz. apply fst_zip. by rewrite !length_fmap. }
  assert (Hsnd : kz.*2 = field <$> lines).
  { subst kz. apply snd_zip. by rewrite !length_fmap. }
  rewrite sort_knots_increasing by by rewrite Hfst.
  rewrite <- Hfst, <- Hsnd. apply interp1d_call_knots. by rewrite Hfst.
Qed.

Lemma coincide_overlap (grid : list Q) (lines : list record) :
  lines ≠ [] →
  Forall2 Qeq (r_obstime <$> lines) grid →
  StronglySorted Qlt grid →
  existsb (λ r, within grid r.(r_obstime)) lines = true.
Proof.
  intros Hne Hco Hs. destruct lines as [|r lines]; [done|].
  rewrite fmap_cons in Hco. apply Forall2_cons_inv_l in Hco as (t0 & grid' & Hr & _ & ->).
  cbn [existsb]. apply orb_true_iff. left.
  unfold within. cbn [head].
  destruct (last_is_Some (t0 :: grid')) as [_ [t1 Ht1]]; [done|]. rewrite Ht1.
  assert (Hle : (t0 <= t1)%Q).
  { apply last_Some_elem_of, elem_of_cons in Ht1 as [->|Hin]; [apply Qle_refl|].
    apply StronglySorted_cons in Hs as [Hall _].
    apply Qlt_le_weak. by apply (proj1 (Forall_forall _ _) Hall). }
  apply andb_true_iff. split; apply Qle_bool_iff.
  - rewrite Hr. apply Qle_refl.
  - by rewrite Hr.
Qed.

(** C5. When the lines of the file fall exactly on the grid (same integer
    timestamps, same instants), the grid is strictly increasing, every
    elevation is greater than [0.0] and no range is zero, [from_file] keeps
    the whole grid and the resampled az, el and ir are the input values. *)
Theorem from_file_knots (self : Trajectory) (filename : string) (lines : list record) :
  lines ≠ [] →
  timestamp_of <$> lines = self.(track_tsns) →
  Forall2 Qeq (r_obstime <$> lines) self.(track_Time) →
  StronglySorted Z.lt self.(track_tsns) →
  StronglySorted Qlt self.(track_Time) →
  Forall (λ r, fgt r.(r_el) (Finite 0.0) = true) lines →
  Forall (λ r, is_zero r.(r_range) = false) lines →
  ∃ (self' : Trajectory) (trk : Track),
    from_file self filename lines = (Ok self', []) ∧
    self'.(valid) = self.(valid) ∧
    self'.(track) = Some trk ∧
    trk !! "timestamp" = Some (NdArray (IntArr self.(track_tsns))) ∧
    trk !! "obstime" = Some (TimeArr self.(track_Time)) ∧
    trk !! "az" = Some (NdArray (FloatArr (r_az <$> lines))) ∧
    trk !! "el" = Some (NdArray (FloatArr (r_el <$> lines))) ∧
    trk !! "ir" = Some (NdArray (FloatArr (inverse_range <$> lines))).
Proof.
  intros Hne Hts Hobs Hsz Hsq Hel Hnz.
  pose proof (coincide_overlap _ _ Hne Hobs Hsq) as Hov.
  assert (Hlen : length self.(track_tsns) = length self.(track_Time)).
  { apply Forall2_length in Hobs. rewrite <- Hts, <- Hobs. by rewrite !length_fmap. }
  destruct (from_file_overlap self filename lines Hnz Hov ltac:(lia))
    as (self' & trk & Hrun & Hvalid & Htrk & Hts' & Hobs' & Hel' & Haz' & Hir').
  assert (Hgrid : ∀ f, on_grid f lines self.(track_tsns) = f <$> lines).
  { intros f. rewrite <- Hts. apply on_grid_knots. by rewrite Hts. }
  assert (Hmask : Forall (λ m, m = true) (el_mask lines self.(track_tsns))).
  { unfold el_mask. rewrite Hgrid. by rewrite !Forall_fmap. }
  assert (Hlm : length (el_mask lines self.(track_tsns)) = length self.(track_tsns))
    by apply length_el_mask.
  rewrite !Hgrid in *.
  assert (Hll : length lines = length self.(track_tsns)) by by rewrite <- Hts, length_fmap.
  rewrite (select_all _ _ Hmask) in Hts' by lia.
  rewrite (select_all _ _ Hmask) in Hobs' by lia.
  rewrite (select_all _ _ Hmask) in Hel' by (rewrite length_fmap; lia).
  rewrite (select_all _ _ Hmask) in Haz' by (rewrite length_fmap; lia).
  rewrite (select_all _ _ Hmask) in Hir' by (rewrite length_fmap; lia).
  exists self', trk. done.
Qed.

Lemma from_file_knots_witness :
  ∃ (self' : Trajectory) (trk : Track),
    from_file cfg3 "f" knots3 = (Ok self', []) ∧
    self'.(track) = Some trk ∧
    trk !! "az" = Some (NdArray (FloatArr [Finite 10; Finite 20; Finite 30])) ∧
    trk !! "el" = Some (NdArray (FloatArr [Finite 5; Finite 7; Finite 9])) ∧
    trk !! "ir" = Some (NdArray (FloatArr (inverse_range <$> knots3))).
Proof.
  destruct (from_file_knots cfg3 "f" knots3)
    as (self' & trk & Hrun & _ & Htrk & _ & _ & Haz & Hel & Hir).
  - done.
  - reflexivity.
  - repeat constructor.
  - repeat (constructor; [|repeat constructor; done]). constructor.
  - repeat (constructor; [|repeat constructor; done]). constructor.
  - repeat constructor.
  - repeat constructor.
  - exists self', trk. repeat split; assumption.
Defined.

(** ** Trajectory.galactic *)

Lemma where_from_cons (mask : list bool) : ∀ k i rest,
  where_from k mask = i :: rest →
  (k ≤ i)%nat ∧ mask !! (i - k)%nat = Some true.
Proof.
  induction mask as [|m mask IH]; intros k i rest H; [done|].
  cbn [where_from] in H. destruct m.
  - injection H as <- _. rewrite Nat.sub_diag. split; [lia|done].
  - apply IH in H as [Hle Hm]. split; [lia|].
    replace (i - k)%nat with (S (i - S k)) by lia. done.
Qed.

Lemma where_from_nil (mask : list bool) : ∀ k,
  where_from k mask = [] ↔ Forall (λ m, m = false) mask.
Proof.
  induction mask as [|m mask IH]; intros k; cbn [where_from].
  - split; [constructor|done].
  - destruct m.
    + split; [done|]. by intros [? _]%Forall_cons.
    + rewrite (IH (S k)). split; [by constructor|]. by intros [_ ?]%Forall_cons.
Qed.

Lemma gp_l_eq : gp_l = (λ i : nat, (0 + inject_Z (Z.of_nat i) * 0.1)%Q) <$> seq 0 3599.
Proof.
  unfold gp_l, arange_float. change (Qeq_bool 0.1 0) with false. cbv iota.
  replace (Z.to_nat (Qceiling (359.9 / 0.1))) with 3599%nat by by vm_compute.
  reflexivity.
Qed.

Lemma gp_l_range (i : nat) (l : Q) : gp_l !! i = Some l → (0 <= l)%Q ∧ (l < 360)%Q.
Proof.
  rewrite gp_l_eq. intros [-> Hi]%lookup_arange.
  assert (H0 : (0 <= inject_Z (Z.of_nat i))%Q).
  { change 0%Q with (inject_Z 0). rewrite <- Zle_Qle. lia. }
  assert (H1 : (inject_Z (Z.of_nat i) <= 3598)%Q).
  { change 3598%Q with (inject_Z 3598). rewrite <- Zle_Qle. lia. }
  split; lra.
Qed.

Section Sweep.

Variable to_icrs : Q → Q → Q * Q.
Variable to_altaz : Q * Q → Q → Q * Q.
Variable str_deg : Q → string.

Lemma sweep_spec (starting_l R b : Q) (times : list Q) : ∀ (trk : Track) (i : nat),
  Forall (is_list trk) sweep_keys →
  ∃ trk' : Track,
    sweep to_icrs to_altaz trk starting_l R b i times = (Ok trk', []) ∧
    ∀ key, trk' !! key =
      match trk !! key with
      | Some (PyList vs) =>
          Some (PyList (vs ++ sweep_column to_icrs to_altaz key starting_l R b i times))
      | o => o
      end.
Proof.
  induction times as [|t times IH]; intros trk i Hkeys; cbn [sweep sweep_column].
  - exists trk. split; [done|]. intros key.
    destruct (trk !! key) as [[]|]; try done. by rewrite app_nil_r.
  - destruct (add_lists (sweep_kwargs to_icrs to_altaz starting_l R b i t) trk)
      as (trk1 & Hadd & Hl1).
    { unfold sweep_kwargs, sweep_keys in *.
      repeat (apply Forall_cons in Hkeys as [? Hkeys]). repeat constructor; done. }
    unfold sweep_kwargs in Hadd. cbv zeta in *. rewrite Hadd, bind_ok_nil.
    destruct (IH trk1 (S i)) as (trk' & Hrun & Hl).
    { eapply Forall_impl; [exact Hkeys|]. intros key [vs Hvs].
      unfold is_list. rewrite Hl1, Hvs. by eexists. }
    exists trk'. split; [done|]. intros key. rewrite Hl, Hl1.
    destruct (trk !! key) as [[]|]; try done. by rewrite <- app_assoc.
Qed.

Lemma sweep_column_l (starting_l R b : Q) (times : list Q) : ∀ i,
  sweep_column to_icrs to_altaz "l" starting_l R b i times
  = float <$> (sweep_l starting_l R <$> seq i (length times)).
Proof.
  induction times as [|t times IH]; intros i; [done|].
  cbn [sweep_column length seq]. by rewrite IH.
Qed.

Lemma sweep_column_el (starting_l R b : Q) (times : list Q) : ∀ i,
  sweep_column to_icrs to_altaz "el" starting_l R b i times
  = float <$> zip_with (sweep_el to_icrs to_altaz starting_l R b) (seq i (length times)) times.
Proof.
  induction times as [|t times IH]; intros i; [done|].
  cbn [sweep_column length seq]. by rewrite IH.
Qed.

Lemma length_sweep_column key (starting_l R b : Q) (times : list Q) : ∀ i,
  key ∈ sweep_keys →
  length (sweep_column to_icrs to_altaz key starting_l R b i times) = length times.
Proof.
  intros i Hkey. revert i. induction times as [|t times IH]; intros i; [done|].
  cbn [sweep_column]. rewrite length_app, IH. cbn [length]. f_equal.
  unfold sweep_keys in Hkey. unfold sweep_kwargs. cbv zeta.
  repeat (apply elem_of_cons in Hkey as [->|Hkey]; [done|]).
  by apply elem_of_nil in Hkey.
Qed.

End Sweep.

Lemma float_fmap (qs : list Q) : float <$> qs = PyFloat <$> (Finite <$> qs).
Proof. by rewrite <- list_fmap_compose. Qed.

Lemma Qltb_true (a b : Q) : Qltb a b = true ↔ (a < b)%Q.
Proof.
  unfold Qltb. rewrite negb_true_iff. split.
  - intros H. apply Qnot_le_lt. intros Hle%Qle_bool_iff. congruence.
  - intros H. apply not_true_is_false. intros Hle%Qle_bool_iff.
    by apply Qlt_not_le in H.
Qed.

Lemma Qltb_false (a b : Q) : Qltb a b = false ↔ (b <= a)%Q.
Proof. unfold Qltb. rewrite negb_false_iff. apply Qle_bool_iff. Qed.

Section Galactic.

Variable to_icrs : Q → Q → Q * Q.
Variable to_altaz : Q * Q → Q → Q * Q.
Variable str_deg : Q → string.

Lemma sweep_column_az (starting_l R b : Q) (times : list Q) : ∀ i,
  sweep_column to_icrs to_altaz "az" starting_l R b i times
  = float <$> zip_with (sweep_az to_icrs to_altaz starting_l R b) (seq i (length times)) times.
Proof.
  induction times as [|t times IH]; intros i; [done|].
  cbn [sweep_column length seq]. by rewrite IH.
Qed.

(** The mask computed by [galactic] at the start instant. *)
Lemma above_horizon_mask (self : Trajectory) (b : Q) :
  (λ ae : Q * Q, Qltb self.(el_horizon) ae.2) <$>
    ((λ rd, to_altaz rd self.(start_time)) <$> ((λ l, to_icrs l b) <$> gp_l))
  = (λ l, Qltb self.(el_horizon) (start_el to_icrs to_altaz self b l)) <$> gp_l.
Proof. by rewrite <- !list_fmap_compose. Qed.


Lemma galactic_sweeps (self : Trajectory) (b rate : Q) :
  Qltb b (-90) || Qltb 90 b = false →
  Exists (λ l, (self.(el_horizon) < start_el to_icrs to_altaz self b l)%Q) gp_l →
  length self.(track_Time) = length self.(track_tsns) →
  let R := (rate * self.(tstep))%Q in
  let n := length self.(track_Time) in
  ∃ (self' : Trajectory) (trk : Track) (l0 : Q),
    galactic to_icrs to_altaz str_deg self b rate = (Ok self', []) ∧
    self'.(valid) = self.(valid) ∧
    self'.(track) = Some trk ∧
    l0 ∈ gp_l ∧
    (self.(el_horizon) < start_el to_icrs to_altaz self b l0)%Q ∧
    trk !! "timestamp" = Some (NdArray (IntArr self.(track_tsns))) ∧
    trk !! "obstime" = Some (TimeArr self.(track_Time)) ∧
    trk !! "l" = Some (PyList (float <$> (sweep_l l0 R <$> seq 0 n))) ∧
    trk !! "el" = Some (PyList (float <$>
        zip_with (sweep_el to_icrs to_altaz l0 R b) (seq 0 n) self.(track_Time))) ∧
    Forall (λ key, length_of trk key = Some n) sweep_keys.
Proof.
  intros Hb Hex Hlen R n.
  set (mask := (λ l, Qltb self.(el_horizon) (start_el to_icrs to_altaz self b l)) <$> gp_l).
  destruct (np_where mask) as [|i0 rest] eqn:Hwhere.
  { apply where_from_nil, Forall_fmap in Hwhere. exfalso.
    apply Exists_exists in Hex as (l & Hl & Hlt).
    apply (proj1 (Forall_forall _ _) Hwhere) in Hl. simpl in Hl.
    apply Qltb_false in Hl. by apply Qlt_not_le in Hlt. }
  pose proof (where_from_cons _ _ _ _ Hwhere) as [_ Hm]. rewrite Nat.sub_0_r in Hm.
  subst mask. rewrite list_lookup_fmap in Hm.
  destruct (gp_l !! i0) as [l0|] eqn:Hl0; [|done].
  simpl in Hm. injection Hm as Hm. apply Qltb_true in Hm.
  destruct (grid_track ("Galactic b=" +:+ str_deg b) self.(track_tsns) self.(track_Time))
    as (trk0 & Htrk0 & Hts & Hobs & Hrest).
  destruct (sweep_spec to_icrs to_altaz l0 R b self.(track_Time) trk0 0)
    as (trk1 & Hsweep & Hl1).
  { unfold sweep_keys. repeat (apply Forall_cons in Hrest as [? Hrest]).
    repeat constructor; by eexists. }
  assert (Hcol : ∀ key, key ∈ sweep_keys → trk1 !! key =
            Some (PyList (sweep_column to_icrs to_altaz key l0 R b 0 self.(track_Time)))).
  { intros key Hkey. rewrite Hl1.
    assert (Hk : trk0 !! key = Some (PyList [])).
    { apply (proj1 (Forall_forall _ _) Hrest). unfold sweep_keys in Hkey.
      repeat (apply elem_of_cons in Hkey as [->|Hkey]; [in_list|]).
      by apply elem_of_nil in Hkey. }
    by rewrite Hk. }
  assert (H1 : trk1 !! "timestamp" = Some (NdArray (IntArr self.(track_tsns))))
    by by rewrite Hl1, Hts.
  assert (H2 : trk1 !! "az" = Some (PyList (PyFloat <$> (Finite <$>
            zip_with (sweep_az to_icrs to_altaz l0 R b) (seq 0 n) self.(track_Time))))).
  { rewrite Hcol by in_list. by rewrite sweep_column_az, float_fmap. }
  assert (H3 : trk1 !! "el" = Some (PyList (PyFloat <$> (Finite <$>
            zip_with (sweep_el to_icrs to_altaz l0 R b) (seq 0 n) self.(track_Time))))).
  { rewrite Hcol by in_list. by rewrite sweep_column_el, float_fmap. }
  assert (Hzl : ∀ f : nat → Q → Q,
            length (Finite <$> zip_with f (seq 0 n) self.(track_Time)) = length self.(track_tsns)).
  { intros f. rewrite length_fmap, length_zip_with, length_seq. lia. }
  pose proof (rates_arrays trk1 _ _ _ _ _ _ H1 eq_refl H2 (asarray_floats _)
                H3 (asarray_floats _) (Hzl _) (Hzl _)) as Hrates.
  eexists _, _, l0. split.
  - unfold galactic. cbv zeta. rewrite Hb, bind_ret.
    cbn [start_time el_horizon track_tsns track_Time tstep set_galactic
         set_trajectory_type set_track].
    rewrite above_horizon_mask, Hwhere, Hl0, bind_lift, Htrk0, bind_ok_nil.
    fold R. rewrite Hsweep, bind_ok_nil, Hrates, bind_ok_nil. reflexivity.
  - cbn [valid track set_track set_galactic set_trajectory_type].
    split; [done|]. split; [done|].
    split; [by eapply list_elem_of_lookup_2|]. split; [done|].
    rewrite !lookup_insert_ne by done.
    split; [done|]. split; [by rewrite Hl1, Hobs|].
    split. { rewrite Hcol by in_list. by rewrite sweep_column_l. }
    split. { rewrite Hcol by in_list. by rewrite sweep_column_el. }
    apply Forall_forall. intros key Hkey. unfold length_of.
    assert (key ≠ "deldt" ∧ key ≠ "dazdt") as [? ?].
    { unfold sweep_keys in Hkey.
      repeat (apply elem_of_cons in Hkey as [->|Hkey]; [done|]).
      by apply elem_of_nil in Hkey. }
    rewrite !lookup_insert_ne by done. rewrite (Hcol key Hkey). simpl.
    by rewrite length_sweep_column.
Qed.

End Galactic.

Lemma sweep_l_start (l0 R : Q) : (l0 < 360)%Q → (sweep_l l0 R 0 == l0)%Q.
Proof.
  intros Hl. unfold sweep_l. cbv zeta.
  assert (Heq : (l0 + inject_Z (Z.of_nat 0) * R == l0)%Q) by (simpl; ring).
  replace (Qltb 360.0 (l0 + inject_Z (Z.of_nat 0) * R)) with false; [done|].
  symmetry. apply Qltb_false. rewrite Heq. lra.
Qed.

Lemma sweep_l_beyond (l0 R : Q) (i : nat) :
  (0 <= l0)%Q → (720 <= inject_Z (Z.of_nat i) * R)%Q → (360 <= sweep_l l0 R i)%Q.
Proof.
  intros Hl HR. unfold sweep_l. cbv zeta.
  destruct (Qltb 360.0 (l0 + inject_Z (Z.of_nat i) * R)) eqn:Hlt.
  - lra.
  - apply Qltb_false in Hlt. lra.
Qed.

Lemma sweep_l_at_360 (l0 R : Q) (i : nat) :
  (l0 + inject_Z (Z.of_nat i) * R == 360)%Q → (sweep_l l0 R i == 360)%Q.
Proof.
  intros Heq. unfold sweep_l. cbv zeta.
  replace (Qltb 360.0 (l0 + inject_Z (Z.of_nat i) * R)) with false; [done|].
  symmetry. apply Qltb_false. rewrite Heq. lra.
Qed.

Lemma Trajectory_init_head (local time_to_track tstep el_horizon tz : Q) self out :
  Trajectory_init local time_to_track tstep el_horizon tz = (Ok self, out) →
  ∀ t0, head self.(track_Time) = Some t0 → (t0 == self.(start_time))%Q.
Proof.
  unfold Trajectory_init, arange_float, arange_int.
  destruct (Qeq_bool tstep 0); [done|]. rewrite bind_lift.
  case_decide; [done|]. rewrite bind_lift.
  intros [= <- _] t0. cbn [track_Time start_time].
  destruct (Z.to_nat (Qceiling (time_to_track * 60.0 / tstep))) as [|m]; [done|].
  cbn [seq fmap list_fmap head]. intros [= <-]. simpl. ring.
Qed.

Section Claims.

Variable to_icrs : Q → Q → Q * Q.
Variable to_altaz : Q * Q → Q → Q * Q.
Variable str_deg : Q → string.

(** C8. A galactic sweep that finds a longitude above the horizon at the
    start instant succeeds and its track has one sample per grid instant:
    timestamp, obstime, az, el, ra, dec, l and b all have the length of the
    grid, the elevations are those of the sweep at every instant, with no
    filter on the horizon, and the first elevation exceeds the horizon. *)
Theorem galactic_one_sample_per_instant (self : Trajectory) (b rate : Q) :
  icrs_respects to_icrs → altaz_respects to_altaz →
  Qltb b (-90) || Qltb 90 b = false →
  Exists (λ l, (self.(el_horizon) < start_el to_icrs to_altaz self b l)%Q) gp_l →
  length self.(track_Time) = length self.(track_tsns) →
  (∀ t0, head self.(track_Time) = Some t0 → (t0 == self.(start_time))%Q) →
  let n := length self.(track_Time) in
  ∃ (self' : Trajectory) (trk : Track) (l0 : Q) (els : list Q),
    galactic to_icrs to_altaz str_deg self b rate = (Ok self', []) ∧
    self'.(valid) = self.(valid) ∧
    self'.(track) = Some trk ∧
    trk !! "el" = Some (PyList (float <$> els)) ∧
    els = zip_with (sweep_el to_icrs to_altaz l0 (rate * self.(tstep)) b)
            (seq 0 n) self.(track_Time) ∧
    length els = n ∧
    Forall (λ key, length_of trk key = Some n)
      ["timestamp"; "obstime"; "az"; "el"; "ra"; "dec"; "l"; "b"] ∧
    (∀ e0, head els = Some e0 → (self.(el_horizon) < e0)%Q).
Proof.
  intros Hicrs Haltaz Hb Hex Hlen Hhead n.
  destruct (galactic_sweeps to_icrs to_altaz str_deg self b rate Hb Hex Hlen)
    as (self' & trk & l0 & Hrun & Hvalid & Htrk & Hl0 & Hstart & Hts & Hobs & _ & Hel & Hkeys).
  fold n in Hel, Hkeys.
  exists self', trk, l0, (zip_with (sweep_el to_icrs to_altaz l0 (rate * self.(tstep)) b)
                            (seq 0 n) self.(track_Time)).
  do 5 (split; [done|]).
  split. { rewrite length_zip_with, length_seq. lia. }
  split.
  { constructor; [rewrite (length_of_ints _ _ _ Hts); f_equal; lia|].
    constructor; [by rewrite (length_of_times _ _ _ Hobs)|]. exact Hkeys. }
  intros e0 He0.
  destruct self.(track_Time) as [|t0 times] eqn:Htimes; [done|].
  subst n. cbn [length seq zip_with head] in He0. injection He0 as <-.
  apply list_elem_of_lookup in Hl0 as [i0 Hi0].
  destruct (gp_l_range _ _ Hi0) as [_ Hlt].
  pose proof (sweep_l_start l0 (rate * self.(tstep)) Hlt) as Hl.
  destruct (Hicrs _ _ b Hl) as [Hra Hdec].
  unfold sweep_el. unfold start_el in Hstart.
  rewrite (Haltaz _ _ t0 self.(start_time) Hra Hdec (Hhead t0 eq_refl)). done.
Qed.


(** The longitudes stored by a valid sweep are those of the loop body,
    for whatever sky: one subtraction of 360 at most. *)
Lemma galactic_longitudes (self : Trajectory) (b rate : Q) :
  Qltb b (-90) || Qltb 90 b = false →
  Exists (λ l, (self.(el_horizon) < start_el to_icrs to_altaz self b l)%Q) gp_l →
  length self.(track_Time) = length self.(track_tsns) →
  ∃ (self' : Trajectory) (l0 : Q),
    galactic to_icrs to_altaz str_deg self b rate = (Ok self', []) ∧
    (0 <= l0)%Q ∧
    longitudes self' =
      sweep_l l0 (rate * self.(tstep)) <$> seq 0 (length self.(track_Time)).
Proof.
  intros Hb Hex Hlen.
  destruct (galactic_sweeps to_icrs to_altaz str_deg self b rate Hb Hex Hlen)
    as (self' & trk & l0 & Hrun & _ & Htrk & Hl0 & _ & _ & _ & Hl & _).
  exists self', l0. split; [done|]. split.
  - apply list_elem_of_lookup in Hl0 as [i0 Hi0]. by destruct (gp_l_range _ _ Hi0).
  - unfold longitudes, attr. rewrite Htrk, Hl.
    generalize (sweep_l l0 (rate * tstep self) <$> seq 0 (length (track_Time self))).
    intros qs. induction qs as [|q qs IH]; [done|]. csimpl. by f_equal.
Qed.

Lemma galactic_longitude_beyond (self : Trajectory) (b rate : Q) :
  Qltb b (-90) || Qltb 90 b = false →
  Exists (λ l, (self.(el_horizon) < start_el to_icrs to_altaz self b l)%Q) gp_l →
  length self.(track_Time) = length self.(track_tsns) →
  ∃ self' : Trajectory,
    galactic to_icrs to_altaz str_deg self b rate = (Ok self', []) ∧
    ∀ (i : nat) (l : Q),
      longitudes self' !! i = Some l →
      (720 <= inject_Z (Z.of_nat i) * (rate * self.(tstep)))%Q →
      (360 <= l)%Q.
Proof.
  intros Hb Hex Hlen.
  destruct (galactic_longitudes self b rate Hb Hex Hlen) as (self' & l0 & Hrun & Hl0 & Hls).
  exists self'. split; [done|]. intros i l Hi HR.
  rewrite Hls in Hi. apply list_lookup_fmap_Some in Hi as (j & -> & Hj).
  apply lookup_seq in Hj as [-> _]. simpl in HR. by apply sweep_l_beyond.
Qed.

End Claims.

Lemma plain_icrs_respects : icrs_respects plain_icrs.
Proof. intros l l' b Hl. split; [exact Hl|reflexivity]. Qed.

Lemma level_altaz_respects : altaz_respects level_altaz.
Proof. intros rd rd' t t' _ _ _. reflexivity. Qed.

Lemma gp_l_first : (0 + inject_Z (Z.of_nat 0) * 0.1)%Q ∈ gp_l.
Proof.
  rewrite gp_l_eq. apply list_elem_of_fmap. exists 0%nat. split; [done|].
  apply elem_of_seq. lia.
Qed.

Lemma galactic_one_sample_per_instant_witness :
  ∃ (self' : Trajectory) (trk : Track) (els : list Q),
    galactic plain_icrs level_altaz plain_str cfg3 0 (1 # 10) = (Ok self', []) ∧
    self'.(track) = Some trk ∧
    trk !! "el" = Some (PyList (float <$> els)) ∧
    length els = 3%nat ∧
    Forall (λ key, length_of trk key = Some 3%nat)
      ["timestamp"; "obstime"; "az"; "el"; "ra"; "dec"; "l"; "b"] ∧
    (∀ e0, head els = Some e0 → (30 < e0)%Q).
Proof.
  destruct (galactic_one_sample_per_instant plain_icrs level_altaz plain_str cfg3 0 (1 # 10))
    as (self' & trk & l0 & els & Hrun & _ & Htrk & Hel & _ & Hlen & Hkeys & Hfirst).
  - exact plain_icrs_respects.
  - exact level_altaz_respects.
  - reflexivity.
  - apply Exists_exists. eexists. split; [exact gp_l_first|]. by vm_compute.
  - reflexivity.
  - intros t0 [= <-]. by vm_compute.
  - exists self', trk, els. repeat split; assumption.
Defined.



(** C7.  Twenty minutes in steps of one second at one degree per second,
    starting from longitude 0: sample 360 is stored as 360 itself, and the
    last sample, 1199 degrees after the start, as 839. *)
Theorem galactic_longitude_not_wrapped :
  match value (cfg ← Trajectory_init 0 20 1 30 0;
               galactic plain_icrs level_altaz plain_str cfg 0 1) with
  | Ok self =>
      self.(valid) = true ∧
      match longitudes self !! 360%nat, longitudes self !! 1199%nat with
      | Some l, Some l' => (l == 360)%Q ∧ (l' == 839)%Q
      | _, _ => False
      end
  | Raise _ => False
  end.
Proof. vm_compute. repeat split. Qed.

(** The samples after the first are kept whatever their elevation: with an
    elevation that falls along the sweep, the track holds 50, 30 and 10
    degrees for a horizon of 30. *)
Example galactic_keeps_samples_below_horizon :
  match value (galactic plain_icrs falling_altaz plain_str cfg3 0 1) with
  | Ok self =>
      self.(valid) = true ∧
      match attr self "el" with
      | Some (PyList [PyFloat (Finite e0); PyFloat (Finite e1); PyFloat (Finite e2)]) =>
          (30 < e0)%Q ∧ (e1 <= 30)%Q ∧ (e2 <= 30)%Q
      | _ => False
      end
  | Raise _ => False
  end.
Proof. vm_compute. repeat split; discriminate. Qed.

(** * Further properties

    Error and edge behaviour, invariants and compositions of the
    functions above, read off the source. *)

(** ** Track.add *)

Lemma is_list_insert (self : Track) k vs key :
  is_list self k → is_list (<[k := PyList vs]> self) key ↔ is_list self key.
Proof.
  intros [vs0 Hk]. unfold is_list. rewrite lookup_insert. case_decide; [|done].
  subst key. split; intros _; eauto.
Qed.

(** X1. [add] fails with AttributeError as soon as one of the named
    attributes is not a Python list (an array set by a keyword of the
    constructor, a [Time] array, the label, or a name the track does not
    have), whatever the other keywords are. *)
Theorem add_raises_AttributeError (self : Track) (kwargs : list (string * scalar)) :
  Exists (λ kv, ¬ is_list self kv.1) kwargs →
  add self kwargs = (Raise AttributeError, []).
Proof.
  revert self. induction kwargs as [|[k v] rest IH]; intros self Hex.
  { by apply Exists_nil in Hex. }
  destruct (self !! k) as [o|] eqn:Hk.
  2:{ apply add_not_list. intros [vs Hvs]. congruence. }
  destruct o as [s|vs|a|ts];
    try (apply add_not_list; intros [vs' Hvs]; congruence).
  apply Exists_cons in Hex as [Hhd|Htl].
  { destruct Hhd. by exists vs. }
  cbn [add]. rewrite (getattr_Some _ _ _ Hk), bind_ret. apply IH.
  eapply Exists_impl; [exact Htl|]. intros [k' v'] Hn. simpl in *.
  intros Hl. apply Hn. eapply is_list_insert; [|exact Hl]. by exists vs.
Qed.

Lemma add_raises_AttributeError_witness :
  add {["timestamp" := NdArray (IntArr [1; 2]); "az" := PyList []]}
      [("az", PyFloat (Finite 1)); ("timestamp", PyInt 3)]
    = (Raise AttributeError, []).
Proof.
  apply (add_raises_AttributeError
           {["timestamp" := NdArray (IntArr [1; 2]); "az" := PyList []]}
           [("az", PyFloat (Finite 1)); ("timestamp", PyInt 3)]).
  apply Exists_cons_tl, Exists_cons_hd. simpl. intros [vs Hvs]. discriminate Hvs.
Defined.

(** ** Track.rates, again *)

(** Every successful run of [rates] has this shape. *)
Lemma rates_inv (self self' : Track) (out : list string) :
  rates self = (Ok self', out) →
  ∃ ots ts oaz az oel el dazdt deldt,
    self !! "timestamp" = Some ots ∧ asarray ots = Ok ts ∧
    self !! "az" = Some oaz ∧ asarray oaz = Ok az ∧
    self !! "el" = Some oel ∧ asarray oel = Ok el ∧
    np_divide (floats_of (np_diff az))
      ((λ x, fdiv x (Finite 1e9)) <$> floats_of (np_diff ts)) = Ok dazdt ∧
    np_divide (floats_of (np_diff el))
      ((λ x, fdiv x (Finite 1e9)) <$> floats_of (np_diff ts)) = Ok deldt ∧
    out = [] ∧
    self' = <["deldt" := NdArray (FloatArr deldt)]>
              (<["dazdt" := NdArray (FloatArr dazdt)]> self).
Proof.
  unfold rates, getattr. intros H.
  destruct (self !! "timestamp") as [ots|] eqn:Hts; [|done]. rewrite bind_ret in H.
  destruct (asarray ots) as [ts|e] eqn:Hats; [|done]. rewrite bind_lift in H.
  destruct (self !! "az") as [oaz|] eqn:Haz; [|done]. rewrite bind_ret in H.
  destruct (asarray oaz) as [az|e] eqn:Haaz; [|done]. rewrite bind_lift in H.
  destruct (np_divide (floats_of (np_diff az)) _) as [dazdt|e] eqn:Hdaz; [|done].
  rewrite bind_lift in H. rewrite lookup_insert_ne in H by done.
  destruct (self !! "el") as [oel|] eqn:Hel; [|done]. rewrite bind_ret in H.
  destruct (asarray oel) as [el|e] eqn:Hael; [|done]. rewrite bind_lift in H.
  destruct (np_divide (floats_of (np_diff el)) _) as [deldt|e] eqn:Hdel; [|done].
  rewrite bind_lift in H. injection H as <- <-.
  by exists ots, ts, oaz, az, oel, el, dazdt, deldt.
Qed.

Lemma rates_run (self : Track) ots ts oaz az oel el dazdt deldt :
  self !! "timestamp" = Some ots → asarray ots = Ok ts →
  self !! "az" = Some oaz → asarray oaz = Ok az →
  self !! "el" = Some oel → asarray oel = Ok el →
  np_divide (floats_of (np_diff az))
    ((λ x, fdiv x (Finite 1e9)) <$> floats_of (np_diff ts)) = Ok dazdt →
  np_divide (floats_of (np_diff el))
    ((λ x, fdiv x (Finite 1e9)) <$> floats_of (np_diff ts)) = Ok deldt →
  rates self = (Ok (<["deldt" := NdArray (FloatArr deldt)]>
                      (<["dazdt" := NdArray (FloatArr dazdt)]> self)), []).
Proof.
  intros Hts Hats Haz Haaz Hel Hael Hdaz Hdel. unfold rates.
  rewrite (getattr_Some _ _ _ Hts), bind_ret, Hats, bind_lift.
  rewrite (getattr_Some _ _ _ Haz), bind_ret, Haaz, bind_lift.
  rewrite Hdaz, bind_lift.
  rewrite (getattr_Some _ "el" oel), bind_ret, Hael, bind_lift by by rewrite lookup_insert_ne.
  by rewrite Hdel, bind_lift.
Qed.

(** X2. A successful [rates] stores [dazdt] and [deldt] and leaves every
    other attribute as it was; calling it again succeeds and changes
    nothing. *)
Theorem rates_idempotent (self self' : Track) (out : list string) :
  rates self = (Ok self', out) →
  rates self' = (Ok self', []) ∧
  ∀ key, key ≠ "dazdt" → key ≠ "deldt" → self' !! key = self !! key.
Proof.
  intros H. apply rates_inv in H
    as (ots & ts & oaz & az & oel & el & dazdt & deldt &
        Hts & Hats & Haz & Haaz & Hel & Hael & Hdaz & Hdel & -> & ->).
  split.
  - rewrite (rates_run _ ots ts oaz az oel el dazdt deldt);
      try done; try by rewrite !lookup_insert_ne.
    f_equal. f_equal. apply map_eq. intros key.
    rewrite !lookup_insert. repeat case_decide; done.
  - intros key H1 H2. by rewrite !lookup_insert_ne.
Qed.

Lemma rates_idempotent_witness :
  ∃ self' : Track,
    rates {["timestamp" := NdArray (IntArr [0; 1000000000]);
            "az" := PyList [PyFloat (Finite 1); PyFloat (Finite 3)];
            "el" := PyList [PyFloat (Finite 1); PyFloat (Finite 2)]]} = (Ok self', []) ∧
    rates self' = (Ok self', []).
Proof.
  eexists. split; [reflexivity|].
  eapply (rates_idempotent
            {["timestamp" := NdArray (IntArr [0; 1000000000]);
              "az" := PyList [PyFloat (Finite 1); PyFloat (Finite 3)];
              "el" := PyList [PyFloat (Finite 1); PyFloat (Finite 2)]]}).
  reflexivity.
Defined.

Lemma np_diff_short (a : ndarray) : (len_array a ≤ 1)%nat → floats_of (np_diff a) = [].
Proof.
  destruct a as [[|z [|z' zs]]|[|x [|x' xs]]]; simpl; try done; lia.
Qed.

(** X3. On a track whose timestamp, az and el have at most one sample
    each (an empty track included), [rates] does not fail: it stores empty
    [dazdt] and [deldt]. *)
Theorem rates_short_track (self : Track) (ots oaz oel : pyobj) (ts az el : ndarray) :
  self !! "timestamp" = Some ots → asarray ots = Ok ts →
  self !! "az" = Some oaz → asarray oaz = Ok az →
  self !! "el" = Some oel → asarray oel = Ok el →
  (len_array ts ≤ 1)%nat → (len_array az ≤ 1)%nat → (len_array el ≤ 1)%nat →
  rates self = (Ok (<["deldt" := NdArray (FloatArr [])]>
                      (<["dazdt" := NdArray (FloatArr [])]> self)), []).
Proof.
  intros Hts Hats Haz Haaz Hel Hael Hlt Hla Hle.
  apply (rates_run _ ots ts oaz az oel el); try done;
    by rewrite !np_diff_short.
Qed.

Lemma rates_short_track_witness :
  rates {["timestamp" := NdArray (IntArr [5]);
          "az" := PyList [PyFloat (Finite 1)];
          "el" := PyList []]}
  = (Ok (<["deldt" := NdArray (FloatArr [])]>
           (<["dazdt" := NdArray (FloatArr [])]>
              {["timestamp" := NdArray (IntArr [5]);
                "az" := PyList [PyFloat (Finite 1)];
                "el" := PyList []]})), []).
Proof.
  apply (rates_short_track _ (NdArray (IntArr [5])) (PyList [PyFloat (Finite 1)]) (PyList [])
           (IntArr [5]) (FloatArr [Finite 1]) (FloatArr []));
    try reflexivity; simpl; lia.
Defined.

Lemma np_divide_mismatch (xs ys : list float64) :
  length xs ≠ length ys → length xs ≠ 1%nat → length ys ≠ 1%nat →
  np_divide xs ys = Raise ValueError.
Proof.
  intros Hne Hx Hy. unfold np_divide. rewrite decide_False by done.
  destruct xs as [|x [|x' xs]], ys as [|y [|y' ys]]; simpl in *; try done.
Qed.

(** X4. When az and timestamp have different lengths, neither of them
    two and one of them at least two, the differences cannot be broadcast
    against each other and [rates] fails with ValueError. *)
Theorem rates_length_mismatch (self : Track) (ots oaz : pyobj) (ts az : ndarray) :
  self !! "timestamp" = Some ots → asarray ots = Ok ts →
  self !! "az" = Some oaz → asarray oaz = Ok az →
  len_array az ≠ len_array ts →
  len_array az ≠ 2%nat → len_array ts ≠ 2%nat →
  (2 ≤ len_array az ∨ 2 ≤ len_array ts)%nat →
  rates self = (Raise ValueError, []).
Proof.
  intros Hts Hats Haz Haaz Hne Ha2 Ht2 Hge. unfold rates.
  rewrite (getattr_Some _ _ _ Hts), bind_ret, Hats, bind_lift.
  rewrite (getattr_Some _ _ _ Haz), bind_ret, Haaz, bind_lift.
  rewrite np_divide_mismatch; [done|..];
    rewrite ?length_fmap, !length_floats_of_diff; lia.
Qed.

Lemma rates_length_mismatch_witness :
  rates {["timestamp" := NdArray (IntArr [0; 1; 2; 3]);
          "az" := PyList [PyFloat (Finite 1); PyFloat (Finite 2); PyFloat (Finite 3)];
          "el" := PyList []]}
  = (Raise ValueError, []).
Proof.
  apply (rates_length_mismatch _ (NdArray (IntArr [0; 1; 2; 3]))
           (PyList [PyFloat (Finite 1); PyFloat (Finite 2); PyFloat (Finite 3)])
           (IntArr [0; 1; 2; 3]) (FloatArr [Finite 1; Finite 2; Finite 3]));
    try reflexivity; simpl; lia.
Defined.

(** ** Track.__repr__ and Track.log_track *)

Lemma getitem_pick (o : pyobj) (vs : list scalar) (from_end : bool) :
  items o = Ok vs →
  getitem o from_end =
    match pick from_end vs with Some v => Ok v | None => Raise IndexError end.
Proof. intros H. unfold getitem, pick. by rewrite H. Qed.

Lemma try_pair_sequences (self : Track) (x y : string) (xs ys : list scalar) from_end :
  sequence self x xs → sequence self y ys →
  try_pair self x y from_end = mret (pair_entry from_end xs ys).
Proof.
  intros (ox & Hx & Hxs) (oy & Hy & Hys). unfold try_pair, pair_entry.
  rewrite (getattr_Some _ _ _ Hx), bind_ret, (getitem_pick _ _ _ Hxs).
  destruct (pick from_end xs) as [vx|]; [|done].
  rewrite (getattr_Some _ _ _ Hy), bind_ret, (getitem_pick _ _ _ Hys).
  by destruct (pick from_end ys).
Qed.

Lemma repr_point_sequences (self : Track) from_end lbl ts ls bs ras decs azs els t :
  sequence self "obstime" ts → pick from_end ts = Some t →
  sequence self "l" ls → sequence self "b" bs →
  sequence self "ra" ras → sequence self "dec" decs →
  sequence self "az" azs → sequence self "el" els →
  repr_point self from_end lbl =
    mret {| p_label := lbl; p_obstime := t;
            p_lb := pair_entry from_end ls bs;
            p_radec := pair_entry from_end ras decs;
            p_azel := pair_entry from_end azs els |}.
Proof.
  intros (o & Ho & Hts) Ht Hl Hb Hra Hdec Haz Hel. unfold repr_point.
  rewrite (getattr_Some _ _ _ Ho), bind_ret, (getitem_pick _ _ _ Hts), Ht, bind_lift.
  rewrite (try_pair_sequences _ _ _ _ _ _ Hl Hb), bind_ret.
  rewrite (try_pair_sequences _ _ _ _ _ _ Hra Hdec), bind_ret.
  by rewrite (try_pair_sequences _ _ _ _ _ _ Haz Hel), bind_ret.
Qed.

Lemma repr_point_empty (self : Track) from_end lbl :
  sequence self "obstime" [] → repr_point self from_end lbl = (Raise IndexError, []).
Proof.
  intros (o & Ho & Hts). unfold repr_point.
  rewrite (getattr_Some _ _ _ Ho), bind_ret, (getitem_pick _ _ _ Hts).
  by destruct from_end.
Qed.

Lemma pick_is_Some from_end (vs : list scalar) : vs ≠ [] → is_Some (pick from_end vs).
Proof.
  intros H. destruct from_end; simpl.
  - by apply last_is_Some.
  - by apply head_is_Some.
Qed.

(** The summary written by [log_track]. *)
Lemma log_track_sequences (self : Track) filename name ts ls bs ras decs azs els t0 t1 :
  self !! "name" = Some name →
  sequence self "obstime" ts → pick false ts = Some t0 → pick true ts = Some t1 →
  sequence self "l" ls → sequence self "b" bs →
  sequence self "ra" ras → sequence self "dec" decs →
  sequence self "az" azs → sequence self "el" els →
  log_track self filename =
    (Ok (LogFile name
           [ {| p_label := "Start at:"; p_obstime := t0;
                p_lb := pair_entry false ls bs;
                p_radec := pair_entry false ras decs;
                p_azel := pair_entry false azs els |};
             {| p_label := "End at:"; p_obstime := t1;
                p_lb := pair_entry true ls bs;
                p_radec := pair_entry true ras decs;
                p_azel := pair_entry true azs els |} ]),
     ["Writing log: " +:+ filename]).
Proof.
  intros Hname Hts Ht0 Ht1 Hl Hb Hra Hdec Haz Hel.
  assert (Hrepr : repr self = mret (name,
    [ {| p_label := "Start at:"; p_obstime := t0;
         p_lb := pair_entry false ls bs;
         p_radec := pair_entry false ras decs;
         p_azel := pair_entry false azs els |};
      {| p_label := "End at:"; p_obstime := t1;
         p_lb := pair_entry true ls bs;
         p_radec := pair_entry true ras decs;
         p_azel := pair_entry true azs els |} ])).
  { unfold repr. rewrite (getattr_Some _ _ _ Hname), bind_ret.
    rewrite (repr_point_sequences self false _ ts ls bs ras decs azs els t0), bind_ret by done.
    by rewrite (repr_point_sequences self true _ ts ls bs ras decs azs els t1), bind_ret. }
  unfold log_track. rewrite Hrepr, !bind_ret. unfold print. by rewrite bind_ok.
Qed.

Lemma log_track_empty (self : Track) filename name :
  self !! "name" = Some name → sequence self "obstime" [] →
  log_track self filename = (Raise IndexError, []).
Proof.
  intros Hname Hts. unfold log_track, repr.
  rewrite (getattr_Some _ _ _ Hname), bind_ret.
  by rewrite (repr_point_empty self false _ Hts).
Qed.

Lemma pair_entry_nil from_end : pair_entry from_end [] [] = None.
Proof. by destruct from_end. Qed.

(** ** Track.ephem_file, Track.full_file and Trajectory.write *)

Lemma value_bind_ok {A B} (m : py A) (f : A → py B) a out :
  m = (Ok a, out) → value (m ≫= f) = value (f a).
Proof. intros ->. rewrite bind_ok. done. Qed.

Lemma value_bind_raise {A B} (m : py A) (f : A → py B) e out :
  m = (Raise e, out) → value (m ≫= f) = Raise e.
Proof. by intros ->. Qed.

Lemma ephem_file_run (self : Track) (filename : string) ots oaz oel tai az el :
  self !! "timestamp" = Some ots → array_int ots = Ok tai →
  self !! "az" = Some oaz → array_float oaz = Ok az →
  self !! "el" = Some oel → array_float oel = Ok el →
  ephem_file self filename =
    (match savetxt tai az el (replicate (length tai) sentinel) with
     | Ok rows =>
         Ok (<["ephemtxt" := Scalar PyNone]>
               (<["ir" := NdArray (FloatArr (replicate (length tai) sentinel))]> self),
             rows)
     | Raise e => Raise e
     end,
     ["Writing ephemerides:  " +:+ filename; "NEED TO GET DISTANCES FROM SOPP"]).
Proof.
  intros Hts Htai Haz Haaz Hel Hael.
  unfold ephem_file, print. rewrite bind_ok.
  rewrite (getattr_Some _ _ _ Hts), bind_ret, Htai, bind_lift.
  rewrite (getattr_Some _ _ _ Haz), bind_ret, Haaz, bind_lift.
  rewrite (getattr_Some _ _ _ Hel), bind_ret, Hael, bind_lift.
  rewrite bind_ok, fmap_replicate. fold sentinel.
  destruct (savetxt tai az el (replicate (length tai) sentinel)) as [rows|e]; done.
Qed.

(** X5. When az or el does not have the length of timestamp, the
    columns do not form a table, the four-field format is refused and
    [ephem_file] fails with ValueError. *)
Theorem ephem_file_length_mismatch (self : Track) (filename : string)
    (ots oaz oel : pyobj) (tai : list Z) (az el : list float64) :
  self !! "timestamp" = Some ots → array_int ots = Ok tai →
  self !! "az" = Some oaz → array_float oaz = Ok az →
  self !! "el" = Some oel → array_float oel = Ok el →
  length az ≠ length tai ∨ length el ≠ length tai →
  value (ephem_file self filename) = Raise ValueError.
Proof.
  intros Hts Htai Haz Haaz Hel Hael Hne.
  rewrite (ephem_file_run _ _ _ _ _ _ _ _ Hts Htai Haz Haaz Hel Hael).
  unfold savetxt. rewrite decide_False; [done|]. intros (? & ? & _). by destruct Hne.
Qed.

Lemma ephem_file_length_mismatch_witness :
  value (ephem_file {["timestamp" := PyList [PyInt 5; PyInt 6];
                      "az" := PyList [PyFloat (Finite 1)];
                      "el" := PyList [PyFloat (Finite 3); PyFloat (Finite 4)]]}
           "track.ephem") = Raise ValueError.
Proof.
  apply (ephem_file_length_mismatch _ _ (PyList [PyInt 5; PyInt 6])
           (PyList [PyFloat (Finite 1)]) (PyList [PyFloat (Finite 3); PyFloat (Finite 4)])
           [5; 6] [Finite 1] [Finite 3; Finite 4]); try reflexivity.
  left. simpl. lia.
Defined.

(** The files written by [write] for a valid trajectory whose track is
    well formed. *)
Lemma write_run (self : Trajectory) (trk : Track) (name ots oaz oel ol ob ora odec : pyobj)
    (tm : list Q) (tai : list Z) (az el : list float64)
    (ls bs ras decs azs els : list scalar) (t0 t1 : scalar) :
  self.(valid) = true → self.(track) = Some trk →
  trk !! "name" = Some name →
  trk !! "obstime" = Some (TimeArr tm) →
  pick false (PyTime <$> tm) = Some t0 → pick true (PyTime <$> tm) = Some t1 →
  trk !! "timestamp" = Some ots → array_int ots = Ok tai →
  trk !! "az" = Some oaz → array_float oaz = Ok az → items oaz = Ok azs →
  trk !! "el" = Some oel → array_float oel = Ok el → items oel = Ok els →
  trk !! "l" = Some ol → items ol = Ok ls →
  trk !! "b" = Some ob → items ob = Ok bs →
  trk !! "ra" = Some ora → items ora = Ok ras →
  trk !! "dec" = Some odec → items odec = Ok decs →
  length az = length tai → length el = length tai →
  let ir := NdArray (FloatArr (replicate (length tai) sentinel)) in
  value (write self) =
    Ok (set_track (<["ephemtxt" := Scalar PyNone]> (<["ir" := ir]> trk)) self,
        [(TRACK_LOG_FILENAME,
          LogFile name
            [ {| p_label := "Start at:"; p_obstime := t0;
                 p_lb := pair_entry false ls bs;
                 p_radec := pair_entry false ras decs;
                 p_azel := pair_entry false azs els |};
              {| p_label := "End at:"; p_obstime := t1;
                 p_lb := pair_entry true ls bs;
                 p_radec := pair_entry true ras decs;
                 p_azel := pair_entry true azs els |} ]);
         (EPHEM_FILENAME,
          EphemFile (zip4 tai az el (replicate (length tai) sentinel)));
         (TRAJECTORY_FILENAME,
          Archive [("obstime", TimeArr tm); ("az", oaz); ("el", oel); ("ra", ora);
                   ("dec", odec); ("l", ol); ("b", ob); ("ir", ir)])]).
Proof.
  intros Hvalid Htrack Hname Hobs Ht0 Ht1 Hts Htai Haz Haaz Hazs Hel Hael Hels
    Hl Hls Hb Hbs Hra Hras Hdec Hdecs Hlaz Hlel ir.
  pose proof (log_track_sequences trk TRACK_LOG_FILENAME name (PyTime <$> tm)
                ls bs ras decs azs els t0 t1 Hname) as Hlog.
  specialize (Hlog ltac:(by eexists) Ht0 Ht1 ltac:(by eexists) ltac:(by eexists)
                ltac:(by eexists) ltac:(by eexists) ltac:(by eexists) ltac:(by eexists)).
  pose proof (ephem_file_run trk EPHEM_FILENAME _ _ _ _ _ _ Hts Htai Haz Haaz Hel Hael)
    as Heph.
  rewrite savetxt_same in Heph by (done || by rewrite length_replicate).
  fold ir in Heph.
  set (trk' := <["ephemtxt" := Scalar PyNone]> _) in *.
  assert (Hfull : value (full_file trk' TRAJECTORY_FILENAME) =
            Ok (Archive [("obstime", TimeArr tm); ("az", oaz); ("el", oel); ("ra", ora);
                         ("dec", odec); ("l", ol); ("b", ob); ("ir", ir)])).
  { unfold full_file, print. rewrite bind_ok.
    rewrite (getattr_Some trk' "obstime" (TimeArr tm)), bind_ret by (subst trk'; by simplify_map_eq).
    rewrite bind_ret.
    rewrite (getattr_Some trk' "az" oaz), bind_ret by (subst trk'; by simplify_map_eq).
    rewrite (getattr_Some trk' "el" oel), bind_ret by (subst trk'; by simplify_map_eq).
    rewrite (getattr_Some trk' "ra" ora), bind_ret by (subst trk'; by simplify_map_eq).
    rewrite (getattr_Some trk' "dec" odec), bind_ret by (subst trk'; by simplify_map_eq).
    rewrite (getattr_Some trk' "l" ol), bind_ret by (subst trk'; by simplify_map_eq).
    rewrite (getattr_Some trk' "b" ob), bind_ret by (subst trk'; by simplify_map_eq).
    rewrite (getattr_Some trk' "ir" ir), bind_ret by (subst trk'; by simplify_map_eq).
    done. }
  unfold write. rewrite Hvalid, Htrack. cbn [negb]. rewrite bind_ret.
  rewrite (value_bind_ok _ _ _ _ Hlog), (value_bind_ok _ _ _ _ Heph).
  cbv beta iota.
  destruct (full_file trk' TRAJECTORY_FILENAME) as [[archive|e] out] eqn:Hff;
    simpl in Hfull; [|done].
  injection Hfull as ->. rewrite bind_ok. reflexivity.
Qed.

(** X6. For a valid trajectory whose track has a label, a non-empty
    [Time] array as obstime, float az and el of the length of timestamp and
    float (possibly empty) l, b, ra and dec, [write] produces the three
    files track.log, track.ephem and track, in that order.  The ephemeris
    has one line per sample with timestamp, az, el and the sentinel 1E-20;
    the archive holds obstime, az, el, ra, dec, l and b as they are in the
    track and the sentinel array as ir.  Afterwards the trajectory is still
    valid, its track's ir is the sentinel array and the other attributes of
    the track are unchanged. *)
Theorem write_valid (self : Trajectory) (trk : Track) (name ots oaz oel : pyobj)
    (tm : list Q) (tai : list Z) (az el ls bs ras decs : list float64) :
  self.(valid) = true → self.(track) = Some trk →
  trk !! "name" = Some name →
  trk !! "obstime" = Some (TimeArr tm) → tm ≠ [] →
  trk !! "timestamp" = Some ots → array_int ots = Ok tai →
  trk !! "az" = Some oaz → array_float oaz = Ok az → items oaz = Ok (PyFloat <$> az) →
  trk !! "el" = Some oel → array_float oel = Ok el → items oel = Ok (PyFloat <$> el) →
  sequence trk "l" (PyFloat <$> ls) → sequence trk "b" (PyFloat <$> bs) →
  sequence trk "ra" (PyFloat <$> ras) → sequence trk "dec" (PyFloat <$> decs) →
  length az = length tai → length el = length tai →
  ∃ (self' : Trajectory) (log archive : file),
    value (write self) =
      Ok (self', [(TRACK_LOG_FILENAME, log);
                  (EPHEM_FILENAME,
                   EphemFile (zip4 tai az el (replicate (length tai) sentinel)));
                  (TRAJECTORY_FILENAME, archive)]) ∧
    archive_entry archive "ir" =
      Some (NdArray (FloatArr (replicate (length tai) sentinel))) ∧
    archive_entry archive "obstime" = Some (TimeArr tm) ∧
    Forall (λ key, archive_entry archive key = trk !! key)
      ["az"; "el"; "ra"; "dec"; "l"; "b"] ∧
    self'.(valid) = true ∧
    attr self' "ir" = Some (NdArray (FloatArr (replicate (length tai) sentinel))) ∧
    Forall (λ key, key ≠ "ir" → attr self' key = trk !! key)
      ("name" :: "dazdt" :: "deldt" :: parameters).
Proof.
  intros Hvalid Htrack Hname Hobs Htm Hts Htai Haz Haaz Hazs Hel Hael Hels
    (ol & Hl & Hls) (ob & Hb & Hbs) (ora & Hra & Hras) (odec & Hdec & Hdecs) Hlaz Hlel.
  destruct (pick_is_Some false (PyTime <$> tm)) as [t0 Ht0]; [by destruct tm|].
  destruct (pick_is_Some true (PyTime <$> tm)) as [t1 Ht1]; [by destruct tm|].
  eexists _, _, _. split.
  { by apply (write_run self trk name ots oaz oel ol ob ora odec tm tai az el
                (PyFloat <$> ls) (PyFloat <$> bs) (PyFloat <$> ras) (PyFloat <$> decs)
                (PyFloat <$> az) (PyFloat <$> el) t0 t1). }
  split; [done|]. split; [done|]. split.
  { repeat constructor; simpl; by rewrite ?Haz, ?Hel, ?Hra, ?Hdec, ?Hl, ?Hb. }
  split; [done|]. unfold attr. cbn [track set_track].
  split; [by rewrite lookup_insert_ne, lookup_insert_eq|].
  apply Forall_forall. intros key Hkey H1.
  assert (key ≠ "ephemtxt").
  { intros ->. revert Hkey. apply (bool_decide_unpack _). by vm_compute. }
  by rewrite !lookup_insert_ne.
Qed.

Lemma write_valid_witness :
  let trk : Track :=
    {["name" := Scalar (PyStr "t"); "obstime" := TimeArr [100%Q; 101%Q];
      "timestamp" := NdArray (IntArr [100; 101]);
      "az" := PyList [PyFloat (Finite 10); PyFloat (Finite 20)];
      "el" := PyList [PyFloat (Finite 5); PyFloat (Finite 7)];
      "ra" := PyList []; "dec" := PyList []; "l" := PyList []; "b" := PyList [];
      "ir" := PyList [PyFloat (Finite 2); PyFloat (Finite 4)]]} in
  ∃ (self' : Trajectory) (log archive : file),
    value (write (set_track trk cfg3)) =
      Ok (self', [(TRACK_LOG_FILENAME, log);
                  (EPHEM_FILENAME,
                   EphemFile [(100, Finite 10, Finite 5, sentinel);
                              (101, Finite 20, Finite 7, sentinel)]);
                  (TRAJECTORY_FILENAME, archive)]) ∧
    archive_entry archive "ir" = Some (NdArray (FloatArr [sentinel; sentinel])).
Proof.
  intros trk.
  destruct (write_valid (set_track trk cfg3) trk (Scalar (PyStr "t"))
              (NdArray (IntArr [100; 101]))
              (PyList [PyFloat (Finite 10); PyFloat (Finite 20)])
              (PyList [PyFloat (Finite 5); PyFloat (Finite 7)])
              [100%Q; 101%Q] [100; 101] [Finite 10; Finite 20] [Finite 5; Finite 7]
              [] [] [] [])
    as (self' & log & archive & Hw & Hir & _).
  all: try (vm_compute; reflexivity).
  - intros H. discriminate H.
  - exists (PyList []). split; vm_compute; reflexivity.
  - exists (PyList []). split; vm_compute; reflexivity.
  - exists (PyList []). split; vm_compute; reflexivity.
  - exists (PyList []). split; vm_compute; reflexivity.
  - exists self', log, archive. exact (conj Hw Hir).
Defined.

(** ** The state left by Trajectory.from_file *)

Lemma length_rate_list (xs : list float64) (ts : list Z) :
  length xs = length ts → length (rate_list xs ts) = pred (length ts).
Proof.
  intros H. unfold rate_list.
  rewrite length_zip_with, !length_fmap, length_diffF, length_diffZ. lia.
Qed.

Lemma grid_track_named name (ts : list Z) (tm : list Q) :
  ∃ trk : Track,
    Track_init name [("timestamp", NdArray (IntArr ts)); ("obstime", TimeArr tm)]
      = (Ok trk, []) ∧
    trk !! "name" = Some (Scalar (PyStr name)) ∧
    trk !! "timestamp" = Some (NdArray (IntArr ts)) ∧
    trk !! "obstime" = Some (TimeArr tm) ∧
    Forall (λ key, trk !! key = Some (PyList [])) ["az"; "el"; "ra"; "dec"; "l"; "b"; "ir"].
Proof.
  destruct (Track_init_spec name [("timestamp", NdArray (IntArr ts)); ("obstime", TimeArr tm)])
    as (trk & Heq & Hl).
  exists trk. split; [exact Heq|].
  split; [by rewrite Hl|]. split; [by rewrite Hl|]. split; [by rewrite Hl|].
  repeat constructor; by rewrite Hl.
Qed.

(** The whole state left by [from_file] in either outcome. *)
Lemma from_file_state (self : Trajectory) (filename : string) (lines : list record) :
  self.(track_Time) ≠ [] → lines ≠ [] →
  Forall (λ r, is_zero r.(r_range) = false) lines →
  (length self.(track_tsns) ≤ length self.(track_Time))%nat →
  let ts := self.(track_tsns) in
  let mask := el_mask lines ts in
  let overlap := existsb (λ r, within self.(track_Time) r.(r_obstime)) lines in
  ∃ (self' : Trajectory) (trk0 trk inp : Track),
    from_file self filename lines =
      (Ok self', if overlap then []
                 else ["This supplied file and desired track don't overlap"]) ∧
    self'.(valid) = (if overlap then self.(valid) else false) ∧
    self'.(track) = Some (if overlap then trk else trk0) ∧
    self'.(input_track) = Some inp ∧
    self'.(track_tsns) = ts ∧ self'.(track_Time) = self.(track_Time) ∧
    trk0 !! "name" = Some (Scalar (PyStr ("Output: " +:+ filename))) ∧
    trk0 !! "timestamp" = Some (NdArray (IntArr ts)) ∧
    trk0 !! "obstime" = Some (TimeArr self.(track_Time)) ∧
    Forall (λ key, trk0 !! key = Some (PyList [])) ["az"; "el"; "ra"; "dec"; "l"; "b"; "ir"] ∧
    inp !! "timestamp" = Some (PyList (PyInt <$> (timestamp_of <$> lines))) ∧
    inp !! "obstime" = Some (TimeArr (r_obstime <$> lines)) ∧
    inp !! "az" = Some (PyList (PyFloat <$> (r_az <$> lines))) ∧
    inp !! "el" = Some (PyList (PyFloat <$> (r_el <$> lines))) ∧
    inp !! "ir" = Some (PyList (PyFloat <$> (inverse_range <$> lines))) ∧
    trk = <["deldt" := NdArray (FloatArr
                (rate_list (select mask (on_grid r_el lines ts)) (select mask ts)))]>
         (<["dazdt" := NdArray (FloatArr
                (rate_list (select mask (on_grid r_az lines ts)) (select mask ts)))]>
         (<["ir" := NdArray (FloatArr (select mask (on_grid inverse_range lines ts)))]>
         (<["az" := NdArray (FloatArr (select mask (on_grid r_az lines ts)))]>
         (<["el" := NdArray (FloatArr (select mask (on_grid r_el lines ts)))]>
         (<["obstime" := TimeArr (select mask self.(track_Time))]>
         (<["timestamp" := NdArray (IntArr (select mask ts))]> trk0)))))) ∧
    Track_init ("Output: " +:+ filename)
      [("timestamp", NdArray (IntArr ts)); ("obstime", TimeArr self.(track_Time))]
      = (Ok trk0, []).
Proof.
  intros Hgrid Hlines Hnz Hlen ts mask overlap.
  destruct (grid_track_named ("Output: " +:+ filename) self.(track_tsns) self.(track_Time))
    as (trk0 & Htrk0 & Hname & Hts & Hobs & Hrest).
  destruct (read_input_spec self.(track_Time) filename lines Hgrid Hlines Hnz)
    as (inp & Hread & Hx & Hio & Haz & Hel & Hir).
  pose proof (fit_spec trk0 inp lines _ _ Hlines Hlen Hts Hobs Hx Haz Hel Hir) as Hfit.
  cbv zeta in Hfit. fold ts in Hfit. fold mask in Hfit.
  set (trk1 := <["ir" := _]> _) in Hfit.
  assert (Hmask : length mask = length ts) by apply length_el_mask.
  assert (Hsel : ∀ f, length (select mask (on_grid f lines ts)) = length (select mask ts)).
  { intros f. apply length_select; unfold on_grid; rewrite ?length_interp1d_call; lia. }
  assert (H1 : trk1 !! "timestamp" = Some (NdArray (IntArr (select mask ts))))
    by (subst trk1; by simplify_map_eq).
  assert (H2 : trk1 !! "az" = Some (NdArray (FloatArr (select mask (on_grid r_az lines ts)))))
    by (subst trk1; by simplify_map_eq).
  assert (H3 : trk1 !! "el" = Some (NdArray (FloatArr (select mask (on_grid r_el lines ts)))))
    by (subst trk1; by simplify_map_eq).
  pose proof (rates_arrays trk1 _ _ _ _ _ _ H1 eq_refl H2 eq_refl H3 eq_refl (Hsel _) (Hsel _))
    as Hrates.
  cbn [np_diff floats_of] in Hrates.
  fold (rate_list (select mask (on_grid r_az lines ts)) (select mask ts)) in Hrates.
  fold (rate_list (select mask (on_grid r_el lines ts)) (select mask ts)) in Hrates.
  subst overlap. destruct (existsb _ lines) eqn:Hov.
  - eexists _, trk0, _, inp.
    split.
    { unfold from_file. cbv zeta. cbn [track_tsns track_Time set_trajectory_type set_track].
      rewrite Htrk0, bind_ok_nil, Hread, bind_ok_nil. cbv beta iota. cbn [negb].
      rewrite Hfit, bind_ret, Hrates, bind_ok_nil. reflexivity. }
    cbn [valid track input_track track_tsns track_Time
         set_track set_input_track set_trajectory_type set_valid].
    do 14 (split; [done|]). split; [reflexivity|done].
  - eexists _, trk0, _, inp.
    split.
    { unfold from_file. cbv zeta. cbn [track_tsns track_Time set_trajectory_type set_track].
      rewrite Htrk0, bind_ok_nil, Hread, bind_ok_nil. cbv beta iota. cbn [negb].
      unfold print. rewrite bind_ok. reflexivity. }
    cbn [valid track input_track track_tsns track_Time
         set_track set_input_track set_trajectory_type set_valid].
    do 14 (split; [done|]). split; [reflexivity|done].
Qed.

Lemma select_none {A} (mask : list bool) : ∀ l : list A,
  Forall (λ m, m = false) mask → select mask l = [].
Proof.
  induction mask as [|m mask IH]; intros [|x l] Hall; try done.
  apply Forall_cons in Hall as [-> Hall]. cbn [select]. by apply IH.
Qed.

Lemma select_sublist {A} (mask : list bool) : ∀ l : list A, select mask l `sublist_of` l.
Proof.
  induction mask as [|m mask IH]; intros [|x l]; cbn [select];
    try apply sublist_nil_l.
  destruct m; [by apply sublist_skip|by apply sublist_cons].
Qed.

Lemma StronglySorted_sublist {A} (R : relation A) (l k : list A) :
  l `sublist_of` k → StronglySorted R k → StronglySorted R l.
Proof.
  induction 1 as [|x l k Hsub IH|x l k Hsub IH]; intros Hs; [done|..].
  - apply StronglySorted_cons in Hs as [Hx Hs]. constructor; [by apply IH|].
    apply Forall_forall. intros y Hy. apply (proj1 (Forall_forall _ _) Hx).
    by apply (sublist_subseteq _ _ Hsub).
  - apply StronglySorted_cons in Hs as [_ Hs]. by apply IH.
Qed.

(** X7. When the file overlaps the grid but the interpolated elevation
    is not above 0.0 at any grid instant, [from_file] succeeds silently and
    leaves the trajectory valid with an empty track (timestamp, obstime, el,
    az, ir and dazdt are all empty); [write] then fails with IndexError on
    the first instant of the summary. *)
Theorem from_file_nothing_kept (self : Trajectory) (filename : string) (lines : list record) :
  self.(valid) = true →
  Forall (λ r, is_zero r.(r_range) = false) lines →
  existsb (λ r, within self.(track_Time) r.(r_obstime)) lines = true →
  (length self.(track_tsns) ≤ length self.(track_Time))%nat →
  Forall (λ e, fgt e (Finite 0.0) = false) (on_grid r_el lines self.(track_tsns)) →
  ∃ self' : Trajectory,
    from_file self filename lines = (Ok self', []) ∧
    self'.(valid) = true ∧
    attr self' "timestamp" = Some (NdArray (IntArr [])) ∧
    attr self' "obstime" = Some (TimeArr []) ∧
    attr self' "el" = Some (NdArray (FloatArr [])) ∧
    attr self' "az" = Some (NdArray (FloatArr [])) ∧
    attr self' "ir" = Some (NdArray (FloatArr [])) ∧
    attr self' "dazdt" = Some (NdArray (FloatArr [])) ∧
    value (write self') = Raise IndexError.
Proof.
  intros Hvalid Hnz Hov Hlen Hel.
  destruct (existsb_within_grid _ _ Hov) as [Hgrid Hlines].
  destruct (from_file_state self filename lines Hgrid Hlines Hnz Hlen)
    as (self' & trk0 & trk & inp & Hrun & Hv & Htrk & _ & _ & _ & Hname & _ & _ & _ &
        _ & _ & _ & _ & _ & -> & _).
  rewrite Hov in Hrun, Hv, Htrk.
  assert (Hmask : Forall (λ m, m = false) (el_mask lines self.(track_tsns))).
  { unfold el_mask. by apply Forall_fmap. }
  rewrite !(select_none _ _ Hmask) in *.
  exists self'. split; [done|]. split; [congruence|].
  unfold attr. rewrite Htrk.
  do 6 (split; [by simplify_map_eq|]).
  unfold write. rewrite Hv, Hvalid, Htrk. cbn [negb]. rewrite bind_ret.
  erewrite value_bind_raise; [done|].
  eapply log_track_empty; [by simplify_map_eq|].
  eexists. split; [by simplify_map_eq|done].
Qed.

Lemma from_file_nothing_kept_witness :
  ∃ self' : Trajectory,
    from_file cfg3 "f"
      [ {| r_obstime := 100; r_az := Finite 10; r_el := Finite (-5); r_range := Finite 2 |};
        {| r_obstime := 102; r_az := Finite 20; r_el := Finite (-3); r_range := Finite 4 |} ]
      = (Ok self', []) ∧
    self'.(valid) = true ∧
    attr self' "timestamp" = Some (NdArray (IntArr [])) ∧
    value (write self') = Raise IndexError.
Proof.
  destruct (from_file_nothing_kept cfg3 "f"
    [ {| r_obstime := 100; r_az := Finite 10; r_el := Finite (-5); r_range := Finite 2 |};
      {| r_obstime := 102; r_az := Finite 20; r_el := Finite (-3); r_range := Finite 4 |} ])
    as (self' & Hrun & Hv & Hts & _ & _ & _ & _ & _ & Hw).
  - vm_compute. reflexivity.
  - repeat constructor.
  - vm_compute. reflexivity.
  - vm_compute. lia.
  - vm_compute. repeat constructor.
  - exists self'. exact (conj Hrun (conj Hv (conj Hts Hw))).
Defined.

(** ** The span of the grids *)









(** ** Failures of Trajectory.from_file *)

Lemma input_track_lists (filename : string) :
  ∃ inp0 : Track, Track_init ("Input: " +:+ filename) [] = (Ok inp0, []) ∧
    Forall (is_list inp0) line_keys.
Proof.
  destruct (empty_track ("Input: " +:+ filename)) as (inp0 & Hinp0 & Hl0).
  exists inp0. split; [done|].
  unfold parameters in Hl0. unfold line_keys.
  repeat (apply Forall_cons in Hl0 as [? Hl0]). repeat constructor; by eexists.
Qed.

(** The first line with a zero range stops the reading. *)
Lemma read_lines_zero_range (grid : list Q) lines : ∀ (inp : Track) (overlap : bool),
  Forall (is_list inp) line_keys →
  grid ≠ [] →
  Exists (λ r, is_zero r.(r_range) = true) lines →
  read_lines grid inp overlap lines = (Raise ZeroDivisionError, []).
Proof.
  induction lines as [|r lines IH]; intros inp overlap Hkeys Hgrid Hex; cbn [read_lines].
  { by apply Exists_nil in Hex. }
  assert (Hov : (if overlap then mret true else lift (in_span grid (r_obstime r)))
                = (mret (overlap || within grid (r_obstime r)) : py bool)).
  { destruct overlap; [done|]. by rewrite in_span_within. }
  rewrite Hov, bind_ret. unfold inverse.
  destruct (is_zero (r_range r)) eqn:Hr; [done|].
  apply Exists_cons in Hex as [Hex|Hex]; [congruence|].
  rewrite bind_lift.
  destruct (add_lists (line_kwargs r) inp) as (inp1 & Hadd & Hl1).
  { unfold line_kwargs, line_keys in *.
    repeat (apply Forall_cons in Hkeys as [? Hkeys]). repeat constructor; done. }
  unfold line_kwargs, timestamp_of, inverse_range in Hadd. rewrite Hadd, bind_ok_nil.
  apply IH; [|done|done].
  eapply Forall_impl; [exact Hkeys|]. intros key [vs Hvs].
  unfold is_list. rewrite Hl1, Hvs. by eexists.
Qed.

(** X10. On a non-empty grid, a file with a line whose range is zero
    makes [from_file] fail with ZeroDivisionError (from
    [1.0 / float(data[3])]), wherever the line is in the file. *)
Theorem from_file_zero_range (self : Trajectory) (filename : string) (lines : list record) :
  self.(track_Time) ≠ [] →
  Exists (λ r, is_zero r.(r_range) = true) lines →
  from_file self filename lines = (Raise ZeroDivisionError, []).
Proof.
  intros Hgrid Hex.
  destruct (grid_track ("Output: " +:+ filename) self.(track_tsns) self.(track_Time))
    as (trk0 & Htrk0 & _).
  destruct (input_track_lists filename) as (inp0 & Hinp0 & Hkeys).
  unfold from_file. cbv zeta. cbn [track_tsns track_Time set_trajectory_type set_track].
  rewrite Htrk0, bind_ok_nil. unfold read_input.
  rewrite Hinp0, bind_ok_nil, (read_lines_zero_range _ _ _ _ Hkeys Hgrid Hex). done.
Qed.

Lemma from_file_zero_range_witness :
  from_file cfg3 "f" [ {| r_obstime := 100; r_az := Finite 10; r_el := Finite 20;
                          r_range := Finite 500 |};
                       {| r_obstime := 101; r_az := Finite 11; r_el := Finite 21;
                          r_range := Finite 0 |} ] = (Raise ZeroDivisionError, []).
Proof.
  apply from_file_zero_range; [intros H; discriminate H|].
  apply Exists_cons_tl, Exists_cons_hd. reflexivity.
Defined.

(** X11. On an empty grid, [from_file] fails with IndexError at the
    first line of a non-empty file (from [self.track_Time[0]]). *)
Theorem from_file_empty_grid (self : Trajectory) (filename : string) (lines : list record) :
  self.(track_Time) = [] → lines ≠ [] →
  from_file self filename lines = (Raise IndexError, []).
Proof.
  intros Hgrid Hlines.
  destruct (grid_track ("Output: " +:+ filename) self.(track_tsns) self.(track_Time))
    as (trk0 & Htrk0 & _).
  destruct (input_track_lists filename) as (inp0 & Hinp0 & Hkeys).
  unfold from_file. cbv zeta. cbn [track_tsns track_Time set_trajectory_type set_track].
  rewrite Htrk0, bind_ok_nil. unfold read_input.
  rewrite Hinp0, bind_ok_nil, Hgrid. by destruct lines.
Qed.

Lemma from_file_empty_grid_witness :
  from_file unconfigured "f" lines3 = (Raise IndexError, []).
Proof.
  apply (from_file_empty_grid unconfigured "f" lines3); [reflexivity|].
  intros H. discriminate H.
Defined.

(** [from_file] as a function of the grid alone. *)
Lemma from_file_inv (self self' : Trajectory) (filename : string) (lines : list record) out :
  from_file self filename lines = (Ok self', out) →
  ∃ (trk : Track) (inp : Track) (v : bool),
    self' = set_valid v (set_track trk (set_input_track inp
              (set_trajectory_type "from_file" self))) ∧
    (v = self.(valid) ∨ v = false).
Proof.
  unfold from_file. cbv zeta. cbn [track_tsns track_Time set_trajectory_type set_track].
  destruct (grid_track ("Output: " +:+ filename) self.(track_tsns) self.(track_Time))
    as (trk0 & -> & _).
  rewrite bind_ok_nil.
  destruct (read_input _ _ _) as [[[inp ov]|e] o1]; [|done].
  rewrite bind_ok. destruct ov; cbn [negb].
  - destruct (fit trk0 inp) as [[trk1|e] o2]; [|done].
    rewrite bind_ok. destruct (rates trk1) as [[trk2|e] o3]; [|done].
    rewrite bind_ok. intros [= <- _]. exists trk2, inp, self.(valid).
    split; [|by left]. by destruct self.
  - unfold print. rewrite bind_ok. intros [= <- _]. exists trk0, inp, false.
    split; [|by right]. by destruct self.
Qed.

(** X12. [from_file] does not consume the grid: after a successful run,
    running it again with the same file gives the same trajectory and the
    same console output. *)
Theorem from_file_again (self self' : Trajectory) (filename : string) (lines : list record)
    (out : list string) :
  from_file self filename lines = (Ok self', out) →
  from_file self' filename lines = (Ok self', out).
Proof.
  unfold from_file. cbv zeta. cbn [track_tsns track_Time set_trajectory_type set_track].
  destruct (grid_track ("Output: " +:+ filename) self.(track_tsns) self.(track_Time))
    as (trk0 & Htrk0 & _).
  rewrite Htrk0, bind_ok_nil.
  destruct (read_input _ _ _) as [[[inp ov]|e] o1] eqn:Hread; [|done].
  rewrite bind_ok. destruct ov; cbn [negb].
  - destruct (fit trk0 inp) as [[trk1|e] o2] eqn:Hfit; [|done].
    rewrite bind_ok. destruct (rates trk1) as [[trk2|e] o3] eqn:Hrates; [|done].
    rewrite bind_ok. intros [= <- <-].
    cbn [track_tsns track_Time set_track set_input_track set_trajectory_type].
    rewrite Htrk0, bind_ok_nil, Hread, bind_ok. cbn [negb].
    rewrite Hfit, bind_ok, Hrates, bind_ok. done.
  - unfold print. rewrite bind_ok. intros [= <- <-].
    cbn [track_tsns track_Time set_track set_input_track set_valid set_trajectory_type].
    rewrite Htrk0, bind_ok_nil, Hread, bind_ok. cbn [negb]. rewrite bind_ok. done.
Qed.

Lemma from_file_again_witness :
  ∃ (self' : Trajectory) (out : list string),
    from_file cfg3 "f" knots3 = (Ok self', out) ∧
    from_file self' "f" knots3 = (Ok self', out).
Proof.
  destruct (from_file_overlap cfg3 "f" knots3) as (self' & trk & Hrun & _).
  - repeat constructor.
  - vm_compute. reflexivity.
  - vm_compute. lia.
  - exists self', []. split; [exact Hrun|].
    exact (from_file_again cfg3 self' "f" knots3 [] Hrun).
Defined.

(** ** The longitudes of a sweep *)

Lemma where_from_first (mask : list bool) : ∀ k i rest,
  where_from k mask = i :: rest →
  ∀ j, (j < i - k)%nat → mask !! j = Some false.
Proof.
  induction mask as [|m mask IH]; intros k i rest H j Hj; [done|].
  cbn [where_from] in H. destruct m.
  - injection H as <- _. lia.
  - pose proof (where_from_cons _ _ _ _ H) as [Hle _].
    destruct j as [|j]; [done|]. cbn [lookup list_lookup].
    apply (IH _ _ _ H). lia.
Qed.

Lemma longitudes_floats (self : Trajectory) (qs : list Q) :
  attr self "l" = Some (PyList (float <$> qs)) → longitudes self = qs.
Proof.
  intros H. unfold longitudes. rewrite H. clear H.
  induction qs as [|q qs IH]; [done|]. csimpl. by f_equal.
Qed.

Lemma sweep_l_one_turn (l0 R : Q) (i : nat) :
  (0 <= l0)%Q → (l0 < 360)%Q →
  (0 <= inject_Z (Z.of_nat i) * R)%Q → (inject_Z (Z.of_nat i) * R <= 360)%Q →
  (0 <= sweep_l l0 R i)%Q ∧ (sweep_l l0 R i <= 360)%Q.
Proof.
  intros H0 H1 H2 H3. unfold sweep_l. cbv zeta.
  destruct (Qltb 360.0 (l0 + inject_Z (Z.of_nat i) * R)) eqn:Hlt.
  - apply Qltb_true in Hlt. split; lra.
  - apply Qltb_false in Hlt. split; lra.
Qed.

Section Sweeps.

Variable to_icrs : Q → Q → Q * Q.
Variable to_altaz : Q * Q → Q → Q * Q.
Variable str_deg : Q → string.

Lemma sweep_column_ir (starting_l R b : Q) (times : list Q) : ∀ i,
  sweep_column to_icrs to_altaz "ir" starting_l R b i times = [].
Proof.
  induction times as [|t times IH]; intros i; [done|].
  cbn [sweep_column]. by rewrite IH.
Qed.

(** The run of [galactic] when some sampled longitude is above the
    horizon, with the index of the starting longitude. *)
Lemma galactic_run (self : Trajectory) (b rate : Q) :
  Qltb b (-90) || Qltb 90 b = false →
  Exists (λ l, (self.(el_horizon) < start_el to_icrs to_altaz self b l)%Q) gp_l →
  length self.(track_Time) = length self.(track_tsns) →
  let R := (rate * self.(tstep))%Q in
  let n := length self.(track_Time) in
  ∃ (self' : Trajectory) (trk : Track) (i0 : nat) (l0 : Q),
    galactic to_icrs to_altaz str_deg self b rate = (Ok self', []) ∧
    self'.(valid) = self.(valid) ∧
    self'.(track) = Some trk ∧
    gp_l !! i0 = Some l0 ∧
    (self.(el_horizon) < start_el to_icrs to_altaz self b l0)%Q ∧
    (∀ j lj, (j < i0)%nat → gp_l !! j = Some lj →
             (start_el to_icrs to_altaz self b lj <= self.(el_horizon))%Q) ∧
    trk !! "name" = Some (Scalar (PyStr ("Galactic b=" +:+ str_deg b))) ∧
    trk !! "timestamp" = Some (NdArray (IntArr self.(track_tsns))) ∧
    trk !! "obstime" = Some (TimeArr self.(track_Time)) ∧
    trk !! "ir" = Some (PyList []) ∧
    trk !! "l" = Some (PyList (float <$> (sweep_l l0 R <$> seq 0 n))) ∧
    trk !! "el" = Some (PyList (float <$>
        zip_with (sweep_el to_icrs to_altaz l0 R b) (seq 0 n) self.(track_Time))) ∧
    trk !! "az" = Some (PyList (float <$>
        zip_with (sweep_az to_icrs to_altaz l0 R b) (seq 0 n) self.(track_Time))) ∧
    Forall (λ key, ∃ vs, trk !! key = Some (PyList vs) ∧ length vs = n) sweep_keys.
Proof.
  intros Hb Hex Hlen R n.
  set (mask := (λ l, Qltb self.(el_horizon) (start_el to_icrs to_altaz self b l)) <$> gp_l).
  destruct (np_where mask) as [|i0 rest] eqn:Hwhere.
  { apply where_from_nil, Forall_fmap in Hwhere. exfalso.
    apply Exists_exists in Hex as (l & Hl & Hlt).
    apply (proj1 (Forall_forall _ _) Hwhere) in Hl. simpl in Hl.
    apply Qltb_false in Hl. by apply Qlt_not_le in Hlt. }
  pose proof (where_from_cons _ _ _ _ Hwhere) as [_ Hm]. rewrite Nat.sub_0_r in Hm.
  pose proof (where_from_first _ _ _ _ Hwhere) as Hfirst.
  subst mask. rewrite list_lookup_fmap in Hm.
  destruct (gp_l !! i0) as [l0|] eqn:Hl0; [|done].
  simpl in Hm. injection Hm as Hm. apply Qltb_true in Hm.
  destruct (grid_track_named ("Galactic b=" +:+ str_deg b) self.(track_tsns) self.(track_Time))
    as (trk0 & Htrk0 & Hname & Hts & Hobs & Hrest).
  destruct (sweep_spec to_icrs to_altaz l0 R b self.(track_Time) trk0 0)
    as (trk1 & Hsweep & Hl1).
  { unfold sweep_keys. repeat (apply Forall_cons in Hrest as [? Hrest]).
    repeat constructor; by eexists. }
  assert (Hcol : ∀ key, key ∈ sweep_keys → trk1 !! key =
            Some (PyList (sweep_column to_icrs to_altaz key l0 R b 0 self.(track_Time)))).
  { intros key Hkey. rewrite Hl1.
    assert (Hk : trk0 !! key = Some (PyList [])).
    { apply (proj1 (Forall_forall _ _) Hrest). unfold sweep_keys in Hkey.
      repeat (apply elem_of_cons in Hkey as [->|Hkey]; [in_list|]).
      by apply elem_of_nil in Hkey. }
    by rewrite Hk. }
  assert (H1 : trk1 !! "timestamp" = Some (NdArray (IntArr self.(track_tsns))))
    by by rewrite Hl1, Hts.
  assert (H2 : trk1 !! "az" = Some (PyList (PyFloat <$> (Finite <$>
            zip_with (sweep_az to_icrs to_altaz l0 R b) (seq 0 n) self.(track_Time))))).
  { rewrite Hcol by in_list. by rewrite sweep_column_az, float_fmap. }
  assert (H3 : trk1 !! "el" = Some (PyList (PyFloat <$> (Finite <$>
            zip_with (sweep_el to_icrs to_altaz l0 R b) (seq 0 n) self.(track_Time))))).
  { rewrite Hcol by in_list. by rewrite sweep_column_el, float_fmap. }
  assert (Hzl : ∀ f : nat → Q → Q,
            length (Finite <$> zip_with f (seq 0 n) self.(track_Time)) = length self.(track_tsns)).
  { intros f. rewrite length_fmap, length_zip_with, length_seq. lia. }
  pose proof (rates_arrays trk1 _ _ _ _ _ _ H1 eq_refl H2 (asarray_floats _)
                H3 (asarray_floats _) (Hzl _) (Hzl _)) as Hrates.
  eexists _, _, i0, l0. split.
  - unfold galactic. cbv zeta. rewrite Hb, bind_ret.
    cbn [start_time el_horizon track_tsns track_Time tstep set_galactic
         set_trajectory_type set_track].
    rewrite above_horizon_mask, Hwhere, Hl0, bind_lift, Htrk0, bind_ok_nil.
    fold R. rewrite Hsweep, bind_ok_nil, Hrates, bind_ok_nil. reflexivity.
  - cbn [valid track set_track set_galactic set_trajectory_type].
    split; [done|]. split; [done|]. split; [done|]. split; [done|].
    split.
    { intros j lj Hj Hlj. specialize (Hfirst j ltac:(lia)).
      rewrite list_lookup_fmap, Hlj in Hfirst. simpl in Hfirst.
      injection Hfirst as Hfirst. by apply Qltb_false. }
    rewrite !lookup_insert_ne by done.
    split; [by rewrite Hl1, Hname|].
    split; [done|]. split; [by rewrite Hl1, Hobs|].
    split.
    { rewrite Hl1, (proj1 (Forall_forall _ _) Hrest "ir") by in_list.
      by rewrite sweep_column_ir. }
    split. { rewrite Hcol by in_list. by rewrite sweep_column_l. }
    split. { rewrite Hcol by in_list. by rewrite sweep_column_el. }
    split. { rewrite Hcol by in_list. by rewrite sweep_column_az. }
    apply Forall_forall. intros key Hkey.
    assert (key ≠ "deldt" ∧ key ≠ "dazdt") as [? ?].
    { unfold sweep_keys in Hkey.
      repeat (apply elem_of_cons in Hkey as [->|Hkey]; [done|]).
      by apply elem_of_nil in Hkey. }
    rewrite !lookup_insert_ne by done. rewrite (Hcol key Hkey).
    eexists. split; [done|]. by rewrite length_sweep_column.
Qed.

(** X13. A sweep starts at the lowest sampled longitude above the
    horizon.  For a latitude in [-90, 90] and a non-empty grid whose two
    sequences have one length, if some sampled longitude is above the
    horizon at the start instant then [galactic] succeeds and the first
    stored longitude is that of the least index [i0] above the horizon,
    0.1 * i0 degrees: every sample of lower index is at or below the
    horizon. *)
Theorem galactic_starting_longitude (self : Trajectory) (b rate : Q) :
  Qltb b (-90) || Qltb 90 b = false →
  Exists (λ l, (self.(el_horizon) < start_el to_icrs to_altaz self b l)%Q) gp_l →
  length self.(track_Time) = length self.(track_tsns) →
  self.(track_Time) ≠ [] →
  ∃ (self' : Trajectory) (i0 : nat) (l0 l : Q),
    galactic to_icrs to_altaz str_deg self b rate = (Ok self', []) ∧
    gp_l !! i0 = Some l0 ∧
    (l0 == inject_Z (Z.of_nat i0) * 0.1)%Q ∧
    (self.(el_horizon) < start_el to_icrs to_altaz self b l0)%Q ∧
    (∀ j lj, (j < i0)%nat → gp_l !! j = Some lj →
             (start_el to_icrs to_altaz self b lj <= self.(el_horizon))%Q) ∧
    head (longitudes self') = Some l ∧ (l == l0)%Q.
Proof.
  intros Hb Hex Hlen Hgrid.
  destruct (galactic_run self b rate Hb Hex Hlen)
    as (self' & trk & i0 & l0 & Hrun & _ & Htrk & Hl0 & Habove & Hfirst &
        _ & _ & _ & _ & Hl & _).
  exists self', i0, l0, (sweep_l l0 (rate * self.(tstep)) 0).
  split; [done|]. split; [done|]. split.
  { rewrite gp_l_eq in Hl0. apply lookup_arange in Hl0 as [-> _]. ring. }
  split; [done|]. split; [done|]. split.
  - rewrite (longitudes_floats self' (sweep_l l0 (rate * self.(tstep)) <$>
                                         seq 0 (length self.(track_Time)))).
    + by destruct self.(track_Time).
    + unfold attr. by rewrite Htrk.
  - apply sweep_l_start. by destruct (gp_l_range _ _ Hl0).
Qed.

(** X14. When the rate is not negative and the whole sweep advances
    by at most 360 degrees (n * rate * tstep <= 360 for a grid of n
    instants), [galactic] stores one longitude per instant and each of them
    lies in [0, 360]. *)
Theorem galactic_longitudes_one_turn (self : Trajectory) (b rate : Q) :
  Qltb b (-90) || Qltb 90 b = false →
  Exists (λ l, (self.(el_horizon) < start_el to_icrs to_altaz self b l)%Q) gp_l →
  length self.(track_Time) = length self.(track_tsns) →
  (0 <= rate * self.(tstep))%Q →
  (inject_Z (Z.of_nat (length self.(track_Time))) * (rate * self.(tstep)) <= 360)%Q →
  ∃ self' : Trajectory,
    galactic to_icrs to_altaz str_deg self b rate = (Ok self', []) ∧
    length (longitudes self') = length self.(track_Time) ∧
    Forall (λ l, (0 <= l)%Q ∧ (l <= 360)%Q) (longitudes self').
Proof.
  intros Hb Hex Hlen HR Hturn.
  destruct (galactic_run self b rate Hb Hex Hlen)
    as (self' & trk & i0 & l0 & Hrun & _ & Htrk & Hl0 & _ & _ & _ & _ & _ & _ & Hl & _).
  exists self'. split; [done|].
  rewrite (longitudes_floats self' (sweep_l l0 (rate * self.(tstep)) <$>
                                       seq 0 (length self.(track_Time))))
    by (unfold attr; by rewrite Htrk).
  split; [by rewrite length_fmap, length_seq|].
  apply Forall_fmap, Forall_forall. intros i Hi%elem_of_seq. simpl.
  destruct (gp_l_range _ _ Hl0) as [H0 H360].
  assert (Hi0 : (0 <= inject_Z (Z.of_nat i))%Q).
  { change 0%Q with (inject_Z 0). rewrite <- Zle_Qle. lia. }
  assert (Hin : (inject_Z (Z.of_nat i) <= inject_Z (Z.of_nat (length self.(track_Time))))%Q).
  { rewrite <- Zle_Qle. lia. }
  apply sweep_l_one_turn; try done.
  - by apply Qmult_le_0_compat.
  - eapply Qle_trans; [|exact Hturn]. by apply Qmult_le_compat_r.
Qed.

End Sweeps.

Lemma galactic_starting_longitude_witness :
  ∃ (self' : Trajectory) (i0 : nat) (l0 l : Q),
    galactic plain_icrs level_altaz plain_str cfg3 0 (1 # 10) = (Ok self', []) ∧
    gp_l !! i0 = Some l0 ∧
    head (longitudes self') = Some l ∧ (l == l0)%Q.
Proof.
  destruct (galactic_starting_longitude plain_icrs level_altaz plain_str cfg3 0 (1 # 10))
    as (self' & i0 & l0 & l & Hrun & Hl0 & _ & _ & _ & Hhead & Heq).
  - reflexivity.
  - apply Exists_exists. eexists. split; [exact gp_l_first|]. by vm_compute.
  - reflexivity.
  - intros H. discriminate H.
  - exists self', i0, l0, l. exact (conj Hrun (conj Hl0 (conj Hhead Heq))).
Defined.

Lemma galactic_longitudes_one_turn_witness :
  ∃ self' : Trajectory,
    galactic plain_icrs level_altaz plain_str cfg3 0 (1 # 10) = (Ok self', []) ∧
    length (longitudes self') = 3%nat ∧
    Forall (λ l, (0 <= l)%Q ∧ (l <= 360)%Q) (longitudes self').
Proof.
  destruct (galactic_longitudes_one_turn plain_icrs level_altaz plain_str cfg3 0 (1 # 10))
    as (self' & Hrun & Hlen & Hall).
  - reflexivity.
  - apply Exists_exists. eexists. split; [exact gp_l_first|]. by vm_compute.
  - reflexivity.
  - by vm_compute.
  - by vm_compute.
  - exists self'. exact (conj Hrun (conj Hlen Hall)).
Defined.

(** ** The input track, the kept samples and the valid flag *)

Lemma select_mask_true {A B} (f : A → B) (p : B → bool) (l : list A) :
  Forall (λ y, p y = true) (select (p <$> (f <$> l)) (f <$> l)).
Proof.
  induction l as [|x l IH]; [constructor|]. cbn [fmap list_fmap select].
  destruct (p (f x)) eqn:Hp; [by constructor|done].
Qed.

(** X15. Whether or not the file overlaps the grid, [from_file] keeps
    the file in [input_track] as read, line by line in file order: the
    timestamps [int(unix_tai * 1E9)], the instants as one [Time] array, az
    and el as given and ir = 1.0 / range; the grids [track_tsns] and
    [track_Time] are left as they were. *)
Theorem from_file_records_input (self : Trajectory) (filename : string) (lines : list record) :
  self.(track_Time) ≠ [] → lines ≠ [] →
  Forall (λ r, is_zero r.(r_range) = false) lines →
  (length self.(track_tsns) ≤ length self.(track_Time))%nat →
  ∃ (self' : Trajectory) (inp : Track) (out : list string),
    from_file self filename lines = (Ok self', out) ∧
    self'.(input_track) = Some inp ∧
    inp !! "timestamp" = Some (PyList (PyInt <$> (timestamp_of <$> lines))) ∧
    inp !! "obstime" = Some (TimeArr (r_obstime <$> lines)) ∧
    inp !! "az" = Some (PyList (PyFloat <$> (r_az <$> lines))) ∧
    inp !! "el" = Some (PyList (PyFloat <$> (r_el <$> lines))) ∧
    inp !! "ir" = Some (PyList (PyFloat <$> (inverse_range <$> lines))) ∧
    self'.(track_tsns) = self.(track_tsns) ∧ self'.(track_Time) = self.(track_Time).
Proof.
  intros Hgrid Hlines Hnz Hlen.
  destruct (from_file_state self filename lines Hgrid Hlines Hnz Hlen)
    as (self' & trk0 & trk & inp & Hrun & _ & _ & Hinp & Hts & Htm & _ & _ & _ & _ &
        H1 & H2 & H3 & H4 & H5 & _).
  exists self', inp. eexists. split; [exact Hrun|]. done.
Qed.

(** X16. When the file overlaps the grid, the kept timestamps and
    instants are subsequences of [track_tsns] and [track_Time]: the order
    of the grid is kept, so strictly increasing timestamps stay strictly
    increasing.  Every kept elevation is above 0.0; obstime and el have the
    length of timestamp, and dazdt and deldt are one shorter. *)
Theorem from_file_kept_samples (self : Trajectory) (filename : string) (lines : list record) :
  Forall (λ r, is_zero r.(r_range) = false) lines →
  existsb (λ r, within self.(track_Time) r.(r_obstime)) lines = true →
  (length self.(track_tsns) ≤ length self.(track_Time))%nat →
  StronglySorted Z.lt self.(track_tsns) →
  ∃ (self' : Trajectory) (ts : list Z) (tm : list Q) (el dazdt deldt : list float64),
    from_file self filename lines = (Ok self', []) ∧
    attr self' "timestamp" = Some (NdArray (IntArr ts)) ∧
    attr self' "obstime" = Some (TimeArr tm) ∧
    attr self' "el" = Some (NdArray (FloatArr el)) ∧
    attr self' "dazdt" = Some (NdArray (FloatArr dazdt)) ∧
    attr self' "deldt" = Some (NdArray (FloatArr deldt)) ∧
    ts `sublist_of` self.(track_tsns) ∧
    tm `sublist_of` self.(track_Time) ∧
    StronglySorted Z.lt ts ∧
    Forall (λ e, fgt e (Finite 0.0) = true) el ∧
    length tm = length ts ∧ length el = length ts ∧
    length dazdt = pred (length ts) ∧ length deldt = pred (length ts).
Proof.
  intros Hnz Hov Hlen Hsorted.
  destruct (existsb_within_grid _ _ Hov) as [Hgrid Hlines].
  destruct (from_file_state self filename lines Hgrid Hlines Hnz Hlen)
    as (self' & trk0 & trk & inp & Hrun & _ & Htrk & _ & _ & _ & _ & _ & _ & _ &
        _ & _ & _ & _ & _ & -> & _).
  rewrite Hov in Hrun, Htrk.
  set (mask := el_mask lines self.(track_tsns)) in *.
  assert (Hmask : length mask = length self.(track_tsns)) by apply length_el_mask.
  exists self', (select mask self.(track_tsns)), (select mask self.(track_Time)),
    (select mask (on_grid r_el lines self.(track_tsns))),
    (rate_list (select mask (on_grid r_az lines self.(track_tsns)))
       (select mask self.(track_tsns))),
    (rate_list (select mask (on_grid r_el lines self.(track_tsns)))
       (select mask self.(track_tsns))).
  split; [done|]. unfold attr. rewrite Htrk.
  do 5 (split; [by simplify_map_eq|]).
  split; [apply select_sublist|]. split; [apply select_sublist|].
  split. { eapply StronglySorted_sublist; [apply select_sublist|done]. }
  split.
  { subst mask. unfold el_mask, on_grid, interp1d_call.
    apply (select_mask_true _ (λ e, fgt e (Finite 0.0))). }
  split. { apply length_select; lia. }
  assert (Hsel : ∀ f, length (select mask (on_grid f lines self.(track_tsns)))
                      = length (select mask self.(track_tsns))).
  { intros f. apply length_select; unfold on_grid; rewrite ?length_interp1d_call; lia. }
  split; [apply Hsel|]. split; by apply length_rate_list.
Qed.

(** X17. The valid flag is only ever cleared: on a trajectory that is
    already invalid (after a failed generation), a [from_file] that
    succeeds leaves it invalid, and [write] still only prints its notice
    and writes no file. *)
Theorem from_file_never_revalidates (self self' : Trajectory) (filename : string)
    (lines : list record) (out : list string) :
  self.(valid) = false →
  from_file self filename lines = (Ok self', out) →
  self'.(valid) = false ∧
  write self' = (Ok (self', []), ["Trajectory not valid."]).
Proof.
  intros Hvalid Hrun.
  destruct (from_file_inv _ _ _ _ _ Hrun) as (trk & inp & v & -> & Hv).
  assert (v = false) as -> by (destruct Hv; congruence).
  split; [done|]. by apply write_invalid.
Qed.

Lemma from_file_records_input_witness :
  ∃ (self' : Trajectory) (inp : Track) (out : list string),
    from_file cfg3 "f" lines3 = (Ok self', out) ∧
    self'.(input_track) = Some inp ∧
    inp !! "az" = Some (PyList [PyFloat (Finite 10); PyFloat (Finite 20); PyFloat (Finite 30)]).
Proof.
  destruct (from_file_records_input cfg3 "f" lines3)
    as (self' & inp & out & Hrun & Hinp & _ & _ & Haz & _).
  - intros H. discriminate H.
  - intros H. discriminate H.
  - repeat constructor.
  - vm_compute. lia.
  - exists self', inp, out. exact (conj Hrun (conj Hinp Haz)).
Defined.

Lemma from_file_kept_samples_witness :
  ∃ (self' : Trajectory) (ts : list Z) (el : list float64),
    from_file cfg3 "f" lines3 = (Ok self', []) ∧
    attr self' "timestamp" = Some (NdArray (IntArr ts)) ∧
    attr self' "el" = Some (NdArray (FloatArr el)) ∧
    ts `sublist_of` cfg3.(track_tsns) ∧
    StronglySorted Z.lt ts ∧
    Forall (λ e, fgt e (Finite 0.0) = true) el.
Proof.
  destruct (from_file_kept_samples cfg3 "f" lines3)
    as (self' & ts & tm & el & dazdt & deldt & Hrun & Hts & _ & Hel & _ & _ &
        Hsub & _ & Hsorted & Hpos & _).
  - repeat constructor.
  - vm_compute. reflexivity.
  - vm_compute. lia.
  - vm_compute. repeat constructor.
  - exists self', ts, el.
    exact (conj Hrun (conj Hts (conj Hel (conj Hsub (conj Hsorted Hpos))))).
Defined.

Lemma from_file_never_revalidates_witness :
  ∃ (self' : Trajectory) (out : list string),
    from_file (set_valid false cfg3) "f" knots3 = (Ok self', out) ∧
    self'.(valid) = false ∧
    write self' = (Ok (self', []), ["Trajectory not valid."]).
Proof.
  destruct (from_file_overlap (set_valid false cfg3) "f" knots3)
    as (self' & trk & Hrun & _).
  - repeat constructor.
  - vm_compute. reflexivity.
  - vm_compute. lia.
  - exists self', []. split; [exact Hrun|].
    exact (from_file_never_revalidates (set_valid false cfg3) self' "f" knots3 []
             eq_refl Hrun).
Defined.

Lemma existsb_Permutation {A} (p : A → bool) (l l' : list A) :
  l ≡ₚ l' → existsb p l = existsb p l'.
Proof.
  induction 1 as [|x l l' _ IH|x y l|l l' l'' _ IH1 _ IH2]; cbn [existsb].
  - done.
  - by rewrite IH.
  - by rewrite !orb_assoc, (orb_comm (p y)).
  - by rewrite IH1.
Qed.

Lemma NoDup_fst_inj {A B} (l : list (A * B)) (x y : A * B) :
  NoDup l.*1 → x ∈ l → y ∈ l → x.1 = y.1 → x = y.
Proof.
  induction l as [|a l IH]; intros Hnd Hx Hy Heq; [by apply elem_of_nil in Hx|].
  cbn [fmap list_fmap] in Hnd. apply NoDup_cons in Hnd as [Hnotin Hnd].
  apply elem_of_cons in Hx as [->|Hx], Hy as [->|Hy]; [done| | |by apply IH].
  - destruct Hnotin. rewrite Heq. by apply list_elem_of_fmap_2.
  - destruct Hnotin. rewrite <- Heq. by apply list_elem_of_fmap_2.
Qed.

(** With distinct timestamps the interpolant does not depend on the
    order of the lines. *)
Lemma knots_of_Permutation (field : record → float64) (lines lines' : list record) :
  lines ≡ₚ lines' → NoDup (timestamp_of <$> lines) →
  knots_of field lines = knots_of field lines'.
Proof.
  intros Hperm Hnd. unfold knots_of.
  assert (Hzip : ∀ l, zip (timestamp_of <$> l) (field <$> l)
                      = (λ r, (timestamp_of r, field r)) <$> l).
  { intros l. induction l as [|r l IH]; [done|]. cbn [fmap list_fmap zip zip_with].
    by f_equal. }
  rewrite !Hzip.
  set (ks := (λ r, (timestamp_of r, field r)) <$> lines).
  set (ks' := (λ r, (timestamp_of r, field r)) <$> lines').
  assert (Hks : ks ≡ₚ ks') by by apply fmap_Permutation.
  assert (Hfst : NoDup (sort_knots ks).*1).
  { rewrite (sort_knots_perm ks). subst ks.
    by rewrite <- list_fmap_compose. }
  apply (StronglySorted_unique_strong knot_le).
  - intros x1 x2 H1 H2 Hle Hge. apply (NoDup_fst_inj (sort_knots ks)); try done.
    + by rewrite sort_knots_perm, Hks, <- sort_knots_perm.
    + unfold knot_le in *. lia.
  - apply sort_knots_sorted.
  - apply sort_knots_sorted.
  - by rewrite !sort_knots_perm.
Qed.

(** X18. With distinct timestamps the order of the lines of the file
    does not matter: for two files with the same lines in different orders
    [from_file] prints the same and produces the same output track and the
    same valid flag. *)
Theorem from_file_order_independent (self : Trajectory) (filename : string)
    (lines lines' : list record) :
  lines ≡ₚ lines' → NoDup (timestamp_of <$> lines) →
  self.(track_Time) ≠ [] → lines ≠ [] →
  Forall (λ r, is_zero r.(r_range) = false) lines →
  (length self.(track_tsns) ≤ length self.(track_Time))%nat →
  ∃ (s1 s2 : Trajectory) (out : list string),
    from_file self filename lines = (Ok s1, out) ∧
    from_file self filename lines' = (Ok s2, out) ∧
    s1.(track) = s2.(track) ∧ s1.(valid) = s2.(valid).
Proof.
  intros Hperm Hnd Hgrid Hlines Hnz Hlen.
  assert (Hlines' : lines' ≠ []).
  { intros ->. by apply Permutation_nil_r in Hperm. }
  assert (Hnz' : Forall (λ r, is_zero r.(r_range) = false) lines') by by rewrite <- Hperm.
  destruct (from_file_state self filename lines Hgrid Hlines Hnz Hlen)
    as (s1 & trk0 & trk & inp & Hrun & Hv & Htrk & _ & _ & _ & _ & _ & _ & _ &
        _ & _ & _ & _ & _ & -> & Htrk0).
  destruct (from_file_state self filename lines' Hgrid Hlines' Hnz' Hlen)
    as (s2 & trk0' & trk' & inp' & Hrun' & Hv' & Htrk' & _ & _ & _ & _ & _ & _ & _ &
        _ & _ & _ & _ & _ & -> & Htrk0').
  assert (trk0' = trk0) as -> by congruence.
  rewrite <- (existsb_Permutation _ _ _ Hperm) in Hrun', Hv', Htrk'.
  assert (Hg : ∀ f, on_grid f lines' self.(track_tsns) = on_grid f lines self.(track_tsns)).
  { intros f. unfold on_grid. by rewrite (knots_of_Permutation f lines lines'). }
  unfold el_mask in *. rewrite !Hg in Htrk'.
  exists s1, s2. eexists. split; [exact Hrun|]. split; [exact Hrun'|].
  split; congruence.
Qed.

Lemma from_file_order_independent_witness :
  ∃ (s1 s2 : Trajectory) (out : list string),
    from_file cfg3 "f" lines3 = (Ok s1, out) ∧
    from_file cfg3 "f" (reverse lines3) = (Ok s2, out) ∧
    s1.(track) = s2.(track) ∧ s1.(valid) = s2.(valid).
Proof.
  apply (from_file_order_independent cfg3 "f" lines3 (reverse lines3)).
  - symmetry. apply reverse_Permutation.
  - apply (bool_decide_unpack _). by vm_compute.
  - intros H. discriminate H.
  - intros H. discriminate H.
  - repeat constructor.
  - vm_compute. lia.
Defined.

(** ** The summary *)

Lemma pick_fmap {A} (f : A → scalar) from_end (l : list A) :
  pick from_end (f <$> l) = f <$> (if from_end then last l else head l).
Proof.
  destruct from_end; simpl.
  - by rewrite fmap_last.
  - by destruct l.
Qed.

(** X19. [log_track] writes the label and two entries, for the first
    and the last instant.  Each of the pairs l/b, RA/Dec and Az/El is in an
    entry exactly when both of its sequences have a sample (an IndexError
    on either is swallowed); with an empty obstime [log_track] itself fails
    with IndexError. *)
Theorem log_track_summary (self : Track) (filename : string) (name : pyobj)
    (tm : list Q) (ls bs ras decs azs els : list float64) :
  self !! "name" = Some name →
  sequence self "obstime" (PyTime <$> tm) →
  sequence self "l" (PyFloat <$> ls) → sequence self "b" (PyFloat <$> bs) →
  sequence self "ra" (PyFloat <$> ras) → sequence self "dec" (PyFloat <$> decs) →
  sequence self "az" (PyFloat <$> azs) → sequence self "el" (PyFloat <$> els) →
  match head tm, last tm with
  | Some t0, Some t1 =>
      value (log_track self filename) =
        Ok (LogFile name
              [ {| p_label := "Start at:"; p_obstime := PyTime t0;
                   p_lb := pair_entry false (PyFloat <$> ls) (PyFloat <$> bs);
                   p_radec := pair_entry false (PyFloat <$> ras) (PyFloat <$> decs);
                   p_azel := pair_entry false (PyFloat <$> azs) (PyFloat <$> els) |};
                {| p_label := "End at:"; p_obstime := PyTime t1;
                   p_lb := pair_entry true (PyFloat <$> ls) (PyFloat <$> bs);
                   p_radec := pair_entry true (PyFloat <$> ras) (PyFloat <$> decs);
                   p_azel := pair_entry true (PyFloat <$> azs) (PyFloat <$> els) |} ])
  | _, _ => value (log_track self filename) = Raise IndexError
  end.
Proof.
  intros Hname Hts Hl Hb Hra Hdec Haz Hel.
  destruct tm as [|t tm'] eqn:Etm.
  { simpl. by rewrite (log_track_empty self filename name Hname Hts). }
  rewrite <- Etm in *.
  assert (Ht0 : pick false (PyTime <$> tm) = Some (PyTime t)) by by subst.
  destruct (last tm) as [t1|] eqn:Hlast.
  2:{ apply last_None in Hlast. by subst. }
  assert (Ht1 : pick true (PyTime <$> tm) = Some (PyTime t1)).
  { by rewrite pick_fmap, Hlast. }
  replace (head tm) with (Some t) by by subst.
  by rewrite (log_track_sequences self filename name _ _ _ _ _ _ _ _ _
                Hname Hts Ht0 Ht1 Hl Hb Hra Hdec Haz Hel).
Qed.

Lemma log_track_summary_witness :
  value (log_track {["name" := Scalar (PyStr "t"); "obstime" := TimeArr [100%Q; 101%Q];
                     "az" := PyList [PyFloat (Finite 10); PyFloat (Finite 20)];
                     "el" := PyList [PyFloat (Finite 5); PyFloat (Finite 7)];
                     "ra" := PyList [PyFloat (Finite 1)]; "dec" := PyList [];
                     "l" := PyList []; "b" := PyList []]} "track.log") =
    Ok (LogFile (Scalar (PyStr "t"))
          [ {| p_label := "Start at:"; p_obstime := PyTime 100;
               p_lb := None; p_radec := None;
               p_azel := Some (PyFloat (Finite 10), PyFloat (Finite 5)) |};
            {| p_label := "End at:"; p_obstime := PyTime 101;
               p_lb := None; p_radec := None;
               p_azel := Some (PyFloat (Finite 20), PyFloat (Finite 7)) |} ]).
Proof.
  apply (log_track_summary _ "track.log" (Scalar (PyStr "t"))
           [100%Q; 101%Q] [] [] [Finite 1] [] [Finite 10; Finite 20] [Finite 5; Finite 7]).
  - vm_compute. reflexivity.
  - exists (TimeArr [100%Q; 101%Q]). split; vm_compute; reflexivity.
  - exists (PyList []). split; vm_compute; reflexivity.
  - exists (PyList []). split; vm_compute; reflexivity.
  - exists (PyList [PyFloat (Finite 1)]). split; vm_compute; reflexivity.
  - exists (PyList []). split; vm_compute; reflexivity.
  - exists (PyList [PyFloat (Finite 10); PyFloat (Finite 20)]). split; vm_compute; reflexivity.
  - exists (PyList [PyFloat (Finite 5); PyFloat (Finite 7)]). split; vm_compute; reflexivity.
Defined.

(** ** From a generator to the files *)

Lemma select_Exists {A} (p : A → bool) (l : list A) :
  Exists (λ x, p x = true) l → select (p <$> l) l ≠ [].
Proof.
  induction 1 as [x l Hx|x l _ IH]; cbn [fmap list_fmap select].
  - by rewrite Hx.
  - by destruct (p x).
Qed.

(** X20. The files of a resampled track.  For a valid trajectory and a
    file that overlaps the grid with some interpolated elevation above 0.0,
    [from_file] followed by [write] gives a summary labelled
    "Output: <filename>" whose two entries have the first and the last kept
    instant, no l/b and no RA/Dec pair, and an Az/El pair; an ephemeris
    with one line per kept sample; and an archive whose ir is the sentinel
    array, not the interpolated inverse range, whose az is the resampled az
    and whose l is empty. *)
Theorem from_file_write (self : Trajectory) (filename : string) (lines : list record) :
  self.(valid) = true →
  Forall (λ r, is_zero r.(r_range) = false) lines →
  existsb (λ r, within self.(track_Time) r.(r_obstime)) lines = true →
  (length self.(track_tsns) ≤ length self.(track_Time))%nat →
  Exists (λ e, fgt e (Finite 0.0) = true) (on_grid r_el lines self.(track_tsns)) →
  let mask := el_mask lines self.(track_tsns) in
  let ts := select mask self.(track_tsns) in
  let tm := select mask self.(track_Time) in
  let az := select mask (on_grid r_az lines self.(track_tsns)) in
  let el := select mask (on_grid r_el lines self.(track_tsns)) in
  ∃ (self' self'' : Trajectory) (t0 t1 : scalar) (archive : file),
    from_file self filename lines = (Ok self', []) ∧
    pick false (PyTime <$> tm) = Some t0 ∧ pick true (PyTime <$> tm) = Some t1 ∧
    value (write self') =
      Ok (self'',
          [(TRACK_LOG_FILENAME,
            LogFile (Scalar (PyStr ("Output: " +:+ filename)))
              [ {| p_label := "Start at:"; p_obstime := t0; p_lb := None; p_radec := None;
                   p_azel := pair_entry false (PyFloat <$> az) (PyFloat <$> el) |};
                {| p_label := "End at:"; p_obstime := t1; p_lb := None; p_radec := None;
                   p_azel := pair_entry true (PyFloat <$> az) (PyFloat <$> el) |} ]);
           (EPHEM_FILENAME, EphemFile (zip4 ts az el (replicate (length ts) sentinel)));
           (TRAJECTORY_FILENAME, archive)]) ∧
    is_Some (pair_entry false (PyFloat <$> az) (PyFloat <$> el)) ∧
    archive_entry archive "ir" = Some (NdArray (FloatArr (replicate (length ts) sentinel))) ∧
    archive_entry archive "az" = Some (NdArray (FloatArr az)) ∧
    archive_entry archive "l" = Some (PyList []).
Proof.
  intros Hvalid Hnz Hov Hlen Hex mask ts tm az el.
  destruct (existsb_within_grid _ _ Hov) as [Hgrid Hlines].
  destruct (from_file_state self filename lines Hgrid Hlines Hnz Hlen)
    as (self' & trk0 & trk & inp & Hrun & Hv & Htrk & _ & _ & _ & Hname & _ & _ & Hrest &
        _ & _ & _ & _ & _ & Heq & _).
  rewrite Hov in Hrun, Hv, Htrk. fold mask in Heq. fold ts tm az el in Heq.
  assert (Hmask : length mask = length self.(track_tsns)) by apply length_el_mask.
  assert (Hsel : ∀ f, length (select mask (on_grid f lines self.(track_tsns))) = length ts).
  { intros f. apply length_select; unfold on_grid; rewrite ?length_interp1d_call; lia. }
  assert (Hel : el ≠ []).
  { subst el mask. unfold el_mask. by apply (select_Exists (λ e, fgt e (Finite 0.0))). }
  assert (Hts : length ts ≠ 0%nat).
  { rewrite <- (Hsel r_el). fold el. by destruct el. }
  assert (Htm : tm ≠ []).
  { assert (length tm = length ts) by (apply length_select; lia). by destruct tm. }
  assert (Haz : az ≠ []).
  { pose proof (Hsel r_az) as H. fold az in H. by destruct az. }
  destruct (pick_is_Some false (PyTime <$> tm)) as [t0 Ht0]; [by destruct tm|].
  destruct (pick_is_Some true (PyTime <$> tm)) as [t1 Ht1]; [by destruct tm|].
  assert (Hempty : ∀ key, key ∈ ["ra"; "dec"; "l"; "b"] → trk !! key = Some (PyList [])).
  { intros key Hkey. subst trk.
    assert (Hk : trk0 !! key = Some (PyList [])).
    { apply (proj1 (Forall_forall _ _) Hrest).
      repeat (apply elem_of_cons in Hkey as [->|Hkey]; [in_list|]).
      by apply elem_of_nil in Hkey. }
    repeat (apply elem_of_cons in Hkey as [->|Hkey];
              [by rewrite !lookup_insert_ne by done|]).
    by apply elem_of_nil in Hkey. }
  pose proof (write_run self' trk (Scalar (PyStr ("Output: " +:+ filename)))
                (NdArray (IntArr ts)) (NdArray (FloatArr az)) (NdArray (FloatArr el))
                (PyList []) (PyList []) (PyList []) (PyList [])
                tm ts az el [] [] [] [] (PyFloat <$> az) (PyFloat <$> el) t0 t1) as Hw.
  cbv zeta in Hw. rewrite !pair_entry_nil in Hw.
  eexists self', _, t0, t1, _. split; [exact Hrun|].
  split; [exact Ht0|]. split; [exact Ht1|]. split.
  { apply Hw.
    all: try done.
    all: try (by apply Hempty; in_list).
    all: try (subst trk; rewrite ?lookup_insert_ne by done;
                   rewrite ?lookup_insert_eq; done).
    - congruence.
    - apply (Hsel r_az).
    - apply (Hsel r_el). }
  split.
  { unfold pair_entry. simpl. by destruct az, el. }
  done.
Qed.

Lemma from_file_write_witness :
  ∃ (self' self'' : Trajectory) (log archive : file),
    from_file cfg3 "f" knots3 = (Ok self', []) ∧
    value (write self') =
      Ok (self'',
          [(TRACK_LOG_FILENAME, log);
           (EPHEM_FILENAME,
            EphemFile [(100000000000, Finite 10, Finite 5, sentinel);
                       (101000000000, Finite 20, Finite 7, sentinel);
                       (102000000000, Finite 30, Finite 9, sentinel)]);
           (TRAJECTORY_FILENAME, archive)]) ∧
    archive_entry archive "ir" = Some (NdArray (FloatArr [sentinel; sentinel; sentinel])).
Proof.
  destruct (from_file_write cfg3 "f" knots3)
    as (self' & self'' & t0 & t1 & archive & Hrun & _ & _ & Hw & _ & Hir & _).
  - vm_compute. reflexivity.
  - repeat constructor.
  - vm_compute. reflexivity.
  - vm_compute. lia.
  - apply Exists_cons_hd. vm_compute. reflexivity.
  - exists self', self''. eexists _, archive.
    exact (conj Hrun (conj Hw Hir)).
Defined.

Lemma array_float_floats (xs : list float64) : array_float (PyList (PyFloat <$> xs)) = Ok xs.
Proof.
  unfold array_float.
  assert (H : mapM to_float_or_nan (PyFloat <$> xs) = Some xs).
  { apply mapM_Some. induction xs; by constructor. }
  by rewrite H.
Qed.

Lemma pair_entry_is_Some from_end (xs ys : list scalar) :
  xs ≠ [] → ys ≠ [] → is_Some (pair_entry from_end xs ys).
Proof.
  intros Hx Hy. unfold pair_entry.
  destruct (pick_is_Some from_end xs Hx) as [x ->].
  destruct (pick_is_Some from_end ys Hy) as [y ->]. by eexists.
Qed.

Section Files.

Variable to_icrs : Q → Q → Q * Q.
Variable to_altaz : Q * Q → Q → Q * Q.
Variable str_deg : Q → string.

(** X21. The files of a sweep.  For a valid trajectory on a non-empty
    grid, [galactic] followed by [write] gives a summary labelled
    "Galactic b=<b>" whose two entries each have the l/b, RA/Dec and Az/El
    pairs, and an ephemeris with one line per grid instant holding the
    timestamp, the az and el of the sweep and the sentinel; the track's ir,
    empty after [galactic], is the sentinel array after [write], as is the
    archive's. *)
Theorem galactic_write (self : Trajectory) (b rate : Q) :
  self.(valid) = true →
  Qltb b (-90) || Qltb 90 b = false →
  Exists (λ l, (self.(el_horizon) < start_el to_icrs to_altaz self b l)%Q) gp_l →
  length self.(track_Time) = length self.(track_tsns) →
  self.(track_Time) ≠ [] →
  let n := length self.(track_Time) in
  ∃ (self' self'' : Trajectory) (l0 : Q) (p0 p1 : point) (archive : file),
    galactic to_icrs to_altaz str_deg self b rate = (Ok self', []) ∧
    value (write self') =
      Ok (self'',
          [(TRACK_LOG_FILENAME,
            LogFile (Scalar (PyStr ("Galactic b=" +:+ str_deg b))) [p0; p1]);
           (EPHEM_FILENAME,
            EphemFile (zip4 self.(track_tsns)
              (Finite <$> zip_with (sweep_az to_icrs to_altaz l0 (rate * self.(tstep)) b)
                            (seq 0 n) self.(track_Time))
              (Finite <$> zip_with (sweep_el to_icrs to_altaz l0 (rate * self.(tstep)) b)
                            (seq 0 n) self.(track_Time))
              (replicate n sentinel)));
           (TRAJECTORY_FILENAME, archive)]) ∧
    Forall (λ p, is_Some p.(p_lb) ∧ is_Some p.(p_radec) ∧ is_Some p.(p_azel)) [p0; p1] ∧
    archive_entry archive "ir" = Some (NdArray (FloatArr (replicate n sentinel))) ∧
    attr self' "ir" = Some (PyList []) ∧
    attr self'' "ir" = Some (NdArray (FloatArr (replicate n sentinel))).
Proof.
  intros Hvalid Hb Hex Hlen Hgrid n.
  destruct (galactic_run to_icrs to_altaz str_deg self b rate Hb Hex Hlen)
    as (self' & trk & i0 & l0 & Hrun & Hv & Htrk & _ & _ & _ &
        Hname & Hts & Hobs & Hir & _ & Hel & Haz & Hkeys).
  fold n in Hel, Haz, Hkeys.
  assert (Hn : n ≠ 0%nat) by (subst n; by destruct self.(track_Time)).
  assert (Hkey : ∀ key, key ∈ sweep_keys →
            ∃ vs, trk !! key = Some (PyList vs) ∧ vs ≠ []).
  { intros key Hin. destruct (proj1 (Forall_forall _ _) Hkeys key Hin) as (vs & Hvs & Hl).
    exists vs. split; [done|]. intros ->. simpl in Hl. lia. }
  destruct (Hkey "l") as (ls & Hl & Hls); [in_list|].
  destruct (Hkey "b") as (bs & Hbb & Hbs); [in_list|].
  destruct (Hkey "ra") as (ras & Hra & Hras); [in_list|].
  destruct (Hkey "dec") as (decs & Hdec & Hdecs); [in_list|].
  destruct (pick_is_Some false (PyTime <$> self.(track_Time))) as [t0 Ht0];
    [by destruct self.(track_Time)|].
  destruct (pick_is_Some true (PyTime <$> self.(track_Time))) as [t1 Ht1];
    [by destruct self.(track_Time)|].
  set (az := zip_with (sweep_az to_icrs to_altaz l0 (rate * self.(tstep)) b)
               (seq 0 n) self.(track_Time)) in *.
  set (el := zip_with (sweep_el to_icrs to_altaz l0 (rate * self.(tstep)) b)
               (seq 0 n) self.(track_Time)) in *.
  rewrite float_fmap in Hel, Haz.
  assert (Hlaz : length (Finite <$> az) = length self.(track_tsns)).
  { subst az. rewrite length_fmap, length_zip_with, length_seq. lia. }
  assert (Hlel : length (Finite <$> el) = length self.(track_tsns)).
  { subst el. rewrite length_fmap, length_zip_with, length_seq. lia. }
  pose proof (write_run self' trk _ _ _ _ _ _ _ _ _ _ _ _ ls bs ras decs _ _ t0 t1
                ltac:(congruence) Htrk Hname Hobs Ht0 Ht1 Hts eq_refl
                Haz (array_float_floats _) eq_refl Hel (array_float_floats _) eq_refl
                Hl eq_refl Hbb eq_refl Hra eq_refl Hdec eq_refl Hlaz Hlel) as Hw.
  cbv zeta in Hw. replace (length self.(track_tsns)) with n in Hw by (subst n; lia).
  eexists self', _, l0, _, _, _. split; [exact Hrun|]. split; [exact Hw|].
  assert (Hne : ∀ xs : list Q, length (Finite <$> xs) = length self.(track_tsns) →
                               PyFloat <$> (Finite <$> xs) ≠ []).
  { intros xs Hxs Hnil. apply (f_equal length) in Hnil.
    rewrite length_fmap, Hxs in Hnil. simpl in Hnil. subst n. lia. }
  split.
  { repeat constructor; cbn [p_lb p_radec p_azel];
      apply pair_entry_is_Some; auto. }
  split; [done|]. unfold attr. rewrite Htrk. split; [done|].
  cbn [track set_track]. by rewrite lookup_insert_ne, lookup_insert_eq.
Qed.

End Files.

Lemma galactic_write_witness :
  ∃ (self' self'' : Trajectory) (log : file) (rows : list ephem_row) (archive : file),
    galactic plain_icrs level_altaz plain_str cfg3 0 (1 # 10) = (Ok self', []) ∧
    value (write self') =
      Ok (self'', [(TRACK_LOG_FILENAME, log); (EPHEM_FILENAME, EphemFile rows);
                   (TRAJECTORY_FILENAME, archive)]) ∧
    archive_entry archive "ir" = Some (NdArray (FloatArr [sentinel; sentinel; sentinel])).
Proof.
  destruct (galactic_write plain_icrs level_altaz plain_str cfg3 0 (1 # 10))
    as (self' & self'' & l0 & p0 & p1 & archive & Hrun & Hw & _ & Hir & _).
  - reflexivity.
  - reflexivity.
  - apply Exists_exists. eexists. split; [exact gp_l_first|]. by vm_compute.
  - reflexivity.
  - intros H. discriminate H.
  - exists self', self''. eexists _, _, archive.
    exact (conj Hrun (conj Hw Hir)).
Defined.

(** X22. A trajectory as the constructor leaves it is valid but has no
    track: [write] before any generator fails with AttributeError instead
    of reporting an invalid trajectory. *)
Theorem write_before_generator (local time_to_track tstep el_horizon tz : Q)
    (self : Trajectory) (out : list string) :
  Trajectory_init local time_to_track tstep el_horizon tz = (Ok self, out) →
  self.(valid) = true ∧ self.(track) = None ∧
  write self = (Raise AttributeError, []).
Proof.
  unfold Trajectory_init.
  destruct (arange_float _ _) as [offs|e]; [|done]. rewrite bind_lift.
  destruct (arange_int _ _) as [ns|e]; [|done]. rewrite bind_lift.
  intros [= <- _]. done.
Qed.

Lemma write_before_generator_witness :
  write cfg3 = (Raise AttributeError, []).
Proof.
  apply (write_before_generator 100 (1 # 20) 1 30 0 cfg3 []). vm_compute. reflexivity.
Defined.
